(** * CSV_CTS: the date-alignment and pivot pipeline of [report.py]

    A shallow embedding of [cli] in [src/report.py], from the point where the
    per-subject frames have been read (line 206, [pd.concat]) to the table
    that is written out (line 298), together with the properties of the
    repository's specification that concern it.

    Modelling decisions, all taken from the source:
    - a [pd.Timestamp] is its count of nanoseconds since the epoch, a
      [pd.Timedelta] a count of nanoseconds; [NaT] is [None].  Differences are
      taken in [Z];
    - a DataFrame is the list of its rows, in row order; a Series produced by
      [groupby] is an association list on the sorted distinct group keys;
    - [logging] calls append to a log that is threaded through the run and
      survives an exception;
    - Python exceptions that leave [cli] are values of [Exn];
    - text is ASCII ([str.lower], [str.upper] and [str.strip] are modelled
      on it); the rows logged as invalid and the names of the tally columns
      are stated for ASCII text ([PyStr.is_ascii]);
    - a response cell is text or empty, as [pd.read_csv] gives it for a
      column that does not read as numbers;
    - the 64-bit range of the nanosecond counts is not modelled, nor is the
      refusal of the joins of line 298 when a tally column has the name of
      another column of the table: the model returns a table in these
      runs, so that what is proved of every table that the model returns
      holds of every table that [cli] returns.

    The file also embeds what comes before line 206 on what the file system
    and [pd.read_csv] give ([find_files], the checks of [read_datafile], the
    reading loop), and [cli] of [src/collate_csv.py]: a directory is the
    tree of its listings (every directory of the tree could be listed), a
    file carries the frame that reading it returns or the exception that it
    raises, [fnmatch.fnmatch] is a parameter and paths are joined as on a
    POSIX system. *)

From Stdlib Require Import ZArith List Bool Lia Ascii String.
From Stdlib Require Import Sorting.Sorted Permutation.
Import ListNotations.

Set Implicit Arguments.
Local Open Scope Z_scope.

(* ------------------------------------------------------------------ *)
(** ** Python strings: [str], [format], [lower], [strip] *)

Module PyStr.

Local Open Scope string_scope.

(** The character of a decimal digit [0..9]. *)
Definition digit_char (d : Z) : ascii := ascii_of_N (48 + Z.to_N d).

(** Decimal digits of a non-negative integer, most significant first. *)
Fixpoint str_digits (fuel : nat) (n : Z) : string :=
  match fuel with
  | O => ""
  | S f => (if (n <? 10)%Z then "" else str_digits f (n / 10))
           ++ String (digit_char (n mod 10)) ""
  end.

Definition str_abs (n : Z) : string :=
  str_digits (S (Z.to_nat (Z.log2 n))) n.

(** [str(n)] for a Python [int]. *)
Definition str (n : Z) : string :=
  if (n <? 0)%Z then "-" ++ str_abs (- n) else str_abs n.

Fixpoint zeros (k : nat) : string :=
  match k with
  | O => ""
  | S k' => String "0" (zeros k')
  end.

(** ['{:0{prec}d}'.format(x, prec=prec)]: sign first, then zeros up to the
    width, then the digits; a number wider than [prec] is not truncated. *)
Definition format_0d (prec : nat) (x : Z) : string :=
  if (x <? 0)%Z
  then "-" ++ zeros (prec - 1 - String.length (str_abs (- x)))%nat ++ str_abs (- x)
  else zeros (prec - String.length (str_abs x))%nat ++ str_abs x.

(** [str.lower] on ASCII text. *)
Definition lower_char (c : ascii) : ascii :=
  let n := N_of_ascii c in
  if ((65 <=? n) && (n <=? 90))%N then ascii_of_N (n + 32) else c.

Fixpoint lower (s : string) : string :=
  match s with
  | "" => ""
  | String c s' => String (lower_char c) (lower s')
  end.

(** [str.upper] on ASCII text. *)
Definition upper_char (c : ascii) : ascii :=
  let n := N_of_ascii c in
  if ((97 <=? n) && (n <=? 122))%N then ascii_of_N (n - 32) else c.

Fixpoint upper (s : string) : string :=
  match s with
  | "" => ""
  | String c s' => String (upper_char c) (upper s')
  end.

(** [str.isspace] on ASCII text: tab .. carriage return, the four
    separators 28..31, and the space. *)
Definition is_space (c : ascii) : bool :=
  let n := N_of_ascii c in
  (((9 <=? n) && (n <=? 13)) || ((28 <=? n) && (n <=? 32)))%N.

Fixpoint lstrip (s : string) : string :=
  match s with
  | "" => ""
  | String c s' => if is_space c then lstrip s' else s
  end.

Fixpoint rstrip (s : string) : string :=
  match s with
  | "" => ""
  | String c s' =>
      match rstrip s' with
      | "" => if is_space c then "" else String c ""
      | t => String c t
      end
  end.

Definition strip (s : string) : string := rstrip (lstrip s).

(** [str.isascii]: every character is below 128.  On such text [lower],
    [upper] and [strip] above are Python's. *)
Fixpoint is_ascii (s : string) : bool :=
  match s with
  | "" => true
  | String c s' => (N_of_ascii c <? 128)%N && is_ascii s'
  end.

(** Numeric reading of a digit string, used to reason about [str]. *)
Definition digit_val (c : ascii) : Z := Z.of_N (N_of_ascii c) - 48.

Fixpoint value_acc (acc : Z) (s : string) : Z :=
  match s with
  | "" => acc
  | String c s' => value_acc (acc * 10 + digit_val c) s'
  end.

Definition value (s : string) : Z := value_acc 0 s.

Fixpoint all_digits (s : string) : Prop :=
  match s with
  | "" => True
  | String c s' => (0 <= digit_val c <= 9) /\ all_digits s'
  end.

End PyStr.

(* ------------------------------------------------------------------ *)
(** ** Timestamps and time deltas *)

Definition Timestamp := Z.
Definition Timedelta := Z.

Definition ns_per_day : Z := 86400000000000.

(** [pd.Timedelta(days=n)] *)
Definition Timedelta_days (n : Z) : Timedelta := n * ns_per_day.

(** The [.days] attribute of a [Timedelta]: whole days, rounded down. *)
Definition td_days (d : Timedelta) : Z := d / ns_per_day.

(** A timestamp that carries no time of day (midnight). *)
Definition whole_day (t : Timestamp) : Prop := t mod ns_per_day = 0.

(* ------------------------------------------------------------------ *)
(** ** Python dictionaries with string keys (the sections of the INI file)

    Insertion-ordered, one entry per key. *)

Module Dict.

Definition t := list (string * string).

Fixpoint get (k : string) (d : t) : option string :=
  match d with
  | [] => None
  | (k', v) :: d' => if String.eqb k k' then Some v else get k d'
  end.

(** [d[k] = v] *)
Fixpoint set (k v : string) (d : t) : t :=
  match d with
  | [] => [(k, v)]
  | (k', v') :: d' =>
      if String.eqb k k' then (k, v) :: d' else (k', v') :: set k v d'
  end.

Definition keys (d : t) : list string := map fst d.
Definition values (d : t) : list string := map snd d.

(** [x in xs] *)
Definition mem (x : string) (xs : list string) : bool :=
  existsb (String.eqb x) xs.

End Dict.

(** The values read from the configuration file that [cli] uses after line
    168: the sections [responses] and [response_names] (configparser has
    lower-cased their keys), and the two integers of [datemap]. *)
Record Config := mkConfig {
  cfg_responses : Dict.t;
  cfg_response_names : Dict.t;
  cfg_offset_days : Z;
  cfg_max_days : Z
}.

(* ------------------------------------------------------------------ *)
(** ** Exceptions and the logging run *)

Inductive Exn :=
| AssertionError
| KeyError (key : string)
| ValueError (msg : string)
| NotImplementedError (msg : string).

Inductive Result (A : Type) :=
| Ok (a : A)
| Raise (e : Exn).

Arguments Ok {A} a.
Arguments Raise {A} e.

(** A computation that appends to the log of type [list L] and either
    returns or raises; the log written so far is kept when it raises. *)
Definition Run (L A : Type) : Type := list L -> list L * Result A.

Definition ret {L A} (a : A) : Run L A := fun log => (log, Ok a).

Definition raise {L A} (e : Exn) : Run L A := fun log => (log, Raise e).

Definition bind {L A B} (m : Run L A) (k : A -> Run L B) : Run L B :=
  fun log =>
    match m log with
    | (log', Ok a) => k a log'
    | (log', Raise e) => (log', Raise e)
    end.

Definition emit {L} (entry : L) : Run L unit :=
  fun log => (log ++ [entry], Ok tt).

Definition assert_ {L} (b : bool) : Run L unit :=
  if b then ret tt else raise AssertionError.

Declare Scope run_scope.
Delimit Scope run_scope with run.
Notation "x <- m ;; k" := (bind m (fun x => k))
  (at level 61, m at next level, right associativity) : run_scope.
Notation "m ;; k" := (bind m (fun _ => k))
  (at level 61, right associativity) : run_scope.

(* ------------------------------------------------------------------ *)
(** ** Sorting with removal of repeats, duplicate detection *)

Fixpoint insert_uniq {A} (cmp : A -> A -> comparison) (x : A) (l : list A)
  : list A :=
  match l with
  | [] => [x]
  | y :: t =>
      match cmp x y with
      | Lt => x :: l
      | Eq => l
      | Gt => y :: insert_uniq cmp x t
      end
  end.

(** [sorted(set(l))] *)
Definition sort_uniq {A} (cmp : A -> A -> comparison) (l : list A) : list A :=
  fold_right (insert_uniq cmp) [] l.

Fixpoint has_dup {A} (eqb : A -> A -> bool) (l : list A) : bool :=
  match l with
  | [] => false
  | x :: t => existsb (eqb x) t || has_dup eqb t
  end.

Definition list_min (l : list Z) : option Z :=
  match l with
  | [] => None
  | x :: t => Some (fold_left Z.min t x)
  end.

Definition list_max (l : list Z) : option Z :=
  match l with
  | [] => None
  | x :: t => Some (fold_left Z.max t x)
  end.

Definition is_none {A} (o : option A) : bool :=
  match o with
  | None => true
  | Some _ => false
  end.

(** The column label of a day number (line 257). *)
Definition day_label (max_days day : Z) : string :=
  ("Day" ++ PyStr.format_0d (String.length (PyStr.str max_days)) day)%string.

(* ------------------------------------------------------------------ *)
(** ** Subject identifiers

    The values of the id column: compared for equality by [duplicated],
    [join] and [groupby], and ordered by [sorted] and [pivot]. *)

Class SubjectId (Id : Type) : Type := {
  id_compare : Id -> Id -> comparison;
  id_compare_eq : forall a b, id_compare a b = Eq <-> a = b;
  id_compare_antisym : forall a b, id_compare b a = CompOpp (id_compare a b);
  id_compare_trans : forall a b c,
      id_compare a b = Lt -> id_compare b c = Lt -> id_compare a c = Lt
}.

Definition id_eqb {Id} `{SubjectId Id} (a b : Id) : bool :=
  match id_compare a b with
  | Eq => true
  | _ => false
  end.

Definition id_lt {Id} `{SubjectId Id} (a b : Id) : Prop := id_compare a b = Lt.

#[export] Instance Z_SubjectId : SubjectId Z.
Proof.
  refine {| id_compare := Z.compare |}.
  - intros a b. apply Z.compare_eq_iff.
  - intros a b. apply Z.compare_antisym.
  - intros a b c Hab Hbc. rewrite Z.compare_lt_iff in *. lia.
Defined.

#[export] Instance string_SubjectId : SubjectId string.
Proof.
  refine {| id_compare := String.compare |}.
  - intros a b. split.
    + apply String.compare_eq_iff.
    + intros ->. induction b as [|c b IH]; simpl; [reflexivity|].
      unfold Ascii.compare. now rewrite N.compare_refl.
  - intros a b. apply String.compare_antisym.
  - intros a. induction a as [|x a IH]; intros [|y b] [|z c]; simpl;
      try discriminate; try reflexivity.
    unfold Ascii.compare.
    destruct (N.compare_spec (N_of_ascii x) (N_of_ascii y)) as [Exy|Lxy|Gxy];
      try discriminate;
      destruct (N.compare_spec (N_of_ascii y) (N_of_ascii z)) as [Eyz|Lyz|Gyz];
      try discriminate; intros Hab Hbc.
    + rewrite Exy, Eyz, N.compare_refl. eapply IH; eassumption.
    + rewrite Exy. now apply N.compare_lt_iff in Lyz as ->.
    + rewrite <- Eyz. now apply N.compare_lt_iff in Lxy as ->.
    + assert (Hxz : (N_of_ascii x < N_of_ascii z)%N) by lia.
      now apply N.compare_lt_iff in Hxz as ->.
Defined.

(* ------------------------------------------------------------------ *)
(** ** The frames of the pipeline *)

Section Frames.

Context {Id : Type} {HId : SubjectId Id}.

(** A row as [read_datafile] returns it: index [(id, date)], the response
    column ([None] for an empty cell) and, from line 203, the source file. *)
Record RawRow := mkRawRow {
  raw_id : Id;
  raw_date : Timestamp;
  raw_response : option string;
  raw_source : string
}.

(** A row once the empty cells are filled (line 209). *)
Record Row := mkRow {
  r_id : Id;
  r_date : Timestamp;
  r_response : string;
  r_source : string
}.

(** A row after the left join with the start dates (line 234):
    [date_one] is [NaT] for an id that the start-date file lacks. *)
Record Joined := mkJoined {
  j_row : Row;
  j_date_one : option Timestamp
}.

(** ... with the column [delta] (lines 243-244). *)
Record Timed := mkTimed {
  t_row : Joined;
  t_delta : option Timedelta
}.

(** ... with the columns [days] and [pivot] (lines 251-258); [a_delta] is
    the value of [delta], which is not [NaT] past the window filter. *)
Record Aligned := mkAligned {
  a_row : Timed;
  a_delta : Timedelta;
  a_days : Z;
  a_pivot : string
}.

Definition a_id (a : Aligned) : Id := r_id (j_row (t_row (a_row a))).
Definition a_date (a : Aligned) : Timestamp := r_date (j_row (t_row (a_row a))).
Definition a_response (a : Aligned) : string :=
  r_response (j_row (t_row (a_row a))).

(** What the run writes to the log file. *)
Inductive LogEntry :=
| ErrorInvalidResponses (rows : list Row)
| ErrorDuplicateRows (rows : list Row)
| WarnMissingStartDates (ids : list Id).

(** One row of the output table: the day cells, then [Total_Period], the
    tally cells, [First_Response] and [First_Yes]; [None] is an empty cell. *)
Record ResultRow := mkResultRow {
  row_id : Id;
  row_days : list (option string);
  row_period : option Z;
  row_totals : list (option Z);
  row_first_response : option Z;
  row_first_yes : option Z
}.

Record Table := mkTable {
  day_columns : list string;
  total_columns : list string;
  table_rows : list ResultRow
}.

Definition table_columns (t : Table) : list string :=
  day_columns t ++ ["Total_Period"%string] ++ total_columns t
  ++ ["First_Response"%string; "First_Yes"%string].

(** A Series indexed by subject id. *)
Definition Series (V : Type) : Type := list (Id * V).

Fixpoint series_get {V} (i : Id) (s : Series V) : option V :=
  match s with
  | [] => None
  | (i', v) :: s' => if id_eqb i i' then Some v else series_get i s'
  end.

End Frames.

Arguments RawRow Id : clear implicits.
Arguments Row Id : clear implicits.
Arguments Joined Id : clear implicits.
Arguments Timed Id : clear implicits.
Arguments Aligned Id : clear implicits.
Arguments LogEntry Id : clear implicits.
Arguments ResultRow Id : clear implicits.
Arguments Table Id : clear implicits.
Arguments Series Id V : clear implicits.

(* ------------------------------------------------------------------ *)
(** ** The stages of [cli] *)

Section Cli.

Context {Id : Type} {HId : SubjectId Id}.

Local Open Scope run_scope.

(** The runs of [cli]: they log [LogEntry] values. *)
Definition CliRun (A : Type) : Type := Run (LogEntry Id) A.

(** Line 206: [pd.concat] refuses an empty list of frames. *)
Definition concat_frames (data_frames : list (list (RawRow Id)))
  : CliRun (list (RawRow Id)) :=
  match data_frames with
  | [] => raise (ValueError "No objects to concatenate")
  | _ => ret (List.concat data_frames)
  end.

(** Line 209: [df.fillna('B')]. *)
Definition fillna (df : list (RawRow Id)) : list (Row Id) :=
  map (fun r => mkRow (raw_id r) (raw_date r)
                  (match raw_response r with
                   | Some x => x
                   | None => "B"%string
                   end)
                  (raw_source r)) df.

(** Line 212: [x.lower().strip()] on the response column. *)
Definition lower_strip (df : list (Row Id)) : list (Row Id) :=
  map (fun r => mkRow (r_id r) (r_date r)
                  (PyStr.strip (PyStr.lower (r_response r)))
                  (r_source r)) df.

(** Lines 215-220: a response is valid when it is a key of the response
    map (no response is null once the blanks are filled). *)
Definition valid_response (responses : list string) (r : Row Id) : bool :=
  Dict.mem (r_response r) responses.

Definition drop_invalid (responses : list string) (df : list (Row Id))
  : CliRun (list (Row Id)) :=
  if forallb (valid_response responses) df
  then ret df
  else emit (ErrorInvalidResponses
               (filter (fun r => negb (valid_response responses r)) df)) ;;
       ret (filter (valid_response responses) df).

(** Line 223: [response_map[x]] on the response column; the first response
    that is not a key raises [KeyError]. *)
Definition canonical_rows (response_map : Dict.t) (df : list (Row Id))
  : list (Row Id) :=
  flat_map (fun r => match Dict.get (r_response r) response_map with
                     | Some v => [mkRow (r_id r) (r_date r) v (r_source r)]
                     | None => []
                     end) df.

Definition canonical (response_map : Dict.t) (df : list (Row Id))
  : CliRun (list (Row Id)) :=
  match find (fun r => is_none (Dict.get (r_response r) response_map)) df with
  | Some r => raise (KeyError (r_response r))
  | None => ret (canonical_rows response_map df)
  end.

(** Lines 225-231: [df.index.duplicated(False)] marks every row whose
    [(id, date)] index value occurs more than once. *)
Definition same_key (a b : Row Id) : bool :=
  id_eqb (r_id a) (r_id b) && (r_date a =? r_date b).

Definition duplicated (df : list (Row Id)) (r : Row Id) : bool :=
  Nat.ltb 1 (List.length (filter (same_key r) df)).

Definition remove_duplicated (df : list (Row Id)) : list (Row Id) :=
  filter (fun r => negb (duplicated df r)) df.

Definition drop_duplicates (df : list (Row Id)) : CliRun (list (Row Id)) :=
  if existsb (duplicated df) df
  then emit (ErrorDuplicateRows (filter (duplicated df) df)) ;;
       ret (remove_duplicated df)
  else ret df.

(** Line 234: [df.join(date_map, how='left')] joins the id level of the
    frame's index with the index of [date_map]; pandas refuses to join a
    level with an index that has repeated values. *)
Definition join_rows (df : list (Row Id)) (date_map : Series Id Timestamp)
  : list (Joined Id) :=
  map (fun r => mkJoined r (series_get (r_id r) date_map)) df.

Definition join_date_map (df : list (Row Id)) (date_map : Series Id Timestamp)
  : CliRun (list (Joined Id)) :=
  if has_dup id_eqb (map fst date_map)
  then raise (NotImplementedError
                "Index._join_level on non-unique index is not implemented")
  else ret (join_rows df date_map).

(** Lines 237-240. *)
Definition missing_starts (df : list (Joined Id)) : list Id :=
  sort_uniq id_compare
    (map (fun j => r_id (j_row j))
       (filter (fun j => is_none (j_date_one j)) df)).

Definition warn_missing_starts (df : list (Joined Id)) : CliRun unit :=
  match missing_starts df with
  | [] => ret tt
  | ids => emit (WarnMissingStartDates ids)
  end.

(** Lines 243-244: [date - date_one - Timedelta(days=date1_offset)];
    arithmetic with [NaT] gives [NaT]. *)
Definition add_delta (date1_offset : Z) (df : list (Joined Id))
  : list (Timed Id) :=
  map (fun j => mkTimed j
                  (match j_date_one j with
                   | Some start =>
                       Some (r_date (j_row j) - start
                             - Timedelta_days date1_offset)
                   | None => None
                   end)) df.

(** Lines 247-248: a comparison with [NaT] is false. *)
Definition delta_ge (x : Timedelta) (t : Timed Id) : bool :=
  match t_delta t with
  | Some d => x <=? d
  | None => false
  end.

Definition delta_lt (x : Timedelta) (t : Timed Id) : bool :=
  match t_delta t with
  | Some d => d <? x
  | None => false
  end.

Definition window_filter (max_days : Z) (df : list (Timed Id))
  : list (Timed Id) :=
  filter (delta_lt (Timedelta_days max_days))
    (filter (delta_ge (Timedelta_days 0)) df).

(** Lines 251-258: [days = delta.days + 1] and the label to pivot on. *)
Definition add_days (max_days : Z) (df : list (Timed Id))
  : list (Aligned Id) :=
  flat_map (fun t => match t_delta t with
                     | Some d =>
                         [mkAligned t d (td_days d + 1)
                            (day_label max_days (td_days d + 1))]
                     | None => []
                     end) df.

(** Lines 262-264: [pivot(index=id, values=response, columns='pivot')]:
    one row per id and one column per label, both sorted; two rows of the
    frame for one cell make pandas raise. *)
Record Pivot := mkPivot {
  p_columns : list string;
  p_rows : Series Id (list (option string))
}.

Definition same_cell (a b : Aligned Id) : bool :=
  id_eqb (a_id a) (a_id b) && String.eqb (a_pivot a) (a_pivot b).

Definition pivot_cell (df : list (Aligned Id)) (i : Id) (c : string)
  : option string :=
  option_map a_response
    (find (fun r => id_eqb (a_id r) i && String.eqb (a_pivot r) c) df).

Definition pivot_table (df : list (Aligned Id)) : Pivot :=
  let cols := sort_uniq String.compare (map a_pivot df) in
  mkPivot cols
    (map (fun i => (i, map (pivot_cell df i) cols))
       (sort_uniq id_compare (map a_id df))).

Definition pivot_days (df : list (Aligned Id)) : CliRun Pivot :=
  if has_dup same_cell df
  then raise (ValueError "Index contains duplicate entries, cannot reshape")
  else ret (pivot_table df).

(** [df.groupby(level=0)]: the rows of each id, ids sorted. *)
Definition groupby (df : list (Aligned Id)) : Series Id (list (Aligned Id)) :=
  map (fun i => (i, filter (fun r => id_eqb (a_id r) i) df))
    (sort_uniq id_compare (map a_id df)).

Definition agg {V} (f : list (Aligned Id) -> option V)
  (groups : Series Id (list (Aligned Id))) : Series Id V :=
  flat_map (fun g => match f (snd g) with
                     | Some v => [(fst g, v)]
                     | None => []
                     end) groups.

(** Line 267. *)
Definition first_days (df : list (Aligned Id)) : Series Id Z :=
  agg (fun g => list_min (map a_days g)) (groupby df).

(** Line 271. *)
Definition first_yes (df : list (Aligned Id)) : Series Id Z :=
  agg (fun g => list_min (map a_days g))
    (groupby (filter (fun r => String.eqb (a_response r) "Y") df)).

(** Lines 275-278: the difference of two Series on the same index. *)
Definition series_sub (a b : Series Id Z) : Series Id Z :=
  flat_map (fun e => match series_get (fst e) b with
                     | Some y => [(fst e, snd e - y)]
                     | None => []
                     end) a.

Definition total_period (df : list (Aligned Id)) : Series Id Z :=
  map (fun e => (fst e, td_days (snd e) + 1))
    (series_sub (agg (fun g => list_max (map a_delta g)) (groupby df))
                (agg (fun g => list_min (map a_delta g)) (groupby df))).

(** Line 285: [{k.upper(): 'Total_%s' % v for k, v in names.items()}]. *)
Definition total_names (response_names : Dict.t) : Dict.t :=
  fold_left (fun d kv => Dict.set (PyStr.upper (fst kv))
                           ("Total_" ++ snd kv)%string d)
    response_names [].

(** [rename(columns=names)]: a label that is no key of [names] stays. *)
Definition rename (names : Dict.t) (c : string) : string :=
  match Dict.get c names with
  | Some n => n
  | None => c
  end.




(** Lines 286-296.  [value_counts] lists the codes that occur in a group
    with their counts (its order is lost in the pivot that follows). *)
Definition count_code (c : string) (g : list (Aligned Id)) : Z :=
  Z.of_nat (List.length (filter (fun r => String.eqb (a_response r) c) g)).

Definition value_counts (g : list (Aligned Id)) : list (string * Z) :=
  map (fun c => (c, count_code c g))
    (sort_uniq String.compare (map a_response g)).

Fixpoint counts_get (c : string) (vc : list (string * Z)) : option Z :=
  match vc with
  | [] => None
  | (c', n) :: vc' => if String.eqb c c' then Some n else counts_get c vc'
  end.

(** The tally frame: [pivot] makes one column per code that occurs in the
    frame and one row per id, [fillna(0)] fills the cells of the codes that
    a subject lacks, [rename] gives the columns their names.  The counts are
    kept in [Z]: [astype(np.int32)] leaves a count below [2^31] as it is. *)
Record Tally := mkTally {
  tally_columns : list string;
  tally_rows : Series Id (list Z)
}.

Definition tally_codes (df : list (Aligned Id)) : list string :=
  sort_uniq String.compare (map a_response df).

Definition tally (response_names : Dict.t) (df : list (Aligned Id)) : Tally :=
  mkTally
    (map (rename (total_names response_names)) (tally_codes df))
    (map (fun g => (fst g,
                    map (fun c => match counts_get c (value_counts (snd g)) with
                                  | Some n => n
                                  | None => 0
                                  end) (tally_codes df)))
       (groupby df)).

(** Line 298: [pivot.join(days).join(tally).join(first_days).join(first_yes)],
    left joins on the id index of [pivot]. *)
Definition join_tally (i : Id) (t : Tally) : list (option Z) :=
  match series_get i (tally_rows t) with
  | Some cells => map Some cells
  | None => map (fun _ => None) (tally_columns t)
  end.

Definition result_table (response_names : Dict.t) (df : list (Aligned Id))
  (pivot : Pivot) : Table Id :=
  let days := total_period df in
  let tl := tally response_names df in
  mkTable (p_columns pivot) (tally_columns tl)
    (map (fun e => mkResultRow (fst e) (snd e)
                     (series_get (fst e) days)
                     (join_tally (fst e) tl)
                     (series_get (fst e) (first_days df))
                     (series_get (fst e) (first_yes df)))
       (p_rows pivot)).

(** [cli], lines 169-298, on the frames that were read. *)
Definition cli (cfg : Config) (date_map : Series Id Timestamp)
  (data_frames : list (list (RawRow Id))) : CliRun (Table Id) :=
  assert_ (negb (Dict.mem "b" (Dict.keys (cfg_responses cfg)))) ;;
  assert_ (negb (Dict.mem "B" (Dict.values (cfg_responses cfg)))) ;;
  let response_map := Dict.set "b" "B" (cfg_responses cfg) in
  let responses := Dict.keys response_map in
  let date1_offset := cfg_offset_days cfg in
  let max_days := cfg_max_days cfg in
  df <- concat_frames data_frames ;;
  let df := fillna df in
  let df := lower_strip df in
  df <- drop_invalid responses df ;;
  df <- canonical response_map df ;;
  df <- drop_duplicates df ;;
  df <- join_date_map df date_map ;;
  warn_missing_starts df ;;
  let df := add_delta date1_offset df in
  let df := window_filter max_days df in
  let df := add_days max_days df in
  pivot <- pivot_days df ;;
  ret (result_table (cfg_response_names cfg) df pivot).

(** The frame after each group of stages, as a function of the inputs. *)
Definition response_map_of (cfg : Config) : Dict.t :=
  Dict.set "b" "B" (cfg_responses cfg).

Definition concatenated (data_frames : list (list (RawRow Id)))
  : list (Row Id) :=
  lower_strip (fillna (List.concat data_frames)).

Definition validated (cfg : Config) (data_frames : list (list (RawRow Id)))
  : list (Row Id) :=
  canonical_rows (response_map_of cfg)
    (filter (valid_response (Dict.keys (response_map_of cfg)))
       (concatenated data_frames)).

Definition normalized (cfg : Config) (data_frames : list (list (RawRow Id)))
  : list (Row Id) :=
  remove_duplicated (validated cfg data_frames).

Definition joined (cfg : Config) (date_map : Series Id Timestamp)
  (data_frames : list (list (RawRow Id))) : list (Timed Id) :=
  add_delta (cfg_offset_days cfg)
    (join_rows (normalized cfg data_frames) date_map).

Definition survivors (cfg : Config) (date_map : Series Id Timestamp)
  (data_frames : list (list (RawRow Id))) : list (Aligned Id) :=
  add_days (cfg_max_days cfg)
    (window_filter (cfg_max_days cfg) (joined cfg date_map data_frames)).

(** What each logging stage appends to the log. *)
Definition invalid_log (responses : list string) (df : list (Row Id))
  : list (LogEntry Id) :=
  if forallb (valid_response responses) df then []
  else [ErrorInvalidResponses
          (filter (fun r => negb (valid_response responses r)) df)].

Definition duplicates_log (df : list (Row Id)) : list (LogEntry Id) :=
  if existsb (duplicated df) df
  then [ErrorDuplicateRows (filter (duplicated df) df)]
  else [].

Definition missing_log (df : list (Joined Id)) : list (LogEntry Id) :=
  match missing_starts df with
  | [] => []
  | ids => [WarnMissingStartDates ids]
  end.

End Cli.

(* ------------------------------------------------------------------ *)
(** ** Notions used to state the properties *)

Section Notions.

Context {Id : Type} {HId : SubjectId Id}.

(** The number of rows of a frame whose index value is [(i, d)]. *)
Definition key_count (i : Id) (d : Timestamp) (df : list (Row Id)) : nat :=
  List.length (filter (same_key (mkRow i d "" "")) df).

(** The rows of a subject in the aligned frame. *)
Definition subject_rows (i : Id) (df : list (Aligned Id)) : list (Aligned Id) :=
  filter (fun r => id_eqb (a_id r) i) df.

(** Two aligned rows with the same index value. *)
Definition same_index (a b : Aligned Id) : bool :=
  id_eqb (a_id a) (a_id b) && (a_date a =? a_date b).

(** The ids of the rows of a table, in row order. *)
Definition table_ids (t : Table Id) : list Id := map row_id (table_rows t).

(** Every timestamp that was read is a calendar date. *)
Definition dates_only (data_frames : list (list (RawRow Id))) : Prop :=
  forall f r, In f data_frames -> In r f -> whole_day (raw_date r).

(** Every response that was read is ASCII text. *)
Definition ascii_responses (data_frames : list (list (RawRow Id))) : Prop :=
  forall f r s, In f data_frames -> In r f -> raw_response r = Some s ->
                PyStr.is_ascii s = true.

End Notions.

(* ------------------------------------------------------------------ *)
(** ** Sample runs *)

Module Sample.

Local Open Scope string_scope.

(** Midnight of the day with the given number (days since 1970-01-01). *)
Definition day (n : Z) : Timestamp := n * ns_per_day.

Definition hour (n : Z) : Timedelta := n * 3600000000000.

(** 2020-01-10 is day 18271. *)
Definition cfg : Config :=
  mkConfig [("y", "Y"); ("n", "N"); ("m", "M")]
           [("y", "Yes"); ("n", "No"); ("m", "Missing"); ("b", "Blank")]
           2 5.

Definition date_map : Series string Timestamp :=
  [("S1", day 18271); ("S2", day 18300)].

Definition frames : list (list (RawRow string)) :=
  [ [ mkRawRow "S1" (day 18273) (Some " Y ") "S1/a.csv";
      mkRawRow "S1" (day 18274) None "S1/a.csv";
      mkRawRow "S1" (day 18278) (Some "n") "S1/a.csv";
      mkRawRow "S1" (day 18277) (Some "y") "S1/a.csv" ];
    [ mkRawRow "S2" (day 18302) (Some "N") "S2/a.csv";
      mkRawRow "S2" (day 18301) (Some "y") "S2/a.csv" ];
    [ mkRawRow "S3" (day 18273) (Some "y") "S3/a.csv" ] ].

(** Two rows for one index value, one of them with an unknown response. *)
Definition frames_invalid_twin : list (list (RawRow string)) :=
  [ [ mkRawRow "S1" (day 18273) (Some "y") "S1/a.csv" ];
    [ mkRawRow "S1" (day 18273) (Some "x") "S1/b.csv" ] ].

(** Two rows for one index value, both with a known response. *)
Definition frames_twin : list (list (RawRow string)) :=
  [ [ mkRawRow "S1" (day 18273) (Some "y") "S1/a.csv";
      mkRawRow "S1" (day 18274) (Some "n") "S1/a.csv" ];
    [ mkRawRow "S1" (day 18273) (Some "n") "S1/b.csv" ] ].


(** Two readings on one calendar day, at 08:00 and at 20:00. *)
Definition frames_same_day : list (list (RawRow string)) :=
  [ [ mkRawRow "S1" (day 18273 + hour 8) (Some "y") "S1/a.csv";
      mkRawRow "S1" (day 18273 + hour 20) (Some "n") "S1/a.csv" ] ].

(** The table of the first run and its row for ["S1"]. *)
Definition table : Table string :=
  result_table (cfg_response_names cfg) (survivors cfg date_map frames)
    (pivot_table (survivors cfg date_map frames)).

Definition row_S1 : ResultRow string :=
  mkResultRow "S1" [Some "Y"; Some "B"; Some "Y"] (Some 5)
    [Some 1; Some 0; Some 2] (Some 1) (Some 1).

Definition row_S2 : ResultRow string :=
  mkResultRow "S2" [Some "N"; None; None] (Some 1)
    [Some 0; Some 1; Some 0] (Some 1) None.

(** The blank record of ["S1"] in the aligned frame of the first run. *)
Definition blank_S1 : Aligned string :=
  mkAligned
    (mkTimed (mkJoined (mkRow "S1" (day 18274) "B" "S1/a.csv")
                (Some (day 18271)))
       (Some (day 1)))
    (day 1) 2 "Day2".

(** A response map that uses the key and the value kept for blanks. *)
Definition cfg_blank_key : Config :=
  mkConfig [("y", "Y"); ("b", "Blank")] [("y", "Yes")] 0 5.

Definition cfg_blank_value : Config :=
  mkConfig [("y", "Y"); ("x", "B")] [("y", "Yes")] 0 5.


End Sample.

(* ------------------------------------------------------------------ *)
(** ** Notions used to state further properties of the table *)

(** The sum of the tally cells of a row. *)
Definition totals_sum (l : list (option Z)) : Z :=
  fold_right (fun o acc => match o with
                           | Some n => n + acc
                           | None => acc
                           end) 0 l.

(** The number of day cells of a row that hold a response. *)
Definition filled_cells (l : list (option string)) : nat :=
  List.length (filter (fun o => negb (is_none o)) l).

(* ------------------------------------------------------------------ *)
(** ** Paths, directory listings and two more string methods *)

(** [s.endswith(suffix)] *)
Fixpoint str_endswith (s suffix : string) : bool :=
  String.eqb s suffix
  || match s with
     | EmptyString => false
     | String _ s' => str_endswith s' suffix
     end.

(** [s.split(sep)] for a separator of one character. *)
Fixpoint str_split (sep : ascii) (s : string) : list string :=
  match s with
  | EmptyString => [EmptyString]
  | String c s' =>
      if Ascii.eqb c sep then EmptyString :: str_split sep s'
      else match str_split sep s' with
           | piece :: pieces => String c piece :: pieces
           | [] => [String c EmptyString]
           end
  end.

(** [sep.join(pieces)] *)
Fixpoint str_join (sep : string) (pieces : list string) : string :=
  match pieces with
  | [] => EmptyString
  | [piece] => piece
  | piece :: rest => (piece ++ sep ++ str_join sep rest)%string
  end.

Fixpoint contains_char (c : ascii) (s : string) : bool :=
  match s with
  | EmptyString => false
  | String c' s' => Ascii.eqb c' c || contains_char c s'
  end.

Definition starts_with_sep (s : string) : bool :=
  match s with
  | String c _ => Ascii.eqb c "/"
  | EmptyString => false
  end.

Fixpoint ends_with_sep (s : string) : bool :=
  match s with
  | EmptyString => false
  | String c EmptyString => Ascii.eqb c "/"
  | String _ s' => ends_with_sep s'
  end.

(** [os.path.join(a, b)] on a POSIX system. *)
Definition path_join (a b : string) : string :=
  if starts_with_sep b then b
  else if String.eqb a "" || ends_with_sep a then (a ++ b)%string
  else (a ++ "/" ++ b)%string.

(** An entry of a directory listing: a regular file, a directory with its
    own listing, or an entry that is neither (for which [is_file()] and
    [is_dir()] are both false).  An entry that can be opened carries what
    reading it gives. *)
Inductive Entry (C : Type) : Type :=
| File (name : string) (content : C)
| Dir (name : string) (children : list (Entry C))
| Special (name : string) (content : C).

Arguments File {C} name content.
Arguments Dir {C} name children.
Arguments Special {C} name content.

(** The entry [name], read as [content], is at [path] in the tree whose top
    directory [root] has the listing [listing]. *)
Inductive located {C : Type}
  : string -> list (Entry C) -> string -> string -> C -> Prop :=
| located_file root listing name content :
    In (File name content) listing ->
    located root listing (path_join root name) name content
| located_special root listing name content :
    In (Special name content) listing ->
    located root listing (path_join root name) name content
| located_below root listing dir children path name content :
    In (Dir dir children) listing ->
    located (path_join root dir) children path name content ->
    located root listing path name content.

(* ------------------------------------------------------------------ *)
(** ** Finding and reading the data files ([report.py], lines 78-134 and
    191-205) *)

Section Reading.

Context {Id : Type} {HId : SubjectId Id}.

(** A row of a data file as [pd.read_csv] parses it (lines 89-94). *)
Record DataRow := mkDataRow {
  d_id : Id;
  d_date : Timestamp;
  d_response : option string
}.

(** What [find_files], [read_datafile] and the reading loop log. *)
Inductive ReadLogEntry :=
| WarnNoMatchingFile (subdir : string)
| WarnMultipleIds (path : string) (ids : list Id)
| WarnMissingDates (path : string) (dates : list Timestamp)
| ErrorInFile (path : string) (e : Exn).

(** [fnmatch.fnmatch(name, pattern)] is left open. *)
Variable fnmatch : string -> string -> bool.

Variable C : Type.

(** Lines 127-131: the regular files of a subdirectory that match. *)
Definition matching_files (subdir_path filemask : string)
  (children : list (Entry C)) : list (string * C) :=
  flat_map (fun filename =>
              match filename with
              | File name content =>
                  if fnmatch name filemask
                  then [(path_join subdir_path name, content)]
                  else []
              | _ => []
              end) children.

(** [find_files] (lines 112-134) on the listing of [directory]; each path
    comes with what reading the file gives. *)
Fixpoint find_files (directory : string) (listing : list (Entry C))
  (filemask : string) : Run ReadLogEntry (list (string * C)) :=
  match listing with
  | [] => ret []
  | Dir name children :: rest =>
      let found := matching_files (path_join directory name) filemask children in
      bind (match found with
            | [] => emit (WarnNoMatchingFile name)
            | _ => ret tt
            end)
        (fun _ => bind (find_files directory rest filemask)
                    (fun output_paths => ret (found ++ output_paths)))
  | _ :: rest => find_files directory rest filemask
  end.

(** [pd.date_range(start=start, end=stop)]: a stamp every 24 hours from
    [start], up to [stop]. *)
Definition date_range (start stop : Timestamp) : list Timestamp :=
  if stop <? start then []
  else map (fun k => start + Z.of_nat k * ns_per_day)
         (seq 0 (S (Z.to_nat ((stop - start) / ns_per_day)))).

(** Lines 101-104. *)
Definition missing_dates (dates : list Timestamp) (first last : Timestamp)
  : list Timestamp :=
  sort_uniq Z.compare
    (filter (fun d => negb (existsb (Z.eqb d) dates)) (date_range first last)).

(** [read_datafile] (lines 78-110) on what [pd.read_csv] gave for the file:
    the parsed rows or the exception that it raised.  [min] of no date
    raises. *)
Definition read_datafile (path : string) (csv : Result (list DataRow))
  : Run ReadLogEntry (list DataRow) :=
  bind (fun log => (log, csv))
    (fun data =>
       let ids := sort_uniq id_compare (map d_id data) in
       bind (if Nat.ltb 1 (List.length ids)
             then emit (WarnMultipleIds path ids)
             else ret tt)
         (fun _ =>
            let dates := map d_date data in
            match list_min dates, list_max dates with
            | Some first, Some last =>
                bind (match missing_dates dates first last with
                      | [] => ret tt
                      | missing => emit (WarnMissingDates path missing)
                      end)
                  (fun _ => ret data)
            | _, _ => raise (ValueError "min() arg is an empty sequence")
            end)).

(** Line 203: [frame['source_file'] = data_file]. *)
Definition with_source (data_file : string) (frame : list DataRow)
  : list (RawRow Id) :=
  map (fun d => mkRawRow (d_id d) (d_date d) (d_response d) data_file) frame.

(** Line 204: [except (ValueError, KeyError)]. *)
Definition caught (e : Exn) : bool :=
  match e with
  | ValueError _ | KeyError _ => true
  | _ => false
  end.

(** The entries that line 205 writes. *)
Definition is_error_entry (e : ReadLogEntry) : bool :=
  match e with
  | ErrorInFile _ _ => true
  | _ => false
  end.

(** The loop of lines 194-205. *)
Fixpoint read_frames (data_files : list (string * Result (list DataRow)))
  : Run ReadLogEntry (list (list (RawRow Id))) :=
  match data_files with
  | [] => ret []
  | (data_file, csv) :: rest =>
      fun log =>
        match read_datafile data_file csv log with
        | (log', Ok frame) =>
            bind (read_frames rest)
              (fun data_frames => ret (with_source data_file frame :: data_frames))
              log'
        | (log', Raise e) =>
            if caught e
            then bind (emit (ErrorInFile data_file e))
                   (fun _ => read_frames rest) log'
            else (log', Raise e)
        end
  end.

End Reading.

Arguments DataRow Id : clear implicits.
Arguments ReadLogEntry Id : clear implicits.

Section Directory.

Context {Id : Type} {HId : SubjectId Id}.

(** The log file holds the entries of the reading and of the pipeline. *)
Inductive RunLogEntry :=
| Reading (e : ReadLogEntry Id)
| Pipeline (e : LogEntry Id).

(** A run that logs entries of one kind, within a run that logs both. *)
Definition lift_run {L L' A} (inj : L -> L') (m : Run L A) : Run L' A :=
  fun log => (log ++ map inj (fst (m [])), snd (m [])).

(** [cli], lines 169-298, on the listing of the input directory. *)
Definition cli_directory (fnmatch : string -> string -> bool) (cfg : Config)
  (date_map : Series Id Timestamp) (inpath : string)
  (listing : list (Entry (Result (list (DataRow Id)))))
  (input_filemask : string) : Run RunLogEntry (Table Id) :=
  bind (assert_ (negb (Dict.mem "b" (Dict.keys (cfg_responses cfg)))))
    (fun _ =>
  bind (assert_ (negb (Dict.mem "B" (Dict.values (cfg_responses cfg)))))
    (fun _ =>
  bind (lift_run Reading (find_files fnmatch inpath listing input_filemask))
    (fun data_files =>
  bind (lift_run Reading (read_frames data_files))
    (fun data_frames =>
  lift_run Pipeline (cli cfg date_map data_frames))))).

End Directory.

Arguments RunLogEntry Id : clear implicits.

(* ------------------------------------------------------------------ *)
(** ** [collate_csv.py] *)

Module Collate.

Section Frames.

(** The values that cells hold. *)
Variable V : Type.

(** A frame as [pd.read_csv(file)] returns it: the header and the rows,
    an empty cell being [None]. *)
Record Frame := mkFrame {
  columns : list string;
  rows : list (list (option V))
}.

Fixpoint index_of (c : string) (l : list string) : option nat :=
  match l with
  | [] => None
  | c' :: l' => if String.eqb c c' then Some O
                else option_map S (index_of c l')
  end.

(** The cell of a row in the column [c]; the concatenation leaves it empty
    for a frame without that column.  The concatenation may change the
    dtype of a column, and with it the way a value is written; whether a
    cell is empty does not change. *)
Definition cell (f : Frame) (row : list (option V)) (c : string) : option V :=
  match index_of c (columns f) with
  | Some k => nth k row None
  | None => None
  end.

Definition has_column (df_list : list Frame) (c : string) : bool :=
  existsb (fun f => Dict.mem c (columns f)) df_list.

(** Lines 65-66 for one directory. *)
Definition files_here {C} (filemask root : string) (listing : list (Entry C))
  : list (string * C) :=
  flat_map (fun e =>
              match e with
              | File filename content | Special filename content =>
                  if str_endswith filename filemask
                  then [(path_join root filename, content)]
                  else []
              | Dir _ _ => []
              end) listing.

(** [os.walk] below one entry of a listing: a directory is visited before
    its subdirectories, in the order of the listing. *)
Fixpoint walk_entry {C} (filemask root : string) (e : Entry C)
  : list (string * C) :=
  match e with
  | Dir d children =>
      files_here filemask (path_join root d) children
      ++ flat_map (walk_entry filemask (path_join root d)) children
  | _ => []
  end.

(** Lines 60-66: [file_list]. *)
Definition walk {C} (filemask working_dir : string) (listing : list (Entry C))
  : list (string * C) :=
  files_here filemask working_dir listing
  ++ flat_map (walk_entry filemask working_dir) listing.

(** Line 69: the first read that raises ends the run. *)
Fixpoint read_all (file_list : list (string * Result Frame))
  : Result (list Frame) :=
  match file_list with
  | [] => Ok []
  | (_, Raise e) :: _ => Raise e
  | (_, Ok f) :: rest =>
      match read_all rest with
      | Ok fs => Ok (f :: fs)
      | Raise e => Raise e
      end
  end.

(** Lines 73-74: [pd.concat(df_list, ignore_index=True)[columnlist]];
    a column that no frame has raises [KeyError]. *)
Definition select_columns (columnlist : list string) (df_list : list Frame)
  : Result (list (list (option V))) :=
  match find (fun c => negb (has_column df_list c)) columnlist with
  | Some c => Raise (KeyError c)
  | None =>
      Ok (flat_map (fun f => map (fun row => map (cell f row) columnlist)
                              (rows f)) df_list)
  end.

(** What [to_csv] is given: the path, the header and the rows. *)
Record Output := mkOutput {
  out_path : string;
  out_header : list string;
  out_rows : list (list (option V))
}.

(** [cli] (lines 53-74) on the listing of [workingdir]; [None] when no
    file is written. *)
Definition cli (working_dir filemask outputfile columnlist : string)
  (listing : list (Entry (Result Frame))) : Result (option Output) :=
  let columnlist := str_split "," columnlist in
  let file_list := walk filemask working_dir listing in
  match read_all file_list with
  | Raise e => Raise e
  | Ok [] => Ok None
  | Ok df_list =>
      match select_columns columnlist df_list with
      | Ok out => Ok (Some (mkOutput (path_join working_dir outputfile)
                              columnlist out))
      | Raise e => Raise e
      end
  end.

End Frames.

End Collate.

(* ------------------------------------------------------------------ *)
(** ** Sample directories *)

Module SampleFiles.

Local Open Scope string_scope.

(** A matcher for the patterns ["*suffix"]. *)
Definition fnmatch_star (name pattern : string) : bool :=
  match pattern with
  | String "*" suffix => str_endswith name suffix
  | _ => String.eqb name pattern
  end.

Definition s1_rows : list (DataRow string) :=
  [ mkDataRow "S1" (Sample.day 18273) (Some " Y ");
    mkDataRow "S1" (Sample.day 18274) None;
    mkDataRow "S1" (Sample.day 18277) (Some "y") ].

Definition s2_rows : list (DataRow string) :=
  [ mkDataRow "S2" (Sample.day 18302) (Some "N");
    mkDataRow "S9" (Sample.day 18303) (Some "y") ].

(** The input directory: a file at the top, a subdirectory with a data file
    and a text file, one with a data file that does not parse and one
    without rows, and one without any file. *)
Definition listing : list (Entry (Result (list (DataRow string)))) :=
  [ File "top.csv" (Ok s1_rows);
    Dir "S1" [ File "a.csv" (Ok s1_rows);
               File "notes.txt" (Raise (ValueError "bad"));
               Dir "old" [ File "b.csv" (Ok s1_rows) ] ];
    Dir "S2" [ File "a.csv" (Ok s2_rows);
               File "bad.csv" (Raise (ValueError "time data does not match"));
               File "empty.csv" (Ok []) ];
    Dir "S3" [ File "readme.md" (Ok []) ] ].

(** An input directory none of whose data files can be read. *)
Definition listing_unreadable : list (Entry (Result (list (DataRow string)))) :=
  [ Dir "S2" [ File "bad.csv" (Raise (KeyError "Date"));
               File "empty.csv" (Ok []) ] ].

Definition frame_ab : Collate.Frame string :=
  Collate.mkFrame ["a"; "b"] [ [Some "1"; Some "2"]; [Some "3"; None] ].

Definition frame_bc : Collate.Frame string :=
  Collate.mkFrame ["b"; "c"] [ [Some "4"; Some "5"] ].

Definition tree : list (Entry (Result (Collate.Frame string))) :=
  [ File "x.csv" (Ok frame_ab);
    File "x.txt" (Ok frame_bc);
    Dir "sub" [ Dir "deep" [ File "y.csv" (Ok frame_bc) ] ] ].

End SampleFiles.

(* ================================================================== *)
(** * Properties *)

(** ** Identifiers, sorting and duplicate detection *)

Section OrderFacts.

Context {Id : Type} {HId : SubjectId Id}.

Lemma id_compare_refl (a : Id) : id_compare a a = Eq.
Proof. now apply id_compare_eq. Qed.

Lemma id_eqb_eq (a b : Id) : id_eqb a b = true <-> a = b.
Proof.
  unfold id_eqb. rewrite <- id_compare_eq.
  destruct (id_compare a b); split; intros; congruence.
Qed.

Lemma id_eqb_refl (a : Id) : id_eqb a a = true.
Proof. now apply id_eqb_eq. Qed.

Lemma id_eqb_neq (a b : Id) : id_eqb a b = false <-> a <> b.
Proof.
  rewrite <- id_eqb_eq. destruct (id_eqb a b); split; congruence.
Qed.

Lemma id_compare_gt_lt (a b : Id) : id_compare a b = Gt -> id_lt b a.
Proof.
  intros H. unfold id_lt. rewrite id_compare_antisym, H. reflexivity.
Qed.

Lemma id_lt_irrefl (a : Id) : ~ id_lt a a.
Proof. unfold id_lt. rewrite id_compare_refl. discriminate. Qed.

Lemma id_lt_trans (a b c : Id) : id_lt a b -> id_lt b c -> id_lt a c.
Proof. apply id_compare_trans. Qed.

Lemma insert_uniq_In (x y : Id) (l : list Id) :
  In x (insert_uniq id_compare y l) <-> x = y \/ In x l.
Proof.
  induction l as [|z l IH]; simpl.
  - intuition.
  - destruct (id_compare y z) eqn:E; simpl.
    + apply id_compare_eq in E. subst. intuition.
    + intuition.
    + rewrite IH. intuition.
Qed.

Lemma sort_uniq_In (x : Id) (l : list Id) :
  In x (sort_uniq id_compare l) <-> In x l.
Proof.
  induction l as [|y l IH]; simpl.
  - reflexivity.
  - rewrite insert_uniq_In, IH. intuition.
Qed.

Lemma insert_uniq_HdRel (x y : Id) (l : list Id) :
  id_lt y x -> HdRel id_lt y l -> HdRel id_lt y (insert_uniq id_compare x l).
Proof.
  intros Hyx Hl. destruct l as [|z l]; simpl.
  - now constructor.
  - inversion_clear Hl. destruct (id_compare x z); now constructor.
Qed.

Lemma insert_uniq_Sorted (x : Id) (l : list Id) :
  Sorted id_lt l -> Sorted id_lt (insert_uniq id_compare x l).
Proof.
  induction l as [|z l IH]; simpl; intros Hs.
  - repeat constructor.
  - inversion_clear Hs as [|? ? Hl Hz].
    destruct (id_compare x z) eqn:E.
    + now constructor.
    + constructor; [now constructor | now constructor].
    + constructor; [now apply IH |].
      apply insert_uniq_HdRel; [now apply id_compare_gt_lt | exact Hz].
Qed.

Lemma sort_uniq_Sorted (l : list Id) : Sorted id_lt (sort_uniq id_compare l).
Proof.
  induction l as [|x l IH]; simpl.
  - constructor.
  - now apply insert_uniq_Sorted.
Qed.

Lemma Sorted_id_lt_NoDup (l : list Id) : Sorted id_lt l -> NoDup l.
Proof.
  intros Hs. apply Sorted_StronglySorted in Hs.
  - induction Hs as [|x l Hl IH Hx]; constructor; [|exact IH].
    intros Hin. rewrite Forall_forall in Hx.
    exact (id_lt_irrefl (Hx x Hin)).
  - intros a b c. apply id_lt_trans.
Qed.

Lemma sort_uniq_NoDup (l : list Id) : NoDup (sort_uniq id_compare l).
Proof. apply Sorted_id_lt_NoDup, sort_uniq_Sorted. Qed.

Lemma series_get_map {V} (f : Id -> V) (i : Id) (l : list Id) :
  In i l -> series_get i (map (fun k => (k, f k)) l) = Some (f i).
Proof.
  induction l as [|k l IH]; simpl; [easy|].
  intros Hin. destruct (id_eqb i k) eqn:E.
  - apply id_eqb_eq in E. now subst.
  - destruct Hin as [->|Hin]; [now rewrite id_eqb_refl in E | now apply IH].
Qed.

Lemma series_get_None {V} (i : Id) (s : Series Id V) :
  ~ In i (map fst s) -> series_get i s = None.
Proof.
  induction s as [|[k v] s IH]; simpl; [easy|].
  intros Hn. destruct (id_eqb i k) eqn:E.
  - apply id_eqb_eq in E. subst. exfalso. apply Hn. now left.
  - apply IH. intros H. apply Hn. now right.
Qed.

End OrderFacts.

(** ** Decimal notation and zero padding *)

Module PyStrFacts.

Import PyStr.

Lemma length_app (s1 s2 : string) :
  String.length (s1 ++ s2)%string = (String.length s1 + String.length s2)%nat.
Proof. induction s1 as [|c s1 IH]; simpl; [reflexivity | now rewrite IH]. Qed.

Lemma value_acc_shift (s : string) (acc : Z) :
  value_acc acc s = acc * 10 ^ Z.of_nat (String.length s) + value s.
Proof.
  unfold value. revert acc. induction s as [|c s IH]; intros acc;
    cbn [value_acc String.length].
  - simpl. lia.
  - rewrite (IH (acc * 10 + digit_val c)), (IH (0 * 10 + digit_val c)).
    rewrite Nat2Z.inj_succ, Z.pow_succ_r by lia. ring.
Qed.

Lemma value_cons (c : ascii) (s : string) :
  value (String c s) = digit_val c * 10 ^ Z.of_nat (String.length s) + value s.
Proof. unfold value at 1. cbn [value_acc]. rewrite value_acc_shift. ring. Qed.

Lemma value_snoc (s : string) (c : ascii) :
  value (s ++ String c "")%string = value s * 10 + digit_val c.
Proof.
  unfold value. generalize 0. induction s as [|d s IH]; intros acc; simpl.
  - reflexivity.
  - apply IH.
Qed.

Lemma all_digits_app (s1 s2 : string) :
  all_digits s1 -> all_digits s2 -> all_digits (s1 ++ s2)%string.
Proof.
  induction s1 as [|c s1 IH]; simpl; [easy|]. intros [Hc H1] H2. auto.
Qed.

Lemma digit_val_char (d : Z) : 0 <= d <= 9 -> digit_val (digit_char d) = d.
Proof.
  intros Hd. unfold digit_val, digit_char.
  rewrite N_ascii_embedding by lia. lia.
Qed.

Lemma value_bounds (s : string) :
  all_digits s -> 0 <= value s < 10 ^ Z.of_nat (String.length s).
Proof.
  induction s as [|c s IH]; cbn [all_digits String.length].
  - intros _. unfold value. simpl. lia.
  - intros [Hc Hs]. specialize (IH Hs). rewrite value_cons.
    rewrite Nat2Z.inj_succ, Z.pow_succ_r by lia. nia.
Qed.

Lemma log2_div10 (n : Z) (f : nat) :
  10 <= n -> Z.log2 n < Z.of_nat (S f) -> Z.log2 (n / 10) < Z.of_nat f.
Proof.
  intros Hn Hlog.
  assert (Hle : Z.log2 (n / 10) <= Z.log2 (n / 2)).
  { apply Z.log2_le_mono.
    apply Z.div_le_compat_l; lia. }
  assert (Hhalf : Z.log2 (n / 2) = Z.log2 n - 1).
  { change 2 with (2 ^ 1). rewrite <- Z.shiftr_div_pow2 by lia.
    rewrite Z.log2_shiftr by lia.
    assert (1 <= Z.log2 n) by (apply Z.log2_le_pow2; simpl; lia). lia. }
  lia.
Qed.

Lemma str_digits_spec (fuel : nat) :
  forall n, 0 <= n -> Z.log2 n < Z.of_nat fuel ->
    all_digits (str_digits fuel n)
    /\ value (str_digits fuel n) = n
    /\ n < 10 ^ Z.of_nat (String.length (str_digits fuel n))
    /\ (0 < n -> 10 ^ (Z.of_nat (String.length (str_digits fuel n)) - 1) <= n)
    /\ (1 <= String.length (str_digits fuel n))%nat.
Proof.
  induction fuel as [|f IH]; intros n Hn Hlog.
  - pose proof (Z.log2_nonneg n). simpl in Hlog. lia.
  - simpl str_digits.
    assert (Hmod : 0 <= n mod 10 <= 9) by (pose proof (Z.mod_pos_bound n 10); lia).
    destruct (n <? 10) eqn:E.
    + apply Z.ltb_lt in E. rewrite Z.mod_small by lia. simpl.
      unfold value. simpl. rewrite digit_val_char by lia.
      repeat split; try lia.
    + apply Z.ltb_ge in E.
      assert (Hq : 0 <= n / 10) by (apply Z.div_pos; lia).
      assert (Hq1 : 0 < n / 10) by (apply Z.div_str_pos; lia).
      destruct (IH (n / 10) Hq (log2_div10 E Hlog)) as (Hd & Hv & Hub & Hlb & Hlen).
      specialize (Hlb Hq1).
      rewrite length_app, value_snoc, Hv, digit_val_char by lia. simpl String.length.
      pose proof (Z.div_mod n 10 ltac:(lia)) as Hdm.
      set (k := String.length (str_digits f (n / 10))) in *.
      replace (Z.of_nat (k + 1)) with (Z.succ (Z.of_nat k)) by lia.
      rewrite Z.pow_succ_r by lia.
      replace (Z.succ (Z.of_nat k) - 1) with (Z.succ (Z.of_nat k - 1)) by lia.
      rewrite Z.pow_succ_r by lia.
      repeat split; try lia.
      apply all_digits_app; [exact Hd|]. simpl. rewrite digit_val_char by lia. auto.
Qed.

Lemma str_abs_spec (n : Z) :
  0 <= n ->
  all_digits (str_abs n)
  /\ value (str_abs n) = n
  /\ n < 10 ^ Z.of_nat (String.length (str_abs n))
  /\ (0 < n -> 10 ^ (Z.of_nat (String.length (str_abs n)) - 1) <= n)
  /\ (1 <= String.length (str_abs n))%nat.
Proof.
  intros Hn. unfold str_abs. apply str_digits_spec; [exact Hn|].
  pose proof (Z.log2_nonneg n). lia.
Qed.

Lemma str_abs_length_mono (a m : Z) :
  0 <= a <= m -> (String.length (str_abs a) <= String.length (str_abs m))%nat.
Proof.
  intros Ham.
  destruct (str_abs_spec (n := a) ltac:(lia)) as (_ & _ & _ & Hlb & Hlen).
  destruct (str_abs_spec (n := m) ltac:(lia)) as (_ & _ & Hub & _ & Hlen').
  destruct (Z.eq_dec a 0) as [->|Hnz].
  - assert (E : str_abs 0 = "0"%string) by reflexivity. rewrite E. simpl. lia.
  - specialize (Hlb ltac:(lia)).
    destruct (Nat.le_gt_cases (String.length (str_abs a)) (String.length (str_abs m)))
      as [Hle|Hgt]; [exact Hle | exfalso].
    assert (10 ^ Z.of_nat (String.length (str_abs m))
            <= 10 ^ (Z.of_nat (String.length (str_abs a)) - 1))
      by (apply Z.pow_le_mono_r; lia).
    lia.
Qed.

Lemma zeros_length (k : nat) : String.length (zeros k) = k.
Proof. induction k; simpl; congruence. Qed.

Lemma zeros_all_digits (k : nat) : all_digits (zeros k).
Proof. induction k; simpl; [exact I|]. split; [unfold digit_val; simpl; lia | assumption]. Qed.

Lemma value_zeros_app (k : nat) (s : string) :
  value (zeros k ++ s)%string = value s.
Proof.
  induction k as [|k IH]; simpl; [reflexivity|].
  rewrite value_cons, IH. unfold digit_val. simpl. lia.
Qed.

Lemma compare_digits (s1 : string) :
  forall s2, all_digits s1 -> all_digits s2 ->
    String.length s1 = String.length s2 ->
    String.compare s1 s2 = Z.compare (value s1) (value s2).
Proof.
  induction s1 as [|c1 s1 IH]; intros [|c2 s2] H1 H2 Hlen;
    simpl in Hlen; try discriminate.
  - reflexivity.
  - destruct H1 as [Hc1 H1], H2 as [Hc2 H2]. injection Hlen as Hlen.
    simpl. rewrite !value_cons, <- Hlen.
    pose proof (value_bounds s1 H1) as B1. pose proof (value_bounds s2 H2) as B2.
    rewrite <- Hlen in B2.
    set (p := 10 ^ Z.of_nat (String.length s1)) in *.
    unfold Ascii.compare. unfold digit_val in *.
    rewrite <- (N2Z.inj_compare (N_of_ascii c1) (N_of_ascii c2)).
    destruct (Z.compare_spec (Z.of_N (N_of_ascii c1)) (Z.of_N (N_of_ascii c2)))
      as [E|L|G].
    + rewrite E, (IH s2 H1 H2 Hlen).
      destruct (Z.compare_spec (value s1) (value s2)) as [E'|L'|G'];
        symmetry; [apply Z.compare_eq_iff | apply Z.compare_lt_iff
                  | apply Z.compare_gt_iff]; lia.
    + symmetry. apply Z.compare_lt_iff. nia.
    + symmetry. apply Z.compare_gt_iff. nia.
Qed.

(** The padded form of a day number within the width of [max_days]. *)
Lemma format_0d_padded (m a : Z) :
  1 <= a <= m ->
  let w := String.length (str m) in
  format_0d w a = (zeros (w - String.length (str a)) ++ str a)%string
  /\ String.length (format_0d w a) = w
  /\ all_digits (format_0d w a)
  /\ value (format_0d w a) = a.
Proof.
  intros Ham w. unfold format_0d, w, str.
  destruct (a <? 0) eqn:Ea; [apply Z.ltb_lt in Ea; lia|].
  destruct (m <? 0) eqn:Em; [apply Z.ltb_lt in Em; lia|].
  pose proof (str_abs_length_mono (a := a) (m := m) ltac:(lia)) as Hmono.
  destruct (str_abs_spec (n := a) ltac:(lia)) as (Hd & Hv & _).
  repeat split.
  - rewrite length_app, zeros_length. lia.
  - apply all_digits_app; [apply zeros_all_digits | exact Hd].
  - now rewrite value_zeros_app.
Qed.

Lemma day_label_compare (m a b : Z) :
  1 <= a <= m -> 1 <= b <= m ->
  String.compare (day_label m a) (day_label m b) = Z.compare a b.
Proof.
  intros Ha Hb. unfold day_label.
  destruct (format_0d_padded Ha) as (_ & La & Da & Va).
  destruct (format_0d_padded Hb) as (_ & Lb & Db & Vb).
  simpl. rewrite (compare_digits _ _ Da Db) by congruence.
  now rewrite Va, Vb.
Qed.

End PyStrFacts.

(** ** Whole days of a time delta *)

Lemma ns_per_day_pos : 0 < ns_per_day.
Proof. reflexivity. Qed.

Lemma td_days_nonneg (d : Timedelta) : Timedelta_days 0 <= d <-> 0 <= td_days d.
Proof.
  unfold Timedelta_days, td_days. pose proof ns_per_day_pos as Hp.
  split; intros H.
  - apply Z.div_pos; lia.
  - pose proof (Z.div_mod d ns_per_day ltac:(lia)).
    pose proof (Z.mod_pos_bound d ns_per_day Hp). nia.
Qed.

Lemma td_days_below (d : Timedelta) (n : Z) :
  d < Timedelta_days n <-> td_days d < n.
Proof.
  unfold Timedelta_days, td_days. pose proof ns_per_day_pos as Hp.
  pose proof (Z.div_mod d ns_per_day ltac:(lia)).
  pose proof (Z.mod_pos_bound d ns_per_day Hp).
  split; intros H1; nia.
Qed.

Lemma td_days_shift (d : Timedelta) (k : Z) :
  td_days (d + k * ns_per_day) = td_days d + k.
Proof. unfold td_days. apply Z.div_add. pose proof ns_per_day_pos. lia. Qed.

(** ** The stages, one by one *)

Section StageFacts.

Context {Id : Type} {HId : SubjectId Id}.

Lemma bind_ok {L A B} (m : Run L A) (k : A -> Run L B) log log' a :
  m log = (log', Ok a) -> bind m k log = k a log'.
Proof. intros H. unfold bind. now rewrite H. Qed.

Lemma filter_all {A} (f : A -> bool) (l : list A) :
  forallb f l = true -> filter f l = l.
Proof.
  induction l as [|x l IH]; simpl; [reflexivity|].
  intros H. apply andb_true_iff in H as [Hx Hl]. rewrite Hx. f_equal. auto.
Qed.

Lemma filter_none_negb {A} (f : A -> bool) (l : list A) :
  existsb f l = false -> filter (fun x => negb (f x)) l = l.
Proof.
  induction l as [|x l IH]; simpl; [reflexivity|].
  intros H. apply orb_false_iff in H as [Hx Hl]. rewrite Hx. simpl. f_equal. auto.
Qed.

Lemma dict_mem_In (k : string) (l : list string) :
  Dict.mem k l = true <-> In k l.
Proof.
  unfold Dict.mem. rewrite existsb_exists. split.
  - intros (x & Hx & E). apply String.eqb_eq in E. now subst.
  - intros H. exists k. split; [exact H | apply String.eqb_refl].
Qed.

Lemma dict_get_keys (k : string) (d : Dict.t) :
  Dict.mem k (Dict.keys d) = true -> exists v, Dict.get k d = Some v.
Proof.
  induction d as [|[k' v'] d IH]; simpl; [discriminate|].
  destruct (String.eqb k k'); simpl; [eauto | exact IH].
Qed.

Lemma dict_get_In (k v : string) (d : Dict.t) :
  Dict.get k d = Some v -> In v (Dict.values d).
Proof.
  induction d as [|[k' v'] d IH]; simpl; [discriminate|].
  destruct (String.eqb k k'); [intros [= ->]; now left | auto].
Qed.

Lemma drop_invalid_run (rs : list string) (df : list (Row Id)) log :
  drop_invalid rs df log
  = (log ++ invalid_log rs df, Ok (filter (valid_response rs) df)).
Proof.
  unfold drop_invalid, invalid_log.
  destruct (forallb (valid_response rs) df) eqn:E.
  - unfold ret. now rewrite app_nil_r, filter_all.
  - reflexivity.
Qed.

Lemma canonical_run (rm : Dict.t) (df : list (Row Id)) log :
  forallb (valid_response (Dict.keys rm)) df = true ->
  canonical rm df log = (log, Ok (canonical_rows rm df)).
Proof.
  intros Hv. unfold canonical.
  destruct (find _ df) as [r|] eqn:E; [|reflexivity].
  apply find_some in E as [Hin Hnone].
  rewrite forallb_forall in Hv. specialize (Hv r Hin).
  apply dict_get_keys in Hv as [v Hv]. rewrite Hv in Hnone. discriminate.
Qed.

Lemma forallb_filter {A} (f : A -> bool) (l : list A) :
  forallb f (filter f l) = true.
Proof.
  apply forallb_forall. intros x Hx. now apply filter_In in Hx.
Qed.

Lemma drop_duplicates_run (df : list (Row Id)) log :
  drop_duplicates df log = (log ++ duplicates_log df, Ok (remove_duplicated df)).
Proof.
  unfold drop_duplicates, duplicates_log, remove_duplicated.
  destruct (existsb (duplicated df) df) eqn:E.
  - reflexivity.
  - unfold ret. now rewrite app_nil_r, filter_none_negb.
Qed.

Lemma warn_missing_starts_run (df : list (Joined Id)) log :
  warn_missing_starts df log = (log ++ missing_log df, Ok tt).
Proof.
  unfold warn_missing_starts, missing_log.
  destruct (missing_starts df); [unfold ret; now rewrite app_nil_r | reflexivity].
Qed.

(** The run of [cli] when the configuration passes the assertions, some
    frame was read and the start-date index has no repeated id. *)
Lemma cli_run (cfg : Config) (date_map : Series Id Timestamp)
  (data_frames : list (list (RawRow Id))) log :
  Dict.mem "b" (Dict.keys (cfg_responses cfg)) = false ->
  Dict.mem "B" (Dict.values (cfg_responses cfg)) = false ->
  data_frames <> [] ->
  has_dup id_eqb (map fst date_map) = false ->
  cli cfg date_map data_frames log
  = (log
     ++ invalid_log (Dict.keys (response_map_of cfg)) (concatenated data_frames)
     ++ duplicates_log (validated cfg data_frames)
     ++ missing_log (join_rows (normalized cfg data_frames) date_map),
     if has_dup same_cell (survivors cfg date_map data_frames)
     then Raise (ValueError "Index contains duplicate entries, cannot reshape")
     else Ok (result_table (cfg_response_names cfg)
                (survivors cfg date_map data_frames)
                (pivot_table (survivors cfg date_map data_frames)))).
Proof.
  intros Hb HB Hne Hdm. unfold cli.
  rewrite bind_ok with (a := tt) (log' := log) by (now rewrite Hb).
  rewrite bind_ok with (a := tt) (log' := log) by (now rewrite HB).
  cbv zeta.
  rewrite bind_ok with (a := List.concat data_frames) (log' := log)
    by (destruct data_frames; [congruence | reflexivity]).
  erewrite bind_ok by apply drop_invalid_run.
  erewrite bind_ok by (apply canonical_run, forallb_filter).
  erewrite bind_ok by apply drop_duplicates_run.
  erewrite bind_ok by (unfold join_date_map; rewrite Hdm; reflexivity).
  erewrite bind_ok by apply warn_missing_starts_run.
  unfold survivors, joined, normalized, validated, concatenated,
    response_map_of.
  rewrite <- !app_assoc. unfold pivot_days.
  destruct (has_dup same_cell _); reflexivity.
Qed.

(** A run of [cli] that returns a table went through every stage. *)
Lemma cli_ok_inv (cfg : Config) (date_map : Series Id Timestamp)
  (data_frames : list (list (RawRow Id))) log log' (t : Table Id) :
  cli cfg date_map data_frames log = (log', Ok t) ->
  Dict.mem "b" (Dict.keys (cfg_responses cfg)) = false
  /\ Dict.mem "B" (Dict.values (cfg_responses cfg)) = false
  /\ data_frames <> []
  /\ has_dup id_eqb (map fst date_map) = false
  /\ has_dup same_cell (survivors cfg date_map data_frames) = false
  /\ t = result_table (cfg_response_names cfg)
           (survivors cfg date_map data_frames)
           (pivot_table (survivors cfg date_map data_frames)).
Proof.
  intros Hrun.
  destruct (Dict.mem "b" (Dict.keys (cfg_responses cfg))) eqn:Hb.
  { unfold cli, bind, assert_ in Hrun. rewrite Hb in Hrun. discriminate. }
  destruct (Dict.mem "B" (Dict.values (cfg_responses cfg))) eqn:HB.
  { unfold cli, bind, assert_ in Hrun. rewrite Hb, HB in Hrun. discriminate. }
  destruct data_frames as [|f fs].
  { unfold cli, bind, assert_ in Hrun. rewrite Hb, HB in Hrun. discriminate. }
  destruct (has_dup id_eqb (map fst date_map)) eqn:Hdm.
  { unfold cli in Hrun.
    rewrite bind_ok with (a := tt) (log' := log) in Hrun by (now rewrite Hb).
    rewrite bind_ok with (a := tt) (log' := log) in Hrun by (now rewrite HB).
    cbv zeta in Hrun.
    rewrite bind_ok with (a := List.concat (f :: fs)) (log' := log) in Hrun
      by reflexivity.
    erewrite bind_ok in Hrun by apply drop_invalid_run.
    erewrite bind_ok in Hrun by (apply canonical_run, forallb_filter).
    erewrite bind_ok in Hrun by apply drop_duplicates_run.
    unfold join_date_map, bind in Hrun. rewrite Hdm in Hrun. discriminate. }
  rewrite cli_run in Hrun by (auto; discriminate).
  destruct (has_dup same_cell _) eqn:Hc.
  - injection Hrun as _ Hrun. discriminate.
  - injection Hrun as _ Hrun. repeat split; try congruence.
Qed.

End StageFacts.

(** ** Alignment: the join, the window filter and the day numbers *)

Section AlignFacts.

Context {Id : Type} {HId : SubjectId Id}.

Lemma add_delta_In (offset : Z) (df : list (Joined Id)) (t : Timed Id) :
  In t (add_delta offset df) <->
  exists j, In j df /\
    t = mkTimed j (match j_date_one j with
                   | Some start =>
                       Some (r_date (j_row j) - start - Timedelta_days offset)
                   | None => None
                   end).
Proof.
  unfold add_delta. rewrite in_map_iff. split; intros (j & H1 & H2); exists j; auto.
Qed.

Lemma window_filter_In (max_days : Z) (df : list (Timed Id)) (t : Timed Id) :
  In t (window_filter max_days df) <->
  In t df /\ exists d, t_delta t = Some d /\ 0 <= td_days d < max_days.
Proof.
  unfold window_filter, delta_lt, delta_ge. rewrite !filter_In.
  destruct (t_delta t) as [d|].
  - rewrite Z.leb_le, Z.ltb_lt, td_days_nonneg, td_days_below. split.
    + intros [[Hin Hge] Hlt]. split; [exact Hin|]. exists d. auto.
    + intros [Hin (d' & [= <-] & Hge & Hlt)]. auto.
  - split.
    + intros [[_ H] _]. discriminate.
    + intros [_ (d & H & _)]. discriminate.
Qed.

Lemma add_days_In (max_days : Z) (df : list (Timed Id)) (a : Aligned Id) :
  In a (add_days max_days df) <->
  exists t d, In t df /\ t_delta t = Some d /\
    a = mkAligned t d (td_days d + 1) (day_label max_days (td_days d + 1)).
Proof.
  unfold add_days. rewrite in_flat_map. split.
  - intros (t & Hin & Ha). destruct (t_delta t) as [d|] eqn:E; simpl in Ha.
    + destruct Ha as [<-|[]]. exists t, d. auto.
    + destruct Ha.
  - intros (t & d & Hin & E & ->). exists t. rewrite E. split; [exact Hin | now left].
Qed.

Lemma joined_In (cfg : Config) (date_map : Series Id Timestamp)
  (data_frames : list (list (RawRow Id))) (t : Timed Id) :
  In t (joined cfg date_map data_frames) <->
  exists r, In r (normalized cfg data_frames) /\
    t = mkTimed (mkJoined r (series_get (r_id r) date_map))
          (match series_get (r_id r) date_map with
           | Some start =>
               Some (r_date r - start - Timedelta_days (cfg_offset_days cfg))
           | None => None
           end).
Proof.
  unfold joined. rewrite add_delta_In. unfold join_rows. split.
  - intros (j & Hj & ->). apply in_map_iff in Hj as (r & <- & Hr).
    exists r. auto.
  - intros (r & Hr & ->). exists (mkJoined r (series_get (r_id r) date_map)).
    split; [|reflexivity]. apply in_map_iff. exists r. auto.
Qed.

(** What a row that reached the pivot looks like. *)
Lemma survivors_inv (cfg : Config) (date_map : Series Id Timestamp)
  (data_frames : list (list (RawRow Id))) (a : Aligned Id) :
  In a (survivors cfg date_map data_frames) ->
  exists r start,
    In r (normalized cfg data_frames)
    /\ series_get (r_id r) date_map = Some start
    /\ a_row a = mkTimed (mkJoined r (Some start)) (Some (a_delta a))
    /\ a_delta a = r_date r - start - Timedelta_days (cfg_offset_days cfg)
    /\ a_days a = td_days (a_delta a) + 1
    /\ a_pivot a = day_label (cfg_max_days cfg) (a_days a)
    /\ 0 <= td_days (a_delta a) < cfg_max_days cfg.
Proof.
  unfold survivors. rewrite add_days_In.
  intros (t & d & Hin & Hd & ->). simpl.
  apply window_filter_In in Hin as [Hin (d' & Hd' & Hw)].
  assert (d' = d) by congruence. subst d'.
  apply joined_In in Hin as (r & Hr & ->). simpl in Hd.
  destruct (series_get (r_id r) date_map) as [start|] eqn:Es; [|discriminate].
  injection Hd as Hd. exists r, start. rewrite Hd. repeat split; auto; lia.
Qed.

Lemma survivors_intro (cfg : Config) (date_map : Series Id Timestamp)
  (data_frames : list (list (RawRow Id))) (r : Row Id) (start : Timestamp) :
  In r (normalized cfg data_frames) ->
  series_get (r_id r) date_map = Some start ->
  let d := r_date r - start - Timedelta_days (cfg_offset_days cfg) in
  0 <= td_days d < cfg_max_days cfg ->
  In (mkAligned (mkTimed (mkJoined r (Some start)) (Some d)) d (td_days d + 1)
        (day_label (cfg_max_days cfg) (td_days d + 1)))
     (survivors cfg date_map data_frames).
Proof.
  intros Hr Hs d Hw. unfold survivors. apply add_days_In.
  exists (mkTimed (mkJoined r (Some start)) (Some d)), d.
  repeat split. apply window_filter_In. split.
  - apply joined_In. exists r. rewrite Hs. auto.
  - exists d. auto.
Qed.

Lemma survivors_id (cfg : Config) (date_map : Series Id Timestamp)
  (data_frames : list (list (RawRow Id))) (a : Aligned Id) :
  In a (survivors cfg date_map data_frames) ->
  exists start, series_get (a_id a) date_map = Some start
    /\ a_delta a = a_date a - start - Timedelta_days (cfg_offset_days cfg).
Proof.
  intros Ha. apply survivors_inv in Ha as (r & start & _ & Hs & Hrow & Hd & _).
  exists start. unfold a_id, a_date. rewrite Hrow. simpl. auto.
Qed.

End AlignFacts.

(** ** Claims about the window and the labels *)

Section WindowClaims.

Context {Id : Type} {HId : SubjectId Id}.

(** C1.  A normalized record whose subject has a start date survives the
    window filter exactly when [0 <= delta.days < max_days], where
    [delta = date - start - offset_days]; so it is dropped at
    [delta.days = -1] and at [delta.days = max_days], and kept at
    [delta.days = 0] and at [delta.days = max_days - 1] of a window of at
    least one day. *)
Theorem C1_window_filter_iff (cfg : Config) (date_map : Series Id Timestamp)
  (data_frames : list (list (RawRow Id))) (r : Row Id) (start : Timestamp) :
  In r (normalized cfg data_frames) ->
  series_get (r_id r) date_map = Some start ->
  let delta := r_date r - start - Timedelta_days (cfg_offset_days cfg) in
  let t := mkTimed (mkJoined r (Some start)) (Some delta) in
  let kept := In t (window_filter (cfg_max_days cfg)
                      (joined cfg date_map data_frames)) in
  In t (joined cfg date_map data_frames)
  /\ (kept <-> 0 <= td_days delta < cfg_max_days cfg)
  /\ (td_days delta = -1 -> ~ kept)
  /\ (td_days delta = cfg_max_days cfg -> ~ kept)
  /\ (1 <= cfg_max_days cfg -> td_days delta = 0 -> kept)
  /\ (1 <= cfg_max_days cfg -> td_days delta = cfg_max_days cfg - 1 -> kept).
Proof.
  intros Hr Hs delta t kept.
  assert (Hin : In t (joined cfg date_map data_frames)).
  { apply joined_In. exists r. rewrite Hs. auto. }
  assert (Hiff : kept <-> 0 <= td_days delta < cfg_max_days cfg).
  { unfold kept. rewrite window_filter_In. split.
    - intros [_ (d & [= <-] & Hw)]. exact Hw.
    - intros Hw. split; [exact Hin|]. exists delta. auto. }
  split; [exact Hin|]. split; [exact Hiff|].
  rewrite Hiff. repeat split; lia.
Qed.

(** C2.  The label of every aligned record is ['Day'] followed by its day
    number [delta.days + 1], padded with zeros to the number of digits of
    [max_days]; and on the day numbers [1 .. max_days] the lexicographic
    order of the labels is the numeric order of the day numbers. *)
Theorem C2_day_labels (cfg : Config) (date_map : Series Id Timestamp)
  (data_frames : list (list (RawRow Id))) :
  let m := cfg_max_days cfg in
  let w := String.length (PyStr.str m) in
  (forall a, In a (survivors cfg date_map data_frames) ->
     a_days a = td_days (a_delta a) + 1
     /\ 1 <= a_days a <= m
     /\ a_pivot a
        = ("Day" ++ PyStr.zeros (w - String.length (PyStr.str (a_days a)))
                 ++ PyStr.str (a_days a))%string
     /\ String.length (a_pivot a) = (3 + w)%nat)
  /\ (forall x y, 1 <= x <= m -> 1 <= y <= m ->
        String.compare (day_label m x) (day_label m y) = Z.compare x y).
Proof.
  intros m w. split.
  - intros a Ha.
    apply survivors_inv in Ha as (r & start & _ & _ & _ & _ & Hdays & Hp & Hw).
    fold m in Hp, Hw.
    assert (Hrange : 1 <= a_days a <= m) by lia.
    destruct (PyStrFacts.format_0d_padded Hrange) as (Hfmt & Hlen & _).
    fold w in Hfmt, Hlen.
    repeat split; try lia.
    + rewrite Hp. unfold day_label. fold w. now rewrite Hfmt.
    + rewrite Hp. unfold day_label. fold w. simpl. now rewrite Hlen.
  - intros x y Hx Hy. now apply PyStrFacts.day_label_compare.
Qed.

End WindowClaims.

Lemma C1_window_filter_iff_witness :
  let r := mkRow "S1"%string (Sample.day 18277) "Y"%string "S1/a.csv"%string in
  In r (normalized Sample.cfg Sample.frames)
  /\ series_get "S1"%string Sample.date_map = Some (Sample.day 18271)
  /\ In (mkTimed (mkJoined r (Some (Sample.day 18271)))
           (Some (Sample.day 4)))
        (window_filter 5 (joined Sample.cfg Sample.date_map Sample.frames)).
Proof.
  intros r.
  assert (Hr : In r (normalized Sample.cfg Sample.frames))
    by (vm_compute; tauto).
  assert (Hs : series_get (r_id r) Sample.date_map = Some (Sample.day 18271))
    by reflexivity.
  split; [exact Hr|]. split; [exact Hs|].
  destruct (C1_window_filter_iff Sample.cfg Sample.date_map Sample.frames r Hr Hs)
    as (_ & _ & _ & _ & _ & Hlast).
  apply Hlast; [vm_compute; discriminate | reflexivity].
Defined.

Lemma C2_day_labels_witness :
  let a := mkAligned
             (mkTimed (mkJoined (mkRow "S1"%string (Sample.day 18277)
                                   "Y"%string "S1/a.csv"%string)
                         (Some (Sample.day 18271)))
                (Some (Sample.day 4)))
             (Sample.day 4) 5 "Day5"%string in
  In a (survivors Sample.cfg Sample.date_map Sample.frames)
  /\ String.length (a_pivot a) = 4%nat
  /\ String.compare (day_label 120 9) (day_label 120 10) = Lt.
Proof.
  intros a.
  assert (Ha : In a (survivors Sample.cfg Sample.date_map Sample.frames))
    by (vm_compute; tauto).
  destruct (C2_day_labels Sample.cfg Sample.date_map Sample.frames) as [Hlab _].
  destruct (C2_day_labels (mkConfig [] [] 0 120) Sample.date_map Sample.frames)
    as [_ Hord].
  split; [exact Ha|]. split.
  - now destruct (Hlab a Ha) as (_ & _ & _ & Hlen).
  - exact (Hord 9 10 ltac:(simpl; lia) ltac:(simpl; lia)).
Defined.

(** ** Claims about the normalizer *)

Section NormalizerClaims.

Context {Id : Type} {HId : SubjectId Id}.

(** C9.  When the response map has the key ['b'] or the value ['B'], which
    are kept for blanks, the run stops with an assertion failure whatever
    the data: nothing is logged and no frame is looked at. *)
Theorem C9_blank_collision_aborts (cfg : Config)
  (date_map : Series Id Timestamp) (data_frames : list (list (RawRow Id)))
  (log : list (LogEntry Id)) :
  In "b"%string (Dict.keys (cfg_responses cfg))
  \/ In "B"%string (Dict.values (cfg_responses cfg)) ->
  cli cfg date_map data_frames log = (log, Raise AssertionError).
Proof.
  intros Hcol. unfold cli, bind, assert_.
  destruct (Dict.mem "b" (Dict.keys (cfg_responses cfg))) eqn:Hb;
    [reflexivity|].
  destruct (Dict.mem "B" (Dict.values (cfg_responses cfg))) eqn:HB;
    [reflexivity|].
  exfalso. destruct Hcol as [H|H]; apply dict_mem_In in H; congruence.
Qed.

Lemma same_key_refl (r : Row Id) : same_key r r = true.
Proof. unfold same_key. now rewrite id_eqb_refl, Z.eqb_refl. Qed.

Lemma same_key_ext (a b : Row Id) :
  r_id a = r_id b -> r_date a = r_date b ->
  forall x, same_key a x = same_key b x.
Proof. intros Hi Hd x. unfold same_key. now rewrite Hi, Hd. Qed.

Lemma same_key_eq (a b : Row Id) :
  same_key a b = true <-> r_id a = r_id b /\ r_date a = r_date b.
Proof.
  unfold same_key. now rewrite andb_true_iff, id_eqb_eq, Z.eqb_eq.
Qed.

Lemma length_filter_zero {A} (f : A -> bool) (l : list A) :
  (forall x, In x l -> f x = false) -> List.length (filter f l) = 0%nat.
Proof.
  induction l as [|x l IH]; simpl; [reflexivity|].
  intros H. rewrite (H x) by now left. apply IH. intros y Hy. apply H. now right.
Qed.

Lemma remove_duplicated_In (df : list (Row Id)) (r : Row Id) :
  In r (remove_duplicated df) <->
  In r df /\ (List.length (filter (same_key r) df) <= 1)%nat.
Proof.
  unfold remove_duplicated, duplicated. rewrite filter_In, negb_true_iff.
  rewrite Nat.ltb_ge. reflexivity.
Qed.

Lemma remove_duplicated_key (df : list (Row Id)) (i : Id) (d : Timestamp) :
  (1 < key_count i d df)%nat -> key_count i d (remove_duplicated df) = 0%nat.
Proof.
  unfold key_count. intros Hcount. apply length_filter_zero.
  intros x Hx. destruct (same_key _ x) eqn:E; [exfalso | reflexivity].
  apply same_key_eq in E as [Hi Hd]. simpl in Hi, Hd.
  apply remove_duplicated_In in Hx as [_ Hle].
  rewrite (filter_ext _ _ (same_key_ext x (mkRow i d "" "") (eq_sym Hi) (eq_sym Hd)))
    in Hle.
  lia.
Qed.

(** C3, as the code has it.  An index value [(id, date)] that more than one
    row carries once the rows with an invalid response are gone is carried by
    no row of the normalized frame. *)
Theorem C3_duplicates_all_removed (cfg : Config)
  (data_frames : list (list (RawRow Id))) (i : Id) (d : Timestamp) :
  (1 < key_count i d (validated cfg data_frames))%nat ->
  key_count i d (normalized cfg data_frames) = 0%nat.
Proof. apply remove_duplicated_key. Qed.

End NormalizerClaims.

Lemma C9_blank_collision_aborts_witness :
  In "b"%string (Dict.keys (cfg_responses Sample.cfg_blank_key))
  /\ cli Sample.cfg_blank_key Sample.date_map Sample.frames []
     = ([], Raise AssertionError)
  /\ cli Sample.cfg_blank_value Sample.date_map Sample.frames []
     = ([], Raise AssertionError).
Proof.
  split; [simpl; tauto|]. split.
  - apply (C9_blank_collision_aborts Sample.cfg_blank_key). left. simpl. tauto.
  - apply (C9_blank_collision_aborts Sample.cfg_blank_value). right. simpl. tauto.
Defined.

(** A key that two rows of the concatenated frame carry, one of them with
    an invalid response, is still carried by a row of the normalized frame. *)
Lemma C3_counterexample :
  ~ (forall (i : string) (d : Timestamp),
        (1 < key_count i d (concatenated Sample.frames_invalid_twin))%nat ->
        key_count i d (normalized Sample.cfg Sample.frames_invalid_twin) = 0%nat).
Proof.
  intros H. specialize (H "S1"%string (Sample.day 18273)).
  vm_compute in H. specialize (H (le_n 2)). discriminate.
Qed.

Lemma C3_duplicates_all_removed_witness :
  (1 < key_count "S1"%string (Sample.day 18273)
         (validated Sample.cfg Sample.frames_twin))%nat
  /\ key_count "S1"%string (Sample.day 18273)
       (normalized Sample.cfg Sample.frames_twin) = 0%nat.
Proof.
  assert (H : (1 < key_count "S1"%string (Sample.day 18273)
                     (validated Sample.cfg Sample.frames_twin))%nat)
    by (vm_compute; lia).
  split; [exact H|].
  exact (C3_duplicates_all_removed Sample.cfg Sample.frames_twin
           "S1"%string (Sample.day 18273) H).
Defined.

(** ** Group-by, aggregation and the joins of the result *)

Section AggregateFacts.

Context {Id : Type} {HId : SubjectId Id}.

Lemma existsb_id_In (i : Id) (l : list Id) :
  existsb (id_eqb i) l = true <-> In i l.
Proof.
  rewrite existsb_exists. split.
  - intros (x & Hx & E). apply id_eqb_eq in E. now subst.
  - intros H. exists i. split; [exact H | apply id_eqb_refl].
Qed.

Lemma subject_rows_In (i : Id) (df : list (Aligned Id)) (a : Aligned Id) :
  In a (subject_rows i df) <-> In a df /\ a_id a = i.
Proof. unfold subject_rows. now rewrite filter_In, id_eqb_eq. Qed.

Lemma groupby_eq (df : list (Aligned Id)) :
  groupby df
  = map (fun i => (i, subject_rows i df)) (sort_uniq id_compare (map a_id df)).
Proof. reflexivity. Qed.

Lemma group_ids_In (df : list (Aligned Id)) (i : Id) :
  In i (sort_uniq id_compare (map a_id df)) <-> exists a, In a df /\ a_id a = i.
Proof.
  rewrite sort_uniq_In, in_map_iff. split; intros (a & H1 & H2); exists a; auto.
Qed.

(** The value of an aggregate at an id is the aggregate of its group. *)
Lemma agg_get {V} (f : list (Aligned Id) -> option V)
  (G : Id -> list (Aligned Id)) (l : list Id) (i : Id) :
  series_get i (agg f (map (fun k => (k, G k)) l))
  = if existsb (id_eqb i) l then f (G i) else None.
Proof.
  induction l as [|k l IH]; simpl; [reflexivity|].
  destruct (id_eqb i k) eqn:E; simpl.
  - apply id_eqb_eq in E. subst k.
    destruct (f (G i)) as [v|] eqn:Ef; simpl.
    + now rewrite id_eqb_refl.
    + rewrite IH. now destruct (existsb (id_eqb i) l).
  - destruct (f (G k)) as [v|]; simpl; [rewrite E|]; exact IH.
Qed.

Lemma series_get_map_snd {V W} (h : V -> W) (s : Series Id V) (i : Id) :
  series_get i (map (fun e => (fst e, h (snd e))) s)
  = option_map h (series_get i s).
Proof.
  induction s as [|[k v] s IH]; simpl; [reflexivity|].
  destruct (id_eqb i k); [reflexivity | exact IH].
Qed.

Lemma series_sub_get (a b : Series Id Z) (i : Id) :
  series_get i (series_sub a b)
  = match series_get i a, series_get i b with
    | Some x, Some y => Some (x - y)
    | _, _ => None
    end.
Proof.
  induction a as [|[k x] a IH]; simpl; [reflexivity|].
  destruct (id_eqb i k) eqn:E.
  - apply id_eqb_eq in E. subst k.
    destruct (series_get i b) as [y|] eqn:Eb; simpl.
    + now rewrite id_eqb_refl.
    + rewrite IH. now destruct (series_get i a).
  - destruct (series_get k b) as [y|]; simpl; [rewrite E|]; exact IH.
Qed.

Lemma fold_min_spec (l : list Z) (x : Z) :
  (fold_left Z.min l x = x \/ In (fold_left Z.min l x) l)
  /\ fold_left Z.min l x <= x
  /\ forall y, In y l -> fold_left Z.min l x <= y.
Proof.
  revert x. induction l as [|z l IH]; intros x; simpl.
  - repeat split; [now left | lia | tauto].
  - destruct (IH (Z.min x z)) as (Hin & Hle & Hall). repeat split.
    + destruct Hin as [E|Hin]; [|now right; right].
      rewrite E. destruct (Z.min_spec x z) as [[_ ->]|[_ ->]]; auto.
    + lia.
    + intros y [<-|Hy]; [lia | auto].
Qed.

Lemma fold_max_spec (l : list Z) (x : Z) :
  (fold_left Z.max l x = x \/ In (fold_left Z.max l x) l)
  /\ x <= fold_left Z.max l x
  /\ forall y, In y l -> y <= fold_left Z.max l x.
Proof.
  revert x. induction l as [|z l IH]; intros x; simpl.
  - repeat split; [now left | lia | tauto].
  - destruct (IH (Z.max x z)) as (Hin & Hle & Hall). repeat split.
    + destruct Hin as [E|Hin]; [|now right; right].
      rewrite E. destruct (Z.max_spec x z) as [[_ ->]|[_ ->]]; auto.
    + lia.
    + intros y [<-|Hy]; [lia | auto].
Qed.

Lemma list_min_spec (l : list Z) :
  match list_min l with
  | Some m => In m l /\ forall y, In y l -> m <= y
  | None => l = []
  end.
Proof.
  destruct l as [|x l]; simpl; [reflexivity|].
  destruct (fold_min_spec l x) as (Hin & Hle & Hall). split.
  - destruct Hin as [->|Hin]; auto.
  - intros y [<-|Hy]; auto.
Qed.

Lemma list_max_spec (l : list Z) :
  match list_max l with
  | Some m => In m l /\ forall y, In y l -> y <= m
  | None => l = []
  end.
Proof.
  destruct l as [|x l]; simpl; [reflexivity|].
  destruct (fold_max_spec l x) as (Hin & Hle & Hall). split.
  - destruct Hin as [->|Hin]; auto.
  - intros y [<-|Hy]; auto.
Qed.

(** The minimum of a column over the rows of a frame. *)
Lemma list_min_map (h : Aligned Id -> Z) (g : list (Aligned Id)) :
  match list_min (map h g) with
  | Some m => exists a, In a g /\ h a = m /\ forall b, In b g -> m <= h b
  | None => g = []
  end.
Proof.
  pose proof (list_min_spec (map h g)) as H.
  destruct (list_min (map h g)) as [m|].
  - destruct H as [Hin Hall]. apply in_map_iff in Hin as (a & Ha & Hin).
    exists a. repeat split; auto. intros b Hb. apply Hall. now apply in_map.
  - now apply map_eq_nil in H.
Qed.

Lemma list_max_map (h : Aligned Id -> Z) (g : list (Aligned Id)) :
  match list_max (map h g) with
  | Some m => exists a, In a g /\ h a = m /\ forall b, In b g -> h b <= m
  | None => g = []
  end.
Proof.
  pose proof (list_max_spec (map h g)) as H.
  destruct (list_max (map h g)) as [m|].
  - destruct H as [Hin Hall]. apply in_map_iff in Hin as (a & Ha & Hin).
    exists a. repeat split; auto. intros b Hb. apply Hall. now apply in_map.
  - now apply map_eq_nil in H.
Qed.

(** The rows of the result table, one per id of the aligned frame. *)
Lemma result_table_rows (names : Dict.t) (df : list (Aligned Id)) :
  table_rows (result_table names df (pivot_table df))
  = map (fun i => mkResultRow i
                    (map (pivot_cell df i) (sort_uniq String.compare (map a_pivot df)))
                    (series_get i (total_period df))
                    (join_tally i (tally names df))
                    (series_get i (first_days df))
                    (series_get i (first_yes df)))
      (sort_uniq id_compare (map a_id df)).
Proof. unfold result_table, pivot_table. simpl. now rewrite map_map. Qed.

Lemma result_table_ids (names : Dict.t) (df : list (Aligned Id)) :
  table_ids (result_table names df (pivot_table df))
  = sort_uniq id_compare (map a_id df).
Proof.
  unfold table_ids. rewrite result_table_rows, map_map. simpl. apply map_id.
Qed.

Lemma result_table_row (names : Dict.t) (df : list (Aligned Id))
  (row : ResultRow Id) :
  In row (table_rows (result_table names df (pivot_table df))) ->
  In (row_id row) (sort_uniq id_compare (map a_id df))
  /\ row_period row = series_get (row_id row) (total_period df)
  /\ row_totals row = join_tally (row_id row) (tally names df)
  /\ row_first_response row = series_get (row_id row) (first_days df)
  /\ row_first_yes row = series_get (row_id row) (first_yes df).
Proof.
  rewrite result_table_rows, in_map_iff. intros (i & <- & Hi). simpl. auto.
Qed.

End AggregateFacts.

(** ** Claims about the output table *)

Section TableClaims.

Context {Id : Type} {HId : SubjectId Id}.

Variable cfg : Config.
Variable date_map : Series Id Timestamp.
Variable data_frames : list (list (RawRow Id)).

Lemma table_of_run log log' (t : Table Id) :
  cli cfg date_map data_frames log = (log', Ok t) ->
  t = result_table (cfg_response_names cfg) (survivors cfg date_map data_frames) (pivot_table (survivors cfg date_map data_frames)).
Proof. intros H. now apply cli_ok_inv in H. Qed.

Lemma row_subject_present log log' (t : Table Id) (row : ResultRow Id) :
  cli cfg date_map data_frames log = (log', Ok t) ->
  In row (table_rows t) ->
  exists a, In a (survivors cfg date_map data_frames) /\ a_id a = row_id row.
Proof.
  intros Hrun Hrow. rewrite (table_of_run _ Hrun) in Hrow.
  apply result_table_row in Hrow as (Hid & _). now apply group_ids_In.
Qed.

Lemma aligned_same_subject (a b : Aligned Id) :
  In a (survivors cfg date_map data_frames) -> In b (survivors cfg date_map data_frames) -> a_id a = a_id b ->
  a_delta a - a_delta b = a_date a - a_date b.
Proof.
  intros Ha Hb Hid.
  apply survivors_id in Ha as (sa & Hsa & Hda).
  apply survivors_id in Hb as (sb & Hsb & Hdb).
  rewrite Hid, Hsb in Hsa. injection Hsa as <-. lia.
Qed.

(** C7.  The rows of the table have pairwise different ids, in ascending
    order, and the ids are those of the subjects with a record that
    survived the window filter. *)
Theorem C7_rows_unique_sorted_exact log log' (t : Table Id) :
  cli cfg date_map data_frames log = (log', Ok t) ->
  NoDup (table_ids t)
  /\ Sorted id_lt (table_ids t)
  /\ forall i, In i (table_ids t) <-> exists a, In a (survivors cfg date_map data_frames) /\ a_id a = i.
Proof.
  intros Hrun. rewrite (table_of_run _ Hrun), result_table_ids.
  split; [apply sort_uniq_NoDup|]. split; [apply sort_uniq_Sorted|].
  intros i. apply group_ids_In.
Qed.

(** C5.  [Total_Period] of a row is the number of days from the earliest
    to the latest surviving record date of its subject, plus one. *)
Theorem C5_total_period log log' (t : Table Id) (row : ResultRow Id) :
  cli cfg date_map data_frames log = (log', Ok t) ->
  In row (table_rows t) ->
  exists first last,
    In first (survivors cfg date_map data_frames) /\ a_id first = row_id row
    /\ In last (survivors cfg date_map data_frames) /\ a_id last = row_id row
    /\ (forall a, In a (survivors cfg date_map data_frames) -> a_id a = row_id row ->
          a_date first <= a_date a <= a_date last)
    /\ row_period row = Some (td_days (a_date last - a_date first) + 1).
Proof.
  intros Hrun Hrow.
  destruct (row_subject_present _ _ Hrun Hrow) as (a0 & Ha0 & Hid0).
  rewrite (table_of_run _ Hrun) in Hrow.
  apply result_table_row in Hrow as (Hid & Hper & _).
  set (i := row_id row) in *.
  assert (Hex : existsb (id_eqb i) (sort_uniq id_compare (map a_id (survivors cfg date_map data_frames))) = true)
    by now apply existsb_id_In.
  assert (Hg : In a0 (subject_rows i (survivors cfg date_map data_frames))) by now apply subject_rows_In.
  unfold total_period in Hper.
  rewrite (series_get_map_snd (fun x => td_days x + 1)) in Hper.
  rewrite series_sub_get, groupby_eq, !agg_get, Hex in Hper.
  cbv beta in Hper. unfold Timedelta in *.
  pose proof (list_max_map a_delta
                (subject_rows i (survivors cfg date_map data_frames))) as Hmax.
  pose proof (list_min_map a_delta
                (subject_rows i (survivors cfg date_map data_frames))) as Hmin.
  match type of Hmax with
  | match ?x with _ => _ end =>
      destruct x as [mx|]; [|rewrite Hmax in Hg; destruct Hg]
  end.
  match type of Hmin with
  | match ?x with _ => _ end =>
      destruct x as [mn|]; [|rewrite Hmin in Hg; destruct Hg]
  end.
  destruct Hmax as (last & Hlast & <- & Hmax).
  destruct Hmin as (first & Hfirst & <- & Hmin).
  apply subject_rows_In in Hlast as [Hlast Hlid].
  apply subject_rows_In in Hfirst as [Hfirst Hfid].
  exists first, last. repeat split; auto.
  - assert (Ha' : In a (subject_rows i (survivors cfg date_map data_frames))) by now apply subject_rows_In.
    specialize (Hmin a Ha').
    pose proof (aligned_same_subject first a Hfirst H ltac:(congruence)). lia.
  - assert (Ha' : In a (subject_rows i (survivors cfg date_map data_frames))) by now apply subject_rows_In.
    specialize (Hmax a Ha').
    pose proof (aligned_same_subject last a Hlast H ltac:(congruence)). lia.
  - rewrite Hper. simpl.
    now rewrite (aligned_same_subject last first Hlast Hfirst ltac:(congruence)).
Qed.

(** C6.  [First_Yes] of a row is the least day number among the surviving
    records of its subject whose response is ['Y'], and it is empty when
    the subject has no such record. *)
Theorem C6_first_yes log log' (t : Table Id) (row : ResultRow Id) :
  cli cfg date_map data_frames log = (log', Ok t) ->
  In row (table_rows t) ->
  match row_first_yes row with
  | Some n =>
      (exists a, In a (survivors cfg date_map data_frames) /\ a_id a = row_id row
                 /\ a_response a = "Y"%string /\ a_days a = n)
      /\ (forall a, In a (survivors cfg date_map data_frames) -> a_id a = row_id row ->
            a_response a = "Y"%string -> n <= a_days a)
  | None =>
      forall a, In a (survivors cfg date_map data_frames) -> a_id a = row_id row ->
        a_response a <> "Y"%string
  end.
Proof.
  intros Hrun Hrow. rewrite (table_of_run _ Hrun) in Hrow.
  apply result_table_row in Hrow as (_ & _ & _ & _ & Hfy).
  set (i := row_id row) in *. rewrite Hfy. clear Hfy.
  unfold first_yes. rewrite groupby_eq, agg_get.
  set (yes := filter (fun r => String.eqb (a_response r) "Y") (survivors cfg date_map data_frames)).
  assert (Hyes : forall a, In a (subject_rows i yes) <->
                   In a (survivors cfg date_map data_frames) /\ a_id a = i /\ a_response a = "Y"%string).
  { intros a. rewrite subject_rows_In. unfold yes.
    rewrite filter_In, String.eqb_eq. tauto. }
  destruct (existsb (id_eqb i) (sort_uniq id_compare (map a_id yes))) eqn:Hex.
  - apply existsb_id_In, group_ids_In in Hex as (a0 & Ha0 & Hid0).
    assert (Hg : In a0 (subject_rows i yes)) by now apply subject_rows_In.
    pose proof (list_min_map a_days (subject_rows i yes)) as Hmin.
    destruct (list_min (map a_days (subject_rows i yes))) as [n|];
      [|cbv iota in Hmin; rewrite Hmin in Hg; destruct Hg].
    destruct Hmin as (a & Ha & Hn & Hmin).
    apply Hyes in Ha as (Ha & Hid & Hresp). split.
    + exists a. auto.
    + intros b Hb Hbid Hbresp. apply Hmin. apply Hyes. auto.
  - intros a Ha Hid Hresp.
    assert (Hin : In i (sort_uniq id_compare (map a_id yes))).
    { apply group_ids_In. exists a. split; [|exact Hid].
      unfold yes. apply filter_In. split; [exact Ha | now apply String.eqb_eq]. }
    apply existsb_id_In in Hin. congruence.
Qed.

End TableClaims.

(** ** The tally columns *)

Section TallyFacts.

Context {Id : Type} {HId : SubjectId Id}.

Lemma dict_get_set_same (k v : string) (d : Dict.t) :
  Dict.get k (Dict.set k v d) = Some v.
Proof.
  induction d as [|[k' v'] d IH]; simpl.
  - now rewrite String.eqb_refl.
  - destruct (String.eqb k k') eqn:E; simpl.
    + now rewrite String.eqb_refl.
    + now rewrite E.
Qed.






Lemma codes_In (c : string) (l : list string) :
  In c (sort_uniq String.compare l) <-> In c l.
Proof. exact (sort_uniq_In (Id := string) c l). Qed.

Lemma codes_NoDup (l : list string) : NoDup (sort_uniq String.compare l).
Proof. exact (sort_uniq_NoDup (Id := string) l). Qed.

Lemma counts_get_map (f : string -> Z) (l : list string) (c : string) :
  counts_get c (map (fun x => (x, f x)) l)
  = if Dict.mem c l then Some (f c) else None.
Proof.
  unfold Dict.mem. induction l as [|x l IH]; simpl; [reflexivity|].
  destruct (String.eqb c x) eqn:E; simpl.
  - apply String.eqb_eq in E. now subst.
  - exact IH.
Qed.

Lemma count_code_zero (c : string) (g : list (Aligned Id)) :
  (forall a, In a g -> a_response a <> c) -> count_code c g = 0.
Proof.
  intros H. unfold count_code. rewrite length_filter_zero; [reflexivity|].
  intros a Ha. apply String.eqb_neq. auto.
Qed.

(** [fillna(0)] completes [value_counts] to the count of every code. *)
Lemma tally_cell (c : string) (g : list (Aligned Id)) :
  match counts_get c (value_counts g) with
  | Some n => n
  | None => 0
  end = count_code c g.
Proof.
  unfold value_counts. rewrite (counts_get_map (fun x => count_code x g)).
  destruct (Dict.mem c _) eqn:E; [reflexivity|].
  symmetry. apply count_code_zero. intros a Ha Hc.
  assert (Hin : In c (sort_uniq String.compare (map a_response g))).
  { apply codes_In, in_map_iff. exists a. auto. }
  apply dict_mem_In in Hin. congruence.
Qed.

Lemma join_tally_cells (names : Dict.t) (df : list (Aligned Id)) (i : Id) :
  In i (sort_uniq id_compare (map a_id df)) ->
  join_tally i (tally names df)
  = map (fun c => Some (count_code c (subject_rows i df))) (tally_codes df).
Proof.
  intros Hi. unfold join_tally, tally. simpl. rewrite groupby_eq, map_map. simpl.
  rewrite (series_get_map
             (fun k => map (fun c => match counts_get c
                                             (value_counts (subject_rows k df)) with
                                     | Some n => n
                                     | None => 0
                                     end) (tally_codes df)) i _ Hi).
  rewrite map_map. apply map_ext. intros c. now rewrite tally_cell.
Qed.

End TallyFacts.

Section TallyClaim.

Context {Id : Type} {HId : SubjectId Id}.


End TallyClaim.

(** ** The ways a run ends *)

Section RunCases.

Context {Id : Type} {HId : SubjectId Id}.

Variable cfg : Config.
Variable date_map : Series Id Timestamp.

Lemma cli_assertion (data_frames : list (list (RawRow Id))) log :
  Dict.mem "b" (Dict.keys (cfg_responses cfg)) = true
  \/ Dict.mem "B" (Dict.values (cfg_responses cfg)) = true ->
  cli cfg date_map data_frames log = (log, Raise AssertionError).
Proof.
  intros Hcol. unfold cli, bind, assert_.
  destruct (Dict.mem "b" (Dict.keys (cfg_responses cfg))); [reflexivity|].
  destruct (Dict.mem "B" (Dict.values (cfg_responses cfg))); [reflexivity|].
  destruct Hcol; discriminate.
Qed.

Lemma cli_no_frames log :
  Dict.mem "b" (Dict.keys (cfg_responses cfg)) = false ->
  Dict.mem "B" (Dict.values (cfg_responses cfg)) = false ->
  cli cfg date_map [] log = (log, Raise (ValueError "No objects to concatenate")).
Proof. intros Hb HB. unfold cli, bind, assert_. now rewrite Hb, HB. Qed.

Lemma cli_repeated_start_ids (data_frames : list (list (RawRow Id))) log :
  Dict.mem "b" (Dict.keys (cfg_responses cfg)) = false ->
  Dict.mem "B" (Dict.values (cfg_responses cfg)) = false ->
  data_frames <> [] ->
  has_dup id_eqb (map fst date_map) = true ->
  exists log' msg,
    cli cfg date_map data_frames log = (log', Raise (NotImplementedError msg)).
Proof.
  intros Hb HB Hne Hdm. unfold cli.
  rewrite bind_ok with (a := tt) (log' := log) by (now rewrite Hb).
  rewrite bind_ok with (a := tt) (log' := log) by (now rewrite HB).
  cbv zeta.
  rewrite bind_ok with (a := List.concat data_frames) (log' := log)
    by (destruct data_frames; [congruence | reflexivity]).
  erewrite bind_ok by apply drop_invalid_run.
  erewrite bind_ok by (apply canonical_run, forallb_filter).
  erewrite bind_ok by apply drop_duplicates_run.
  unfold join_date_map, bind. rewrite Hdm. simpl. eauto.
Qed.

(** Only two rows for one cell make the pivot fail. *)
Lemma cli_pivot_error (data_frames : list (list (RawRow Id))) log :
  has_dup same_cell (survivors cfg date_map data_frames) = false ->
  snd (cli cfg date_map data_frames log)
  <> Raise (ValueError "Index contains duplicate entries, cannot reshape").
Proof.
  intros Hcells.
  destruct (Dict.mem "b" (Dict.keys (cfg_responses cfg))) eqn:Hb.
  { rewrite cli_assertion by (left; exact Hb). discriminate. }
  destruct (Dict.mem "B" (Dict.values (cfg_responses cfg))) eqn:HB.
  { rewrite cli_assertion by (right; exact HB). discriminate. }
  destruct data_frames as [|f fs].
  { rewrite cli_no_frames by assumption. discriminate. }
  destruct (has_dup id_eqb (map fst date_map)) eqn:Hdm.
  { destruct (cli_repeated_start_ids (data_frames := f :: fs) log Hb HB
                ltac:(discriminate) Hdm) as (log' & msg & ->).
    discriminate. }
  rewrite cli_run by (auto; discriminate). rewrite Hcells. discriminate.
Qed.

End RunCases.

(** ** Pairwise distinct rows *)

Section DistinctFacts.

Lemma existsb_filter_false {A} (p f : A -> bool) (l : list A) :
  existsb p l = false -> existsb p (filter f l) = false.
Proof.
  induction l as [|x l IH]; simpl; [reflexivity|].
  intros H. apply orb_false_iff in H as [Hx Hl].
  destruct (f x); simpl; [rewrite Hx|]; auto.
Qed.

Lemma has_dup_filter {A} (e : A -> A -> bool) (f : A -> bool) (l : list A) :
  has_dup e l = false -> has_dup e (filter f l) = false.
Proof.
  induction l as [|x l IH]; simpl; [reflexivity|].
  intros H. apply orb_false_iff in H as [Hx Hl].
  destruct (f x); simpl; [|auto].
  now rewrite existsb_filter_false, IH.
Qed.

Lemma existsb_false_In {A} (p : A -> bool) (l : list A) :
  existsb p l = false <-> forall x, In x l -> p x = false.
Proof.
  induction l as [|y l IH]; simpl.
  - split; [intros _ x [] | reflexivity].
  - rewrite orb_false_iff, IH. split.
    + intros [Hy Hl] x [<-|Hx]; auto.
    + intros H. split; auto.
Qed.

Lemma has_dup_app {A} (e : A -> A -> bool) (l1 l2 : list A) :
  has_dup e l1 = false -> has_dup e l2 = false ->
  (forall x y, In x l1 -> In y l2 -> e x y = false) ->
  has_dup e (l1 ++ l2) = false.
Proof.
  induction l1 as [|x l1 IH]; simpl; [auto|].
  intros H1 H2 Hx. apply orb_false_iff in H1 as [Hx1 H1].
  apply orb_false_iff. split.
  - apply existsb_false_In. intros y Hy. apply in_app_or in Hy as [Hy|Hy].
    + now apply (proj1 (existsb_false_In _ _) Hx1).
    + apply Hx; auto.
  - apply IH; auto.
Qed.

Lemma has_dup_flat_map {A B} (eA : A -> A -> bool) (eB : B -> B -> bool)
  (f : A -> list B) (l : list A) :
  (forall x, In x l -> has_dup eB (f x) = false) ->
  (forall x y b b', In x l -> In y l -> In b (f x) -> In b' (f y) ->
     eB b b' = true -> eA x y = true) ->
  has_dup eA l = false ->
  has_dup eB (flat_map f l) = false.
Proof.
  induction l as [|x l IH]; simpl; [reflexivity|].
  intros Hone Hcross H. apply orb_false_iff in H as [Hx Hl].
  apply has_dup_app.
  - apply Hone. now left.
  - apply IH; [| | exact Hl].
    + intros y Hy. apply Hone. now right.
    + intros y z b b' Hy Hz. apply Hcross; now right.
  - intros b b' Hb Hb'. apply in_flat_map in Hb' as (y & Hy & Hb').
    destruct (eB b b') eqn:E; [|reflexivity].
    assert (Hxy : eA x y = true).
    { apply (Hcross x y b b'); auto. }
    rewrite (proj1 (existsb_false_In _ _) Hx y Hy) in Hxy. discriminate.
Qed.

Lemma has_dup_map {A B} (eA : A -> A -> bool) (eB : B -> B -> bool)
  (g : A -> B) (l : list A) :
  (forall x y, In x l -> In y l -> eB (g x) (g y) = true -> eA x y = true) ->
  has_dup eA l = false ->
  has_dup eB (map g l) = false.
Proof.
  induction l as [|x l IH]; simpl; [reflexivity|].
  intros Hg H. apply orb_false_iff in H as [Hx Hl].
  apply orb_false_iff. split.
  - apply existsb_false_In. intros b Hb.
    apply in_map_iff in Hb as (y & <- & Hy).
    destruct (eB (g x) (g y)) eqn:E; [|reflexivity].
    assert (Hxy : eA x y = true) by (apply Hg; auto).
    rewrite (proj1 (existsb_false_In _ _) Hx y Hy) in Hxy. discriminate.
  - apply IH; [|exact Hl]. intros y z Hy Hz. apply Hg; now right.
Qed.

End DistinctFacts.

(** ** Subjects without a start date *)

Section MissingStartFacts.

Context {Id : Type} {HId : SubjectId Id}.

Lemma series_get_In {V} (i : Id) (s : Series Id V) (v : V) :
  series_get i s = Some v -> In i (map fst s).
Proof.
  induction s as [|[k x] s IH]; simpl; [discriminate|].
  destruct (id_eqb i k) eqn:E.
  - apply id_eqb_eq in E. auto.
  - auto.
Qed.

Lemma series_get_None_iff {V} (i : Id) (s : Series Id V) :
  series_get i s = None <-> ~ In i (map fst s).
Proof.
  split; [|apply series_get_None].
  intros Hnone Hin. induction s as [|[k x] s IH]; simpl in *; [easy|].
  destruct (id_eqb i k) eqn:E; [discriminate|].
  destruct Hin as [->|Hin]; [now rewrite id_eqb_refl in E | auto].
Qed.

Lemma missing_starts_In (df : list (Row Id)) (date_map : Series Id Timestamp)
  (i : Id) :
  In i (missing_starts (join_rows df date_map)) <->
  exists r, In r df /\ r_id r = i /\ ~ In i (map fst date_map).
Proof.
  unfold missing_starts, join_rows. rewrite sort_uniq_In, in_map_iff. split.
  - intros (j & <- & Hj). apply filter_In in Hj as [Hj Hnone].
    apply in_map_iff in Hj as (r & <- & Hr). simpl in *.
    exists r. repeat split; auto. apply series_get_None_iff.
    now destruct (series_get (r_id r) date_map).
  - intros (r & Hr & <- & Hnone).
    exists (mkJoined r (series_get (r_id r) date_map)). split; [reflexivity|].
    apply filter_In. split.
    + apply in_map_iff. exists r. auto.
    + simpl. now rewrite (series_get_None _ _ Hnone).
Qed.

Lemma missing_log_warns (df : list (Joined Id)) (i : Id) :
  In i (missing_starts df) ->
  missing_log df = [WarnMissingStartDates (missing_starts df)].
Proof.
  unfold missing_log. destruct (missing_starts df); [intros [] | reflexivity].
Qed.

Lemma invalid_log_no_warning (rs : list string) (df : list (Row Id)) ids :
  ~ In (WarnMissingStartDates ids) (invalid_log rs df).
Proof.
  unfold invalid_log. destruct (forallb _ df); simpl; [tauto|].
  intros [H|[]]. discriminate.
Qed.

Lemma duplicates_log_no_warning (df : list (Row Id)) ids :
  ~ In (WarnMissingStartDates ids) (duplicates_log df).
Proof.
  unfold duplicates_log. destruct (existsb _ df); simpl; [|tauto].
  intros [H|[]]. discriminate.
Qed.

(** C8.  A normalized record of a subject that the start-date file lacks
    goes through the left join with [NaT] for its start date and its delta,
    no record of that subject passes the window filter, so the table has no
    row for the subject; and the log has one warning for missing start
    dates, which lists exactly the ids of the normalized records that the
    start-date file lacks. *)
Theorem C8_missing_start_dates (cfg : Config) (date_map : Series Id Timestamp)
  (data_frames : list (list (RawRow Id))) (r : Row Id) :
  Dict.mem "b" (Dict.keys (cfg_responses cfg)) = false ->
  Dict.mem "B" (Dict.values (cfg_responses cfg)) = false ->
  has_dup id_eqb (map fst date_map) = false ->
  In r (normalized cfg data_frames) ->
  ~ In (r_id r) (map fst date_map) ->
  let log := fst (cli cfg date_map data_frames []) in
  In (mkTimed (mkJoined r None) None) (joined cfg date_map data_frames)
  /\ (forall t, In t (window_filter (cfg_max_days cfg)
                        (joined cfg date_map data_frames)) ->
        r_id (j_row (t_row t)) <> r_id r)
  /\ (forall a, In a (survivors cfg date_map data_frames) -> a_id a <> r_id r)
  /\ (forall t, snd (cli cfg date_map data_frames []) = Ok t ->
        ~ In (r_id r) (table_ids t))
  /\ exists ids,
       In (WarnMissingStartDates ids) log
       /\ In (r_id r) ids
       /\ (forall i, In i ids <->
             exists r', In r' (normalized cfg data_frames) /\ r_id r' = i
                        /\ ~ In i (map fst date_map))
       /\ (forall ids', In (WarnMissingStartDates ids') log -> ids' = ids).
Proof.
  intros Hb HB Hdm Hr Hno log.
  assert (Hget : series_get (r_id r) date_map = None)
    by now apply series_get_None.
  assert (Hsurv : forall a, In a (survivors cfg date_map data_frames) ->
                            a_id a <> r_id r).
  { intros a Ha Hid. apply survivors_id in Ha as (start & Hs & _).
    rewrite Hid in Hs. congruence. }
  assert (Hne : data_frames <> []).
  { intros ->. exact Hr. }
  split.
  { apply joined_In. exists r. now rewrite Hget. }
  split.
  { intros t Ht Hid. apply window_filter_In in Ht as [Ht (d & Hd & _)].
    apply joined_In in Ht as (r' & _ & ->). simpl in Hd, Hid.
    rewrite Hid, Hget in Hd. discriminate. }
  split; [exact Hsurv|]. split.
  { intros t Hok Hin.
    destruct (cli cfg date_map data_frames []) as [log' res] eqn:Hrun.
    simpl in Hok. subst res. apply cli_ok_inv in Hrun as (_ & _ & _ & _ & _ & ->).
    rewrite result_table_ids in Hin. apply group_ids_In in Hin as (a & Ha & Hid).
    exact (Hsurv a Ha Hid). }
  assert (Hmiss : In (r_id r)
                    (missing_starts (join_rows (normalized cfg data_frames) date_map))).
  { apply missing_starts_In. exists r. auto. }
  exists (missing_starts (join_rows (normalized cfg data_frames) date_map)).
  unfold log. rewrite cli_run by assumption. simpl fst.
  rewrite (missing_log_warns _ _ Hmiss).
  split; [|split; [exact Hmiss|split]].
  - apply in_or_app. right. apply in_or_app. right. now left.
  - intros i. apply missing_starts_In.
  - intros ids' Hin.
    apply in_app_or in Hin as [Hin|Hin];
      [now apply invalid_log_no_warning in Hin|].
    apply in_app_or in Hin as [Hin|Hin];
      [now apply duplicates_log_no_warning in Hin|].
    destruct Hin as [[= <-]|[]]. reflexivity.
Qed.

End MissingStartFacts.

(** ** One record per subject and day *)

Section CellFacts.

Context {Id : Type} {HId : SubjectId Id}.

Lemma filter_In_length {A} (p : A -> bool) (l : list A) (y : A) :
  In y l -> p y = true -> (1 <= List.length (filter p l))%nat.
Proof.
  intros Hy Hp. assert (Hin : In y (filter p l)) by (apply filter_In; auto).
  destruct (filter p l); [destruct Hin | simpl; lia].
Qed.

Lemma remove_duplicated_aux (df l : list (Row Id)) :
  (forall f, (List.length (filter f l) <= List.length (filter f df))%nat) ->
  has_dup same_key (filter (fun r => negb (duplicated df r)) l) = false.
Proof.
  induction l as [|x l IH]; intros Hsub; simpl; [reflexivity|].
  assert (Hsub' : forall f, (List.length (filter f l)
                             <= List.length (filter f df))%nat).
  { intros f. specialize (Hsub f). simpl in Hsub.
    destruct (f x); simpl in Hsub; lia. }
  destruct (duplicated df x) eqn:Hdup; simpl; [now apply IH|].
  rewrite (IH Hsub'), orb_false_r.
  apply existsb_false_In. intros y Hy. apply filter_In in Hy as [Hy _].
  destruct (same_key x y) eqn:E; [exfalso | reflexivity].
  specialize (Hsub (same_key x)). simpl in Hsub.
  rewrite same_key_refl in Hsub. simpl in Hsub.
  pose proof (filter_In_length (same_key x) l y Hy E).
  unfold duplicated in Hdup. apply Nat.ltb_ge in Hdup. lia.
Qed.

(** After the removal no two rows have the same index value. *)
Lemma normalized_distinct (cfg : Config) (data_frames : list (list (RawRow Id))) :
  has_dup same_key (normalized cfg data_frames) = false.
Proof. apply remove_duplicated_aux. auto. Qed.

Lemma survivors_distinct (cfg : Config) (date_map : Series Id Timestamp)
  (data_frames : list (list (RawRow Id))) :
  has_dup same_index (survivors cfg date_map data_frames) = false.
Proof.
  unfold survivors, add_days.
  apply has_dup_flat_map
    with (eA := fun t t' => same_key (j_row (t_row t)) (j_row (t_row t'))).
  - intros t _. now destruct (t_delta t).
  - intros t t' b b' _ _ Hb Hb' E.
    destruct (t_delta t); [|destruct Hb]. destruct Hb as [<-|[]].
    destruct (t_delta t'); [|destruct Hb']. destruct Hb' as [<-|[]].
    exact E.
  - unfold window_filter. do 2 apply has_dup_filter.
    unfold joined, add_delta.
    apply has_dup_map with (eA := fun j j' => same_key (j_row j) (j_row j'));
      [auto|].
    unfold join_rows. apply has_dup_map with (eA := same_key); [auto|].
    apply normalized_distinct.
Qed.

(** The dates of the aligned frame are dates that were read. *)
Lemma canonical_rows_origin (rm : Dict.t) (df : list (Row Id)) (r : Row Id) :
  In r (canonical_rows rm df) ->
  exists r0, In r0 df /\ r_id r0 = r_id r /\ r_date r0 = r_date r.
Proof.
  unfold canonical_rows. rewrite in_flat_map. intros (r0 & Hr0 & Hr).
  destruct (Dict.get (r_response r0) rm); [|destruct Hr].
  destruct Hr as [<-|[]]. exists r0. auto.
Qed.

Lemma normalized_origin (cfg : Config) (data_frames : list (list (RawRow Id)))
  (r : Row Id) :
  In r (normalized cfg data_frames) ->
  exists f raw, In f data_frames /\ In raw f
                /\ raw_id raw = r_id r /\ raw_date raw = r_date r.
Proof.
  unfold normalized, remove_duplicated, validated, concatenated.
  intros Hr. apply filter_In in Hr as [Hr _].
  apply canonical_rows_origin in Hr as (r0 & Hr0 & Hid & Hdate).
  apply filter_In in Hr0 as [Hr0 _].
  unfold lower_strip, fillna in Hr0. rewrite map_map in Hr0.
  apply in_map_iff in Hr0 as (raw & <- & Hraw). simpl in Hid, Hdate.
  apply in_concat in Hraw as (f & Hf & Hraw).
  exists f, raw. auto.
Qed.

Lemma survivors_date_origin (cfg : Config) (date_map : Series Id Timestamp)
  (data_frames : list (list (RawRow Id))) (a : Aligned Id) :
  In a (survivors cfg date_map data_frames) ->
  exists f raw, In f data_frames /\ In raw f /\ raw_date raw = a_date a.
Proof.
  intros Ha. apply survivors_inv in Ha as (r & start & Hr & _ & Hrow & _).
  apply normalized_origin in Hr as (f & raw & Hf & Hraw & _ & Hdate).
  exists f, raw. unfold a_date. rewrite Hrow. simpl. auto.
Qed.

Lemma whole_day_days (x y c : Z) :
  whole_day x -> whole_day y -> td_days (x - c) = td_days (y - c) -> x = y.
Proof.
  unfold whole_day. intros Hx Hy Hd. pose proof ns_per_day_pos as Hp.
  pose proof (Z.div_mod x ns_per_day ltac:(lia)) as Ex.
  pose proof (Z.div_mod y ns_per_day ltac:(lia)) as Ey.
  rewrite Hx in Ex. rewrite Hy in Ey.
  replace (x - c) with ((y - c) + (x / ns_per_day - y / ns_per_day) * ns_per_day)
    in Hd by lia.
  rewrite td_days_shift in Hd. nia.
Qed.

Lemma day_label_inj (m x y : Z) :
  1 <= x <= m -> 1 <= y <= m -> day_label m x = day_label m y -> x = y.
Proof.
  intros Hx Hy E. apply Z.compare_eq.
  rewrite <- (PyStrFacts.day_label_compare Hx Hy), E.
  exact (id_compare_refl (Id := string) (day_label m y)).
Qed.

End CellFacts.

Section CellClaim.

Context {Id : Type} {HId : SubjectId Id}.

(** C10, as the code has it.  When every timestamp that was read is a
    calendar date (no time of day), two surviving records of one subject
    with different dates have different deltas, different day numbers and
    different labels; hence, duplicated index values being removed, no two
    rows of the aligned frame fall in one cell and the run never ends with
    the pivot's duplicate-entries error. *)
Theorem C10_one_record_per_cell (cfg : Config) (date_map : Series Id Timestamp)
  (data_frames : list (list (RawRow Id))) :
  dates_only data_frames ->
  let df := survivors cfg date_map data_frames in
  (forall a b, In a df -> In b df -> a_id a = a_id b -> a_date a <> a_date b ->
     a_delta a <> a_delta b /\ a_days a <> a_days b /\ a_pivot a <> a_pivot b)
  /\ has_dup same_cell df = false
  /\ forall log,
       snd (cli cfg date_map data_frames log)
       <> Raise (ValueError "Index contains duplicate entries, cannot reshape").
Proof.
  intros Hdates df.
  assert (Hwhole : forall a, In a df -> whole_day (a_date a)).
  { intros a Ha. apply survivors_date_origin in Ha as (f & raw & Hf & Hraw & <-).
    exact (Hdates f raw Hf Hraw). }
  assert (Hdays : forall a b, In a df -> In b df -> a_id a = a_id b ->
                    a_days a = a_days b -> a_date a = a_date b).
  { intros a b Ha Hb Hid Hd.
    pose proof (Hwhole a Ha) as Wa. pose proof (Hwhole b Hb) as Wb.
    apply survivors_inv in Ha as (ra & sa & _ & Hsa & Hrowa & Hda & Hna & _).
    apply survivors_inv in Hb as (rb & sb & _ & Hsb & Hrowb & Hdb & Hnb & _).
    unfold a_id, a_date in *. rewrite Hrowa, Hrowb in *. simpl in *.
    rewrite Hid, Hsb in Hsa. injection Hsa as <-.
    apply (whole_day_days (sb + Timedelta_days (cfg_offset_days cfg)) Wa Wb).
    replace (r_date ra - (sb + Timedelta_days (cfg_offset_days cfg)))
      with (a_delta a) by lia.
    replace (r_date rb - (sb + Timedelta_days (cfg_offset_days cfg)))
      with (a_delta b) by lia.
    lia. }
  assert (Hlabel : forall a b, In a df -> In b df ->
                     a_pivot a = a_pivot b -> a_days a = a_days b).
  { intros a b Ha Hb Hp.
    apply survivors_inv in Ha as (_ & _ & _ & _ & _ & _ & Hna & Hpa & Hwa).
    apply survivors_inv in Hb as (_ & _ & _ & _ & _ & _ & Hnb & Hpb & Hwb).
    rewrite Hpa, Hpb in Hp. apply day_label_inj in Hp; [exact Hp | lia | lia]. }
  assert (Hcells : has_dup same_cell df = false).
  { rewrite <- (map_id df).
    apply has_dup_map with (eA := same_index); [|apply survivors_distinct].
    intros a b Ha Hb E. unfold same_cell in E.
    apply andb_true_iff in E as [Ei Ep].
    apply id_eqb_eq in Ei. apply String.eqb_eq in Ep.
    unfold same_index. rewrite (proj2 (id_eqb_eq _ _) Ei). simpl.
    apply Z.eqb_eq. apply Hdays; auto. }
  split; [|split; [exact Hcells|]].
  - intros a b Ha Hb Hid Hne.
    assert (Hn : a_days a <> a_days b) by (intros E; apply Hne; auto).
    repeat split.
    + intros E. apply Hn.
      apply survivors_inv in Ha as (_ & _ & _ & _ & _ & _ & Hna & _).
      apply survivors_inv in Hb as (_ & _ & _ & _ & _ & _ & Hnb & _).
      congruence.
    + exact Hn.
    + intros E. apply Hn. auto.
  - intros log. now apply cli_pivot_error.
Qed.

End CellClaim.

(** ** The sample runs *)

Lemma sample_run :
  cli Sample.cfg Sample.date_map Sample.frames []
  = ([WarnMissingStartDates ["S3"%string]], Ok Sample.table).
Proof. vm_compute. reflexivity. Defined.

Lemma sample_rows : table_rows Sample.table = [Sample.row_S1; Sample.row_S2].
Proof. vm_compute. reflexivity. Defined.

Lemma sample_row_S1 : In Sample.row_S1 (table_rows Sample.table).
Proof. rewrite sample_rows. now left. Defined.

Lemma sample_row_S2 : In Sample.row_S2 (table_rows Sample.table).
Proof. rewrite sample_rows. right. now left. Defined.

Lemma sample_dates_only : dates_only Sample.frames.
Proof.
  intros f r Hf Hr. unfold Sample.frames in Hf. simpl in Hf.
  repeat (destruct Hf as [<-|Hf];
          [simpl in Hr;
           repeat (destruct Hr as [<-|Hr]; [reflexivity|]); destruct Hr|]).
  destruct Hf.
Defined.

Lemma C7_rows_unique_sorted_exact_witness :
  cli Sample.cfg Sample.date_map Sample.frames []
  = ([WarnMissingStartDates ["S3"%string]], Ok Sample.table)
  /\ table_ids Sample.table = ["S1"%string; "S2"%string]
  /\ NoDup (table_ids Sample.table)
  /\ Sorted id_lt (table_ids Sample.table).
Proof.
  split; [exact sample_run|]. split; [reflexivity|].
  destruct (C7_rows_unique_sorted_exact Sample.cfg Sample.date_map Sample.frames
              [] sample_run) as (Hnodup & Hsorted & _).
  split; assumption.
Defined.

Lemma C5_total_period_witness :
  In Sample.row_S1 (table_rows Sample.table)
  /\ exists first last,
       In first (survivors Sample.cfg Sample.date_map Sample.frames)
       /\ a_id first = "S1"%string
       /\ In last (survivors Sample.cfg Sample.date_map Sample.frames)
       /\ a_id last = "S1"%string
       /\ (forall a, In a (survivors Sample.cfg Sample.date_map Sample.frames) ->
             a_id a = "S1"%string -> a_date first <= a_date a <= a_date last)
       /\ Some 5 = Some (td_days (a_date last - a_date first) + 1).
Proof.
  split; [exact sample_row_S1|].
  exact (C5_total_period Sample.cfg Sample.date_map Sample.frames []
           Sample.row_S1 sample_run sample_row_S1).
Defined.

Lemma C6_first_yes_witness :
  In Sample.row_S1 (table_rows Sample.table)
  /\ In Sample.row_S2 (table_rows Sample.table)
  /\ ((exists a, In a (survivors Sample.cfg Sample.date_map Sample.frames)
                 /\ a_id a = "S1"%string /\ a_response a = "Y"%string
                 /\ a_days a = 1)
      /\ (forall a, In a (survivors Sample.cfg Sample.date_map Sample.frames) ->
            a_id a = "S1"%string -> a_response a = "Y"%string -> 1 <= a_days a))
  /\ row_first_yes Sample.row_S2 = None
  /\ (forall a, In a (survivors Sample.cfg Sample.date_map Sample.frames) ->
        a_id a = "S2"%string -> a_response a <> "Y"%string).
Proof.
  split; [exact sample_row_S1|]. split; [exact sample_row_S2|]. split.
  - exact (C6_first_yes Sample.cfg Sample.date_map Sample.frames []
             Sample.row_S1 sample_run sample_row_S1).
  - split; [reflexivity|].
    exact (C6_first_yes Sample.cfg Sample.date_map Sample.frames []
             Sample.row_S2 sample_run sample_row_S2).
Defined.




Lemma C8_missing_start_dates_witness :
  In (mkRow "S3"%string (Sample.day 18273) "Y"%string "S3/a.csv"%string)
     (normalized Sample.cfg Sample.frames)
  /\ ~ In "S3"%string (map fst Sample.date_map)
  /\ In (mkTimed (mkJoined (mkRow "S3"%string (Sample.day 18273) "Y"%string
                              "S3/a.csv"%string) None) None)
        (joined Sample.cfg Sample.date_map Sample.frames)
  /\ ~ In "S3"%string (table_ids Sample.table)
  /\ exists ids,
       In (WarnMissingStartDates ids)
          (fst (cli Sample.cfg Sample.date_map Sample.frames []))
       /\ In "S3"%string ids.
Proof.
  set (r := mkRow "S3"%string (Sample.day 18273) "Y"%string "S3/a.csv"%string).
  assert (Hr : In r (normalized Sample.cfg Sample.frames))
    by (vm_compute; tauto).
  assert (Hno : ~ In (r_id r) (map fst Sample.date_map)).
  { simpl. intros [H|[H|[]]]; discriminate. }
  split; [exact Hr|]. split; [exact Hno|].
  assert (Hb : Dict.mem "b" (Dict.keys (cfg_responses Sample.cfg)) = false)
    by reflexivity.
  assert (HB : Dict.mem "B" (Dict.values (cfg_responses Sample.cfg)) = false)
    by reflexivity.
  assert (Hdm : has_dup id_eqb (map fst Sample.date_map) = false)
    by reflexivity.
  destruct (C8_missing_start_dates Sample.cfg Sample.date_map Sample.frames r
              Hb HB Hdm Hr Hno)
    as (Hjoin & _ & _ & Htable & ids & Hwarn & Hids & _).
  split; [exact Hjoin|]. split.
  - apply Htable. now rewrite sample_run.
  - exists ids. split; assumption.
Defined.

Lemma C10_one_record_per_cell_witness :
  dates_only Sample.frames
  /\ has_dup same_cell (survivors Sample.cfg Sample.date_map Sample.frames)
     = false
  /\ snd (cli Sample.cfg Sample.date_map Sample.frames [])
     <> Raise (ValueError "Index contains duplicate entries, cannot reshape").
Proof.
  split; [exact sample_dates_only|].
  destruct (C10_one_record_per_cell Sample.cfg Sample.date_map sample_dates_only)
    as (_ & Hcells & Hrun).
  split; [exact Hcells | apply Hrun].
Defined.

(** Two readings of one subject at 08:00 and at 20:00 of one day have
    different index values, so both are kept; they get the same day number
    and label, and the pivot fails. *)
Lemma C10_counterexample :
  ~ (forall a b,
       In a (survivors Sample.cfg Sample.date_map Sample.frames_same_day) ->
       In b (survivors Sample.cfg Sample.date_map Sample.frames_same_day) ->
       a_id a = a_id b -> a_date a <> a_date b ->
       a_delta a <> a_delta b /\ a_days a <> a_days b /\ a_pivot a <> a_pivot b)
  /\ snd (cli Sample.cfg Sample.date_map Sample.frames_same_day [])
     = Raise (ValueError "Index contains duplicate entries, cannot reshape").
Proof.
  split; [|vm_compute; reflexivity].
  intros H.
  set (a := nth 0 (survivors Sample.cfg Sample.date_map Sample.frames_same_day)
              Sample.blank_S1).
  set (b := nth 1 (survivors Sample.cfg Sample.date_map Sample.frames_same_day)
              Sample.blank_S1).
  destruct (H a b) as (_ & Hdays & _).
  - vm_compute. tauto.
  - vm_compute. tauto.
  - reflexivity.
  - vm_compute. discriminate.
  - apply Hdays. reflexivity.
Qed.

(* ================================================================== *)
(** * Further properties of [cli] *)

(** ** The summary columns *)

Section SummaryFacts.

Context {Id : Type} {HId : SubjectId Id}.

Lemma td_days_mono (x y : Timedelta) : x <= y -> td_days x <= td_days y.
Proof.
  intros H. unfold td_days. apply Z.div_le_mono; [exact ns_per_day_pos | exact H].
Qed.

Lemma td_days_superadd (x y : Timedelta) :
  td_days x + td_days (y - x) <= td_days y.
Proof.
  unfold td_days. pose proof ns_per_day_pos as Hp.
  pose proof (Z.div_mod x ns_per_day ltac:(lia)).
  pose proof (Z.div_mod (y - x) ns_per_day ltac:(lia)).
  pose proof (Z.div_mod y ns_per_day ltac:(lia)).
  pose proof (Z.mod_pos_bound x ns_per_day Hp).
  pose proof (Z.mod_pos_bound (y - x) ns_per_day Hp).
  pose proof (Z.mod_pos_bound y ns_per_day Hp).
  nia.
Qed.

(** The aggregate of a non-empty group by its least value of a column. *)
Lemma agg_min_get (h : Aligned Id -> Z) (df : list (Aligned Id)) (i : Id) :
  In i (sort_uniq id_compare (map a_id df)) ->
  exists a, In a df /\ a_id a = i
    /\ series_get i (agg (fun g => list_min (map h g)) (groupby df)) = Some (h a)
    /\ forall b, In b df -> a_id b = i -> h a <= h b.
Proof.
  intros Hi. rewrite groupby_eq, agg_get.
  rewrite (proj2 (existsb_id_In _ _) Hi).
  apply group_ids_In in Hi as (a0 & Ha0 & Hid0).
  assert (Hg : In a0 (subject_rows i df)) by now apply subject_rows_In.
  pose proof (list_min_map h (subject_rows i df)) as Hmin.
  destruct (list_min (map h (subject_rows i df))) as [m|];
    [|rewrite Hmin in Hg; destruct Hg].
  destruct Hmin as (a & Ha & <- & Hmin).
  apply subject_rows_In in Ha as [Ha Hid]. exists a. repeat split; auto.
  intros b Hb Hbid. apply Hmin. now apply subject_rows_In.
Qed.

Lemma agg_max_get (h : Aligned Id -> Z) (df : list (Aligned Id)) (i : Id) :
  In i (sort_uniq id_compare (map a_id df)) ->
  exists a, In a df /\ a_id a = i
    /\ series_get i (agg (fun g => list_max (map h g)) (groupby df)) = Some (h a)
    /\ forall b, In b df -> a_id b = i -> h b <= h a.
Proof.
  intros Hi. rewrite groupby_eq, agg_get.
  rewrite (proj2 (existsb_id_In _ _) Hi).
  apply group_ids_In in Hi as (a0 & Ha0 & Hid0).
  assert (Hg : In a0 (subject_rows i df)) by now apply subject_rows_In.
  pose proof (list_max_map h (subject_rows i df)) as Hmax.
  destruct (list_max (map h (subject_rows i df))) as [m|];
    [|rewrite Hmax in Hg; destruct Hg].
  destruct Hmax as (a & Ha & <- & Hmax).
  apply subject_rows_In in Ha as [Ha Hid]. exists a. repeat split; auto.
  intros b Hb Hbid. apply Hmax. now apply subject_rows_In.
Qed.

Lemma total_period_get (df : list (Aligned Id)) (i : Id) :
  In i (sort_uniq id_compare (map a_id df)) ->
  exists lo hi, In lo df /\ a_id lo = i /\ In hi df /\ a_id hi = i
    /\ (forall b, In b df -> a_id b = i -> a_delta lo <= a_delta b <= a_delta hi)
    /\ series_get i (total_period df)
       = Some (td_days (a_delta hi - a_delta lo) + 1).
Proof.
  intros Hi.
  destruct (agg_max_get a_delta df i Hi) as (hi & Hhi & Hhid & Ehi & Hmax).
  destruct (agg_min_get a_delta df i Hi) as (lo & Hlo & Hlid & Elo & Hmin).
  exists lo, hi. repeat split; auto.
  unfold total_period.
  rewrite (series_get_map_snd (fun x => td_days x + 1)), series_sub_get.
  unfold Timedelta in *. now rewrite Ehi, Elo.
Qed.

(** X1.  [First_Response] of a row is the least day number of the surviving
    records of its subject; it is never empty. *)
Theorem X1_first_response (cfg : Config) (date_map : Series Id Timestamp)
  (data_frames : list (list (RawRow Id))) log log' (t : Table Id)
  (row : ResultRow Id) :
  cli cfg date_map data_frames log = (log', Ok t) ->
  In row (table_rows t) ->
  exists a, In a (survivors cfg date_map data_frames)
    /\ a_id a = row_id row
    /\ row_first_response row = Some (a_days a)
    /\ forall b, In b (survivors cfg date_map data_frames) ->
         a_id b = row_id row -> a_days a <= a_days b.
Proof.
  intros Hrun Hrow. apply cli_ok_inv in Hrun as (_ & _ & _ & _ & _ & ->).
  apply result_table_row in Hrow as (Hid & _ & _ & Hfr & _).
  destruct (agg_min_get a_days _ _ Hid) as (a & Ha & Haid & E & Hmin).
  exists a. repeat split; auto. rewrite Hfr. exact E.
Qed.

(** X2.  In every row [First_Response] and [Total_Period] are at least 1,
    the period counted from the day of the first response ends within the
    window ([First_Response + Total_Period - 1 <= max_days]), and
    [First_Yes], when present, lies between [First_Response] and
    [max_days]. *)
Theorem X2_summary_bounds (cfg : Config) (date_map : Series Id Timestamp)
  (data_frames : list (list (RawRow Id))) log log' (t : Table Id)
  (row : ResultRow Id) :
  cli cfg date_map data_frames log = (log', Ok t) ->
  In row (table_rows t) ->
  exists f p,
    row_first_response row = Some f
    /\ row_period row = Some p
    /\ 1 <= f /\ 1 <= p
    /\ f + p - 1 <= cfg_max_days cfg
    /\ forall y, row_first_yes row = Some y -> f <= y <= cfg_max_days cfg.
Proof.
  intros Hrun Hrow. apply cli_ok_inv in Hrun as (_ & _ & _ & _ & _ & ->).
  apply result_table_row in Hrow as (Hid & Hper & _ & Hfr & Hfy).
  set (df := survivors cfg date_map data_frames) in *.
  destruct (agg_min_get a_days df _ Hid) as (a & Ha & Haid & Ea & Hmin).
  destruct (total_period_get df _ Hid)
    as (lo & hi & Hlo & Hlid & Hhi & Hhid & Hbetween & Ep).
  exists (a_days a), (td_days (a_delta hi - a_delta lo) + 1).
  assert (Hdays : forall b, In b df ->
            a_days b = td_days (a_delta b) + 1
            /\ 0 <= td_days (a_delta b) < cfg_max_days cfg).
  { intros b Hb. apply survivors_inv in Hb as (_ & _ & _ & _ & _ & _ & H1 & _ & H2).
    auto. }
  destruct (Hdays a Ha) as [Da Wa]. destruct (Hdays lo Hlo) as [Dlo Wlo].
  destruct (Hdays hi Hhi) as [Dhi Whi].
  pose proof (Hbetween hi Hhi Hhid) as [Hlohi _].
  pose proof (Hmin lo Hlo Hlid) as Halo.
  pose proof (td_days_superadd (a_delta lo) (a_delta hi)) as Hsup.
  assert (0 <= td_days (a_delta hi - a_delta lo)).
  { apply (proj1 (td_days_nonneg _)). unfold Timedelta_days. lia. }
  split; [now rewrite Hfr|]. split; [now rewrite Hper|].
  split; [lia|]. split; [lia|]. split; [lia|].
  intros y Hy. rewrite Hfy in Hy. unfold first_yes in Hy.
  rewrite groupby_eq, agg_get in Hy.
  destruct (existsb _ _); [|discriminate].
  pose proof (list_min_map a_days
                (subject_rows (row_id row)
                   (filter (fun r => String.eqb (a_response r) "Y") df))) as Hm.
  rewrite Hy in Hm. destruct Hm as (b & Hb & <- & _).
  apply subject_rows_In in Hb as [Hb Hbid]. apply filter_In in Hb as [Hb _].
  destruct (Hdays b Hb) as [Db Wb]. pose proof (Hmin b Hb Hbid). lia.
Qed.

End SummaryFacts.

(** ** The outcome and the log of a run *)

Section OutcomeFacts.

Context {Id : Type} {HId : SubjectId Id}.

Variable cfg : Config.
Variable date_map : Series Id Timestamp.
Variable data_frames : list (list (RawRow Id)).

(** X3.  A run returns a table only if the response map has neither the
    key ['b'] nor the value ['B'], at least one frame was read, no id is
    repeated in the start-date index, and no two aligned rows fall in one
    cell of the day pivot: when one of these fails, no table is returned. *)
Theorem X3_returns_table_only_if log (t : Table Id) :
  snd (cli cfg date_map data_frames log) = Ok t ->
  Dict.mem "b" (Dict.keys (cfg_responses cfg)) = false
  /\ Dict.mem "B" (Dict.values (cfg_responses cfg)) = false
  /\ data_frames <> []
  /\ has_dup id_eqb (map fst date_map) = false
  /\ has_dup same_cell (survivors cfg date_map data_frames) = false.
Proof.
  intros Ht.
  destruct (cli cfg date_map data_frames log) as [log' res] eqn:Hrun.
  simpl in Ht. subst res.
  apply cli_ok_inv in Hrun as (H1 & H2 & H3 & H4 & H5 & _). auto.
Qed.

(** X4.  The renaming of the responses to canonical codes (line 223) never
    fails: whatever the inputs, a run does not end with a [KeyError]. *)
Theorem X4_never_key_error log key :
  snd (cli cfg date_map data_frames log) <> Raise (KeyError key).
Proof.
  destruct (Dict.mem "b" (Dict.keys (cfg_responses cfg))) eqn:Hb.
  { rewrite cli_assertion by (left; exact Hb). discriminate. }
  destruct (Dict.mem "B" (Dict.values (cfg_responses cfg))) eqn:HB.
  { rewrite cli_assertion by (right; exact HB). discriminate. }
  destruct data_frames as [|f fs] eqn:Hfr.
  { rewrite cli_no_frames by assumption. discriminate. }
  destruct (has_dup id_eqb (map fst date_map)) eqn:Hdm.
  { destruct (cli_repeated_start_ids cfg date_map (data_frames := f :: fs) log
                Hb HB ltac:(discriminate) Hdm) as (log' & msg & ->).
    discriminate. }
  rewrite cli_run by (auto; discriminate).
  destruct (has_dup same_cell _); discriminate.
Qed.

(** The log of a run that got past the assertions and the concatenation. *)
Lemma cli_log log :
  Dict.mem "b" (Dict.keys (cfg_responses cfg)) = false ->
  Dict.mem "B" (Dict.values (cfg_responses cfg)) = false ->
  data_frames <> [] ->
  fst (cli cfg date_map data_frames log)
  = log
    ++ invalid_log (Dict.keys (response_map_of cfg)) (concatenated data_frames)
    ++ duplicates_log (validated cfg data_frames)
    ++ (if has_dup id_eqb (map fst date_map) then []
        else missing_log (join_rows (normalized cfg data_frames) date_map)).
Proof.
  intros Hb HB Hne.
  destruct (has_dup id_eqb (map fst date_map)) eqn:Hdm.
  - unfold cli.
    rewrite bind_ok with (a := tt) (log' := log) by (now rewrite Hb).
    rewrite bind_ok with (a := tt) (log' := log) by (now rewrite HB).
    cbv zeta.
    rewrite bind_ok with (a := List.concat data_frames) (log' := log)
      by (destruct data_frames; [congruence | reflexivity]).
    erewrite bind_ok by apply drop_invalid_run.
    erewrite bind_ok by (apply canonical_run, forallb_filter).
    erewrite bind_ok by apply drop_duplicates_run.
    unfold join_date_map, bind. rewrite Hdm. simpl.
    unfold validated, concatenated, response_map_of.
    now rewrite app_nil_r, <- app_assoc.
  - now rewrite cli_run by assumption.
Qed.

(** X5.  In a run on responses in ASCII text that got past the assertions
    with at least one frame, the rows whose response, lower-cased and
    stripped, is no key of the response map are logged in one error entry,
    in row order, and only they; the entry is written exactly when there
    is such a row; and no such row reaches the normalized frame. *)
Theorem X5_invalid_responses_logged :
  ascii_responses data_frames ->
  Dict.mem "b" (Dict.keys (cfg_responses cfg)) = false ->
  Dict.mem "B" (Dict.values (cfg_responses cfg)) = false ->
  data_frames <> [] ->
  let keys := Dict.keys (response_map_of cfg) in
  let invalid := filter (fun r => negb (Dict.mem (r_response r) keys))
                   (concatenated data_frames) in
  (forall rows, In (ErrorInvalidResponses rows)
                   (fst (cli cfg date_map data_frames [])) <->
                rows = invalid /\ invalid <> [])
  /\ (forall r, In r (normalized cfg data_frames) ->
        exists k, In k keys /\ Dict.get k (response_map_of cfg) = Some (r_response r)).
Proof.
  intros _ Hb HB Hne keys invalid. split.
  - intros rows. rewrite cli_log by assumption. simpl app.
    assert (Hrest : ~ In (ErrorInvalidResponses rows)
                      (duplicates_log (validated cfg data_frames)
                       ++ (if has_dup id_eqb (map fst date_map) then []
                           else missing_log
                                  (join_rows (normalized cfg data_frames)
                                     date_map)))).
    { intros Hin. apply in_app_or in Hin as [Hin|Hin].
      - unfold duplicates_log in Hin.
        destruct (existsb _ _); simpl in Hin; intuition discriminate.
      - destruct (has_dup id_eqb (map fst date_map)); [destruct Hin|].
        unfold missing_log in Hin.
        destruct (missing_starts _); simpl in Hin; intuition discriminate. }
    rewrite in_app_iff. unfold invalid_log, valid_response. fold keys.
    destruct (forallb (fun r => Dict.mem (r_response r) keys)
                (concatenated data_frames)) eqn:E.
    + assert (Hnil : invalid = []).
      { apply length_zero_iff_nil, length_filter_zero. intros x Hx.
        rewrite forallb_forall in E. now rewrite (E x Hx). }
      split; [intros [[]|Hin]; contradiction | intros [_ H]; contradiction].
    + assert (Hne' : invalid <> []).
      { intros Hnil.
        assert (Hall : forallb (fun r => Dict.mem (r_response r) keys)
                         (concatenated data_frames) = true).
        { apply forallb_forall. intros x Hx.
          destruct (Dict.mem (r_response x) keys) eqn:Ex; [reflexivity|].
          assert (Hin : In x invalid) by (apply filter_In; now rewrite Ex).
          now rewrite Hnil in Hin. }
        congruence. }
      split.
      * intros [[[= <-]|[]]|Hin]; [auto | contradiction].
      * intros [-> _]. left. now left.
  - intros r Hr. unfold normalized, remove_duplicated in Hr.
    apply filter_In in Hr as [Hr _]. unfold validated, canonical_rows in Hr.
    apply in_flat_map in Hr as (r0 & Hr0 & Hr).
    apply filter_In in Hr0 as [_ Hvalid].
    destruct (Dict.get (r_response r0) (response_map_of cfg)) as [v|] eqn:E;
      [|destruct Hr].
    destruct Hr as [<-|[]]. exists (r_response r0). simpl. split; [|exact E].
    now apply dict_mem_In.
Qed.

End OutcomeFacts.

(** ** Blank responses and duplicated rows *)

Section NormalizerFacts.

Context {Id : Type} {HId : SubjectId Id}.

Lemma dict_set_keys (k v : string) (d : Dict.t) :
  Dict.mem k (Dict.keys (Dict.set k v d)) = true.
Proof.
  apply dict_mem_In. induction d as [|[k' v'] d IH]; simpl.
  - now left.
  - destruct (String.eqb k k') eqn:E; simpl; [now left | now right].
Qed.

(** X6.  An empty response cell, like a response that reads ['b'] once
    lower-cased and stripped, is never taken for an invalid response: its
    row passes the response check with the code ['B']. *)
Theorem X6_blank_becomes_B (cfg : Config)
  (data_frames : list (list (RawRow Id))) (f : list (RawRow Id))
  (raw : RawRow Id) :
  In f data_frames -> In raw f ->
  raw_response raw = None
  \/ (exists s, raw_response raw = Some s
                /\ PyStr.strip (PyStr.lower s) = "b"%string) ->
  In (mkRow (raw_id raw) (raw_date raw) "B" (raw_source raw))
     (validated cfg data_frames).
Proof.
  intros Hf Hraw Hblank. unfold validated, canonical_rows. apply in_flat_map.
  exists (mkRow (raw_id raw) (raw_date raw) "b" (raw_source raw)). split.
  - apply filter_In. split.
    + unfold concatenated, lower_strip, fillna. rewrite map_map.
      apply in_map_iff. exists raw. split.
      * simpl. f_equal. destruct Hblank as [->|(s & -> & Hs)]; [reflexivity | exact Hs].
      * apply in_concat. exists f. auto.
    + unfold valid_response, response_map_of. simpl. apply dict_set_keys.
  - simpl. unfold response_map_of. rewrite dict_get_set_same. now left.
Qed.

(** X7.  In a run that got past the assertions with at least one frame,
    the rows whose [(id, date)] index value occurs more than once among the
    rows with a valid response are logged in one error entry, every copy of
    them and only they; the entry is written exactly when there is such a
    row. *)
Theorem X7_duplicate_rows_logged (cfg : Config)
  (date_map : Series Id Timestamp) (data_frames : list (list (RawRow Id))) :
  Dict.mem "b" (Dict.keys (cfg_responses cfg)) = false ->
  Dict.mem "B" (Dict.values (cfg_responses cfg)) = false ->
  data_frames <> [] ->
  let df := validated cfg data_frames in
  let dups := filter (duplicated df) df in
  (forall rows, In (ErrorDuplicateRows rows)
                   (fst (cli cfg date_map data_frames [])) <->
                rows = dups /\ dups <> [])
  /\ (forall r, In r dups <->
        In r df /\ (1 < key_count (r_id r) (r_date r) df)%nat).
Proof.
  intros Hb HB Hne df dups. split.
  - intros rows. rewrite cli_log by assumption. simpl app.
    rewrite !in_app_iff. fold df.
    assert (H1 : ~ In (ErrorDuplicateRows rows)
                   (invalid_log (Dict.keys (response_map_of cfg))
                      (concatenated data_frames))).
    { unfold invalid_log. destruct (forallb _ _); simpl; intuition discriminate. }
    assert (H3 : ~ In (ErrorDuplicateRows rows)
                   (if has_dup id_eqb (map fst date_map) then []
                    else missing_log (join_rows (normalized cfg data_frames)
                                        date_map))).
    { destruct (has_dup id_eqb (map fst date_map)); [tauto|].
      unfold missing_log. destruct (missing_starts _); simpl;
        intuition discriminate. }
    unfold duplicates_log. fold dups.
    destruct (existsb (duplicated df) df) eqn:E.
    + assert (Hne' : dups <> []).
      { apply existsb_exists in E as (x & Hx & Hd).
        assert (Hin : In x dups) by (apply filter_In; auto).
        intros Hnil. now rewrite Hnil in Hin. }
      split.
      * intros [Hin|[[[= <-]|[]]|Hin]]; [contradiction | auto | contradiction].
      * intros [-> _]. right. left. now left.
    + assert (Hnil : dups = []).
      { apply length_zero_iff_nil, length_filter_zero.
        now apply existsb_false_In. }
      split.
      * intros [Hin|[[]|Hin]]; contradiction.
      * intros [_ H]. contradiction.
  - intros r. unfold dups. rewrite filter_In. unfold duplicated, key_count.
    rewrite Nat.ltb_lt.
    rewrite (filter_ext _ _ (same_key_ext r (mkRow (r_id r) (r_date r) "" "")
                               eq_refl eq_refl)).
    reflexivity.
Qed.

End NormalizerFacts.

(** ** The cells of the table *)

Section CellValueFacts.

Context {Id : Type} {HId : SubjectId Id}.

Lemma id_eqb_sym (a b : Id) : id_eqb a b = id_eqb b a.
Proof.
  destruct (id_eqb a b) eqn:E.
  - apply id_eqb_eq in E. subst. now rewrite id_eqb_refl.
  - symmetry. apply id_eqb_neq. apply id_eqb_neq in E. congruence.
Qed.

Lemma same_cell_sym (a b : Aligned Id) : same_cell a b = same_cell b a.
Proof. unfold same_cell. now rewrite id_eqb_sym, String.eqb_sym. Qed.

Lemma has_dup_unique {A} (e : A -> A -> bool) (l : list A) (x y : A) :
  (forall a b, e a b = e b a) ->
  has_dup e l = false -> In x l -> In y l -> e x y = true -> x = y.
Proof.
  intros Hsym. induction l as [|z l IH]; simpl; [easy|].
  intros H Hx Hy E. apply orb_false_iff in H as [Hz Hl].
  pose proof (proj1 (existsb_false_In _ _) Hz) as Hz'.
  destruct Hx as [<-|Hx], Hy as [<-|Hy]; auto.
  - rewrite (Hz' y Hy) in E. discriminate.
  - rewrite Hsym, (Hz' x Hx) in E. discriminate.
Qed.

Lemma pivot_cell_found (df : list (Aligned Id)) (a : Aligned Id) :
  has_dup same_cell df = false -> In a df ->
  pivot_cell df (a_id a) (a_pivot a) = Some (a_response a).
Proof.
  intros Hdup Ha. unfold pivot_cell.
  destruct (find _ df) as [a'|] eqn:E.
  - apply find_some in E as [Ha' Hp]. simpl. f_equal. f_equal.
    apply (has_dup_unique same_cell df a' a same_cell_sym Hdup Ha' Ha).
    exact Hp.
  - exfalso. apply (find_none _ _ E) in Ha.
    now rewrite id_eqb_refl, String.eqb_refl in Ha.
Qed.

Lemma pivot_cell_empty (df : list (Aligned Id)) (i : Id) (c : string) :
  (forall a, In a df -> a_id a = i -> a_pivot a <> c) ->
  pivot_cell df i c = None.
Proof.
  intros Hnone. unfold pivot_cell.
  destruct (find _ df) as [a'|] eqn:E; [exfalso | reflexivity].
  apply find_some in E as [Ha' Hp]. apply andb_true_iff in Hp as [Hi Hc].
  apply id_eqb_eq in Hi. apply String.eqb_eq in Hc. exact (Hnone a' Ha' Hi Hc).
Qed.

(** X8.  A day cell of a row holds the response of the subject's surviving
    record with the label of the column, and is empty when the subject has
    no record with that label; every day column is the label of some
    surviving record, and no label heads two columns. *)
Theorem X8_day_cells (cfg : Config) (date_map : Series Id Timestamp)
  (data_frames : list (list (RawRow Id))) log log' (t : Table Id)
  (row : ResultRow Id) (k : nat) (label : string) :
  cli cfg date_map data_frames log = (log', Ok t) ->
  In row (table_rows t) ->
  nth_error (day_columns t) k = Some label ->
  let df := survivors cfg date_map data_frames in
  (forall a, In a df -> a_id a = row_id row -> a_pivot a = label ->
     nth_error (row_days row) k = Some (Some (a_response a)))
  /\ ((forall a, In a df -> a_id a = row_id row -> a_pivot a <> label) ->
      nth_error (row_days row) k = Some None)
  /\ (exists a, In a df /\ a_pivot a = label)
  /\ NoDup (day_columns t).
Proof.
  intros Hrun Hrow Hk df.
  apply cli_ok_inv in Hrun as (_ & _ & _ & _ & Hdup & ->). fold df in Hdup, Hrow, Hk.
  rewrite result_table_rows in Hrow. apply in_map_iff in Hrow as (i & <- & Hi).
  simpl in *.
  assert (Hcell : nth_error (map (pivot_cell df i)
                               (sort_uniq String.compare (map a_pivot df))) k
                  = Some (pivot_cell df i label))
    by now apply map_nth_error.
  split; [|split; [|split]].
  - intros a Ha <- <-. rewrite Hcell. f_equal. now apply pivot_cell_found.
  - intros Hnone. rewrite Hcell. f_equal. now apply pivot_cell_empty.
  - apply nth_error_In, codes_In, in_map_iff in Hk as (a & Ha & Hin). eauto.
  - apply codes_NoDup.
Qed.

Lemma totals_sum_add (f g : string -> Z) (l : list string) :
  totals_sum (map (fun c => Some (f c + g c)) l)
  = totals_sum (map (fun c => Some (f c)) l)
    + totals_sum (map (fun c => Some (g c)) l).
Proof. induction l as [|c l IH]; simpl; [reflexivity | rewrite IH; ring]. Qed.

Lemma totals_sum_indicator (x : string) (l : list string) :
  NoDup l -> In x l ->
  totals_sum (map (fun c => Some (if String.eqb x c then 1 else 0)) l) = 1.
Proof.
  induction l as [|c l IH]; simpl; [easy|].
  intros Hnd Hin. inversion_clear Hnd as [|? ? Hc Hl].
  destruct (String.eqb x c) eqn:E.
  - apply String.eqb_eq in E. subst c.
    assert (Hzero : totals_sum
                      (map (fun c => Some (if String.eqb x c then 1 else 0)) l) = 0).
    { clear IH Hl Hin. induction l as [|d l IH]; simpl; [reflexivity|].
      destruct (String.eqb x d) eqn:Ed.
      - apply String.eqb_eq in Ed. subst. exfalso. apply Hc. now left.
      - rewrite IH; [reflexivity|]. intros H. apply Hc. now right. }
    rewrite Hzero. reflexivity.
  - destruct Hin as [->|Hin]; [now rewrite String.eqb_refl in E|].
    rewrite IH by assumption. reflexivity.
Qed.

Lemma totals_sum_counts (codes : list string) (g : list (Aligned Id)) :
  NoDup codes -> (forall a, In a g -> In (a_response a) codes) ->
  totals_sum (map (fun c => Some (count_code c g)) codes)
  = Z.of_nat (List.length g).
Proof.
  intros Hnd. induction g as [|a g IH]; intros Hcov.
  - induction codes as [|c codes IHc]; simpl; [reflexivity|].
    inversion_clear Hnd. now rewrite IHc.
  - rewrite (map_ext _ (fun c => Some ((if String.eqb (a_response a) c
                                        then 1 else 0)
                                       + count_code c g))).
    + rewrite totals_sum_add, totals_sum_indicator, IH; auto.
      * simpl List.length. lia.
      * intros b Hb. apply Hcov. now right.
      * apply Hcov. now left.
    + intros c. unfold count_code. simpl.
      destruct (String.eqb (a_response a) c); simpl List.length; f_equal; lia.
Qed.

Lemma has_dup_NoDup_map {A B} (e : A -> A -> bool) (f : A -> B) (l : list A) :
  (forall x y, In x l -> In y l -> f x = f y -> e x y = true) ->
  has_dup e l = false -> NoDup (map f l).
Proof.
  induction l as [|x l IH]; simpl; intros He H; [constructor|].
  apply orb_false_iff in H as [Hx Hl]. constructor.
  - intros Hin. apply in_map_iff in Hin as (y & Hfy & Hy).
    assert (E : e x y = true) by (apply He; auto).
    rewrite (proj1 (existsb_false_In _ _) Hx y Hy) in E. discriminate.
  - apply IH; [|exact Hl]. intros y z Hy Hz. apply He; now right.
Qed.

Lemma filled_cells_count (df : list (Aligned Id)) (i : Id) :
  has_dup same_cell df = false ->
  filled_cells (map (pivot_cell df i) (sort_uniq String.compare (map a_pivot df)))
  = List.length (subject_rows i df).
Proof.
  intros Hdup. unfold filled_cells.
  set (cols := sort_uniq String.compare (map a_pivot df)).
  set (g := subject_rows i df).
  assert (Hfill : forall c, negb (is_none (pivot_cell df i c)) = true <->
                            In c (map a_pivot g)).
  { intros c. rewrite in_map_iff. split.
    - intros H. unfold pivot_cell in H.
      destruct (find _ df) as [a|] eqn:E; [|discriminate].
      apply find_some in E as [Ha Hp]. apply andb_true_iff in Hp as [Hi Hc].
      apply id_eqb_eq in Hi. apply String.eqb_eq in Hc.
      exists a. split; [exact Hc|]. now apply subject_rows_In.
    - intros (a & <- & Ha). apply subject_rows_In in Ha as [Ha <-].
      now rewrite pivot_cell_found. }
  rewrite <- (length_map (fun o => o)), map_id.
  transitivity (List.length (filter (fun c => negb (is_none (pivot_cell df i c))) cols)).
  { clear Hfill. induction cols as [|c cols IH]; simpl; [reflexivity|].
    destruct (is_none (pivot_cell df i c)); simpl; now rewrite IH. }
  rewrite <- (length_map a_pivot g).
  apply Permutation_length, NoDup_Permutation.
  - apply NoDup_filter, codes_NoDup.
  - apply has_dup_NoDup_map with (e := same_cell).
    + intros x y Hx Hy E. apply subject_rows_In in Hx as [_ Hx].
      apply subject_rows_In in Hy as [_ Hy]. unfold same_cell.
      now rewrite Hx, Hy, id_eqb_refl, E, String.eqb_refl.
    + unfold g, subject_rows. now apply has_dup_filter.
  - intros c. rewrite filter_In, Hfill. unfold cols. rewrite codes_In.
    split; [tauto|]. intros H. split; [|exact H].
    apply in_map_iff in H as (a & <- & Ha). apply subject_rows_In in Ha as [Ha _].
    now apply in_map.
Qed.

(** X9.  In every row the tally cells add up to the number of surviving
    records of the subject, and so does the number of day cells that hold a
    response. *)
Theorem X9_totals_add_up (cfg : Config) (date_map : Series Id Timestamp)
  (data_frames : list (list (RawRow Id))) log log' (t : Table Id)
  (row : ResultRow Id) :
  cli cfg date_map data_frames log = (log', Ok t) ->
  In row (table_rows t) ->
  let records := subject_rows (row_id row)
                   (survivors cfg date_map data_frames) in
  totals_sum (row_totals row) = Z.of_nat (List.length records)
  /\ filled_cells (row_days row) = List.length records
  /\ (1 <= List.length records)%nat.
Proof.
  intros Hrun Hrow records.
  apply cli_ok_inv in Hrun as (_ & _ & _ & _ & Hdup & ->).
  set (df := survivors cfg date_map data_frames) in *.
  rewrite result_table_rows in Hrow. apply in_map_iff in Hrow as (i & <- & Hi).
  simpl in *. split; [|split].
  - rewrite join_tally_cells by exact Hi. apply totals_sum_counts.
    + apply codes_NoDup.
    + intros a Ha. apply subject_rows_In in Ha as [Ha _].
      unfold tally_codes. apply codes_In. now apply in_map.
  - now apply filled_cells_count.
  - apply group_ids_In in Hi as (a & Ha & Hid).
    assert (Hin : In a records) by now apply subject_rows_In.
    destruct records; [destruct Hin | simpl; lia].
Qed.

Lemma insert_uniq_map {A B} (cA : A -> A -> comparison)
  (cB : B -> B -> comparison) (f : A -> B) (x : A) (l : list A) :
  (forall y, In y l -> cB (f x) (f y) = cA x y) ->
  insert_uniq cB (f x) (map f l) = map f (insert_uniq cA x l).
Proof.
  induction l as [|y l IH]; simpl; intros H; [reflexivity|].
  rewrite (H y) by now left.
  destruct (cA x y); simpl; try reflexivity.
  f_equal. apply IH. intros z Hz. apply H. now right.
Qed.

Lemma sort_uniq_map (m : Z) (l : list Z) :
  (forall d, In d l -> 1 <= d <= m) ->
  sort_uniq String.compare (map (day_label m) l)
  = map (day_label m) (sort_uniq Z.compare l).
Proof.
  induction l as [|x l IH]; simpl; intros H; [reflexivity|].
  rewrite IH by (intros d Hd; apply H; now right).
  apply insert_uniq_map. intros y Hy.
  pose proof (proj1 (sort_uniq_In (Id := Z) y l) Hy) as Hy'.
  apply PyStrFacts.day_label_compare; apply H; [now left | now right].
Qed.

(** X10.  The day columns of the table are the labels of the day numbers
    that occur among the surviving records, each once, in ascending order
    of the day number. *)
Theorem X10_day_columns_ascending (cfg : Config)
  (date_map : Series Id Timestamp) (data_frames : list (list (RawRow Id)))
  log log' (t : Table Id) :
  cli cfg date_map data_frames log = (log', Ok t) ->
  exists days,
    day_columns t = map (day_label (cfg_max_days cfg)) days
    /\ Sorted Z.lt days
    /\ forall d, In d days <->
         exists a, In a (survivors cfg date_map data_frames) /\ a_days a = d.
Proof.
  intros Hrun. apply cli_ok_inv in Hrun as (_ & _ & _ & _ & _ & ->).
  set (df := survivors cfg date_map data_frames).
  exists (sort_uniq Z.compare (map a_days df)). split; [|split].
  - unfold result_table, pivot_table. simpl.
    rewrite <- sort_uniq_map.
    + f_equal. rewrite map_map. apply map_ext_in. intros a Ha.
      now apply survivors_inv in Ha as (_ & _ & _ & _ & _ & _ & _ & Hp & _).
    + intros d Hd. apply in_map_iff in Hd as (a & <- & Ha).
      apply survivors_inv in Ha as (_ & _ & _ & _ & _ & _ & Hn & _ & Hw). lia.
  - exact (sort_uniq_Sorted (Id := Z) (map a_days df)).
  - intros d. split.
    + intros Hd.
      pose proof (proj1 (sort_uniq_In (Id := Z) d (map a_days df)) Hd) as Hin.
      apply in_map_iff in Hin as (a & H1 & H2). exists a. auto.
    + intros (a & Ha & <-).
      assert (Hin : In (a_days a) (map a_days df)) by now apply in_map.
      exact (proj2 (sort_uniq_In (Id := Z) (a_days a) (map a_days df)) Hin).
Qed.

End CellValueFacts.

(* ================================================================== *)
(** * Finding and reading the data files *)

Section FindFacts.

Context {Id : Type}.

Variable fnmatch : string -> string -> bool.
Variable C : Type.
Variable directory filemask : string.

Lemma matching_files_In (subdir_path : string) (children : list (Entry C))
  (p : string) (c : C) :
  In (p, c) (matching_files fnmatch subdir_path filemask children) <->
  exists name, In (File name c) children /\ fnmatch name filemask = true
               /\ p = path_join subdir_path name.
Proof.
  unfold matching_files. rewrite in_flat_map. split.
  - intros (e & He & Hin). destruct e as [name content| |]; try destruct Hin.
    destruct (fnmatch name filemask) eqn:E; [|destruct Hin].
    destruct Hin as [[= <- <-]|[]]. exists name. auto.
  - intros (name & Hin & Hm & ->). exists (File name c). split; [exact Hin|].
    rewrite Hm. now left.
Qed.

Lemma matching_files_nil (subdir_path : string) (children : list (Entry C)) :
  matching_files fnmatch subdir_path filemask children = [] <->
  forall name c, In (File name c) children -> fnmatch name filemask = false.
Proof.
  split.
  - intros Hnil name c Hin. destruct (fnmatch name filemask) eqn:E; [|reflexivity].
    assert (H : In (path_join subdir_path name, c)
                  (matching_files fnmatch subdir_path filemask children)).
    { apply matching_files_In. exists name. auto. }
    rewrite Hnil in H. destruct H.
  - intros Hnone.
    destruct (matching_files fnmatch subdir_path filemask children)
      as [|[p c] l] eqn:E; [reflexivity|].
    assert (H : In (p, c) (matching_files fnmatch subdir_path filemask children))
      by (rewrite E; now left).
    apply matching_files_In in H as (name & Hin & Hm & _).
    rewrite (Hnone name c Hin) in Hm. discriminate.
Qed.

(** [find_files] returns, and what it returns and logs. *)
Lemma find_files_spec (listing : list (Entry C)) :
  forall log : list (ReadLogEntry Id),
  exists subdirs out,
    find_files fnmatch directory listing filemask log
    = (log ++ map (@WarnNoMatchingFile Id) subdirs, Ok out)
    /\ (forall p c, In (p, c) out <->
          exists d children, In (Dir d children) listing
            /\ In (p, c) (matching_files fnmatch (path_join directory d)
                            filemask children))
    /\ (forall d, In d subdirs <->
          exists children, In (Dir d children) listing
            /\ matching_files fnmatch (path_join directory d) filemask children
               = []).
Proof.
  induction listing as [|e listing IH]; intros log.
  - exists [], []. simpl. rewrite app_nil_r. split; [reflexivity|].
    split.
    + intros p c. split; [intros [] | intros (d & ch & [] & _)].
    + intros d. split; [intros [] | intros (ch & [] & _)].
  - destruct e as [name content|name children|name content].
    + destruct (IH log) as (subdirs & out & Hrun & Hout & Hsub).
      exists subdirs, out. simpl. split; [exact Hrun|]. split.
      * intros p c. rewrite Hout. split; intros (d & ch & Hin & H).
        -- exists d, ch. split; [now right | exact H].
        -- destruct Hin as [Hin|Hin]; [discriminate|]. exists d, ch. auto.
      * intros d. rewrite Hsub. split; intros (ch & Hin & H).
        -- exists ch. split; [now right | exact H].
        -- destruct Hin as [Hin|Hin]; [discriminate|]. exists ch. auto.
    + simpl.
      destruct (matching_files fnmatch (path_join directory name)
                  filemask children) as [|x found'] eqn:Efound.
      * destruct (IH (log ++ [WarnNoMatchingFile name]))
          as (subdirs & out & Hrun & Hout & Hsub).
        exists (name :: subdirs), out. split.
        { unfold bind, emit. rewrite Hrun. simpl.
          now rewrite <- app_assoc. }
        split.
        -- intros p c. rewrite Hout. split; intros (d & ch & Hin & Hm).
           ++ exists d, ch. split; [now right | exact Hm].
           ++ destruct Hin as [Heq|Hin].
              ** injection Heq as <- <-. rewrite Efound in Hm. destruct Hm.
              ** exists d, ch. auto.
        -- intros d. simpl. rewrite Hsub. split.
           ++ intros [<-|(ch & Hin & Hnil)].
              ** exists children. split; [now left | exact Efound].
              ** exists ch. split; [now right | exact Hnil].
           ++ intros (ch & Hin & Hnil). destruct Hin as [Heq|Hin].
              ** injection Heq as Hd _. now left.
              ** right. exists ch. auto.
      * destruct (IH log) as (subdirs & out & Hrun & Hout & Hsub).
        exists subdirs, ((x :: found') ++ out). split.
        { unfold bind, ret. rewrite Hrun. reflexivity. }
        split.
        -- intros p c. rewrite in_app_iff, Hout. split.
           ++ intros [Hm|(d & ch & Hin & Hm)].
              ** exists name, children. split; [now left|]. now rewrite Efound.
              ** exists d, ch. split; [now right | exact Hm].
           ++ intros (d & ch & Hin & Hm). destruct Hin as [Heq|Hin].
              ** injection Heq as <- <-. left. now rewrite Efound in Hm.
              ** right. exists d, ch. auto.
        -- intros d. rewrite Hsub. split; intros (ch & Hin & Hnil).
           ++ exists ch. split; [now right | exact Hnil].
           ++ destruct Hin as [Heq|Hin].
              ** injection Heq as <- <-. rewrite Efound in Hnil. discriminate.
              ** exists ch. auto.
    + destruct (IH log) as (subdirs & out & Hrun & Hout & Hsub).
      exists subdirs, out. simpl. split; [exact Hrun|]. split.
      * intros p c. rewrite Hout. split; intros (d & ch & Hin & H).
        -- exists d, ch. split; [now right | exact H].
        -- destruct Hin as [Hin|Hin]; [discriminate|]. exists d, ch. auto.
      * intros d. rewrite Hsub. split; intros (ch & Hin & H).
        -- exists ch. split; [now right | exact H].
        -- destruct Hin as [Hin|Hin]; [discriminate|]. exists ch. auto.
Qed.

(** What [find_files] returns, entry by entry of the listing. *)
Lemma find_files_result (listing : list (Entry C)) :
  forall log : list (ReadLogEntry Id),
    snd (find_files fnmatch directory listing filemask log)
    = Ok (flat_map (fun e => match e with
                             | Dir d children =>
                                 matching_files fnmatch (path_join directory d)
                                   filemask children
                             | _ => []
                             end) listing).
Proof.
  induction listing as [|e listing IH]; intros log; [reflexivity|].
  destruct e as [name content|name children|name content];
    cbn [find_files flat_map]; [apply IH| |apply IH].
  destruct (matching_files fnmatch (path_join directory name) filemask children)
    as [|x found'] eqn:Efound; unfold bind, emit, ret.
  - specialize (IH (log ++ [WarnNoMatchingFile name])).
    destruct (find_files fnmatch directory listing filemask
                (log ++ [WarnNoMatchingFile name])) as [log' r].
    simpl in IH. subst r. reflexivity.
  - specialize (IH log).
    destruct (find_files fnmatch directory listing filemask log) as [log' r].
    simpl in IH. subst r. reflexivity.
Qed.

(** X11.  On the listings of the given directory and of the directories
    directly below it, [find_files] returns the paths of the regular files
    that match the mask and lie in a directory directly below the given
    one, each once for its entry, directory after directory and file after
    file in the order of the listings: no file of the given directory
    itself, no file further down, no directory. *)
Theorem X11_find_files_one_level (listing : list (Entry C))
  (log : list (ReadLogEntry Id)) :
  let out :=
    flat_map
      (fun subdir =>
         match subdir with
         | Dir d children =>
             flat_map
               (fun filename =>
                  match filename with
                  | File name c =>
                      if fnmatch name filemask
                      then [(path_join (path_join directory d) name, c)]
                      else []
                  | _ => []
                  end) children
         | _ => []
         end) listing in
  snd (find_files fnmatch directory listing filemask log) = Ok out
  /\ forall p c, In (p, c) out <->
       exists d children name,
         In (Dir d children) listing /\ In (File name c) children
         /\ fnmatch name filemask = true
         /\ p = path_join (path_join directory d) name.
Proof.
  intros out. split; [apply find_files_result|].
  intros p c. unfold out. rewrite in_flat_map. split.
  - intros (e & He & Hin). destruct e as [n0 c0|d children|n0 c0];
      [destruct Hin| |destruct Hin].
    apply (matching_files_In (path_join directory d) children) in Hin
      as (name & H1 & H2 & H3).
    exists d, children, name. auto.
  - intros (d & children & name & Hin & H1 & H2 & H3).
    exists (Dir d children). split; [exact Hin|].
    apply (matching_files_In (path_join directory d) children).
    exists name. auto.
Qed.

(** X12.  [find_files] logs a warning for a directory directly below the
    given one exactly when none of its regular files matches the mask, and
    it logs nothing else. *)
Theorem X12_find_files_warnings (listing : list (Entry C))
  (e : ReadLogEntry Id) :
  In e (fst (find_files fnmatch directory listing filemask [])) <->
  exists d children,
    e = WarnNoMatchingFile d /\ In (Dir d children) listing
    /\ forall name c, In (File name c) children -> fnmatch name filemask = false.
Proof.
  destruct (find_files_spec listing []) as (subdirs & out & Hrun & _ & Hsub).
  rewrite Hrun. simpl. rewrite in_map_iff. split.
  - intros (d & <- & Hd). apply Hsub in Hd as (ch & Hin & Hnil).
    exists d, ch. repeat split; auto.
    exact (proj1 (matching_files_nil _ _) Hnil).
  - intros (d & ch & -> & Hin & Hnone). exists d. split; [reflexivity|].
    apply Hsub. exists ch. split; [exact Hin|].
    exact (proj2 (matching_files_nil _ _) Hnone).
Qed.

End FindFacts.

Section ReadFacts.

Context {Id : Type} {HId : SubjectId Id}.

Lemma date_range_In (first last d : Timestamp) :
  In d (date_range first last) <->
  exists k, 0 <= k /\ d = first + k * ns_per_day /\ d <= last.
Proof.
  unfold date_range. pose proof ns_per_day_pos as Hp.
  destruct (last <? first) eqn:E.
  - apply Z.ltb_lt in E. split; [intros [] | intros (k & Hk & -> & Hle); nia].
  - apply Z.ltb_ge in E. rewrite in_map_iff. split.
    + intros (n & <- & Hn). apply in_seq in Hn. exists (Z.of_nat n).
      split; [lia|]. split; [reflexivity|].
      assert (Hq : Z.of_nat n <= (last - first) / ns_per_day).
      { assert (0 <= (last - first) / ns_per_day) by (apply Z.div_pos; lia). lia. }
      pose proof (Z.mul_div_le (last - first) ns_per_day Hp). nia.
    + intros (k & Hk & -> & Hle). exists (Z.to_nat k). split; [f_equal; lia|].
      apply in_seq. split; [lia|].
      assert (Hq : k <= (last - first) / ns_per_day).
      { apply Z.div_le_lower_bound; lia. }
      lia.
Qed.

Lemma missing_dates_In (dates : list Timestamp) (first last d : Timestamp) :
  In d (missing_dates dates first last) <->
  In d (date_range first last) /\ ~ In d dates.
Proof.
  unfold missing_dates. split.
  - intros H.
    pose proof (proj1 (sort_uniq_In (Id := Z) d _) H) as Hin.
    apply filter_In in Hin as [Hin Hno]. split; [exact Hin|].
    intros Hd. apply negb_true_iff in Hno.
    rewrite (proj2 (existsb_exists _ _)) in Hno; [discriminate|].
    exists d. split; [exact Hd | apply Z.eqb_refl].
  - intros [Hin Hno].
    refine (proj2 (sort_uniq_In (Id := Z) d _) _).
    apply filter_In. split; [exact Hin|]. apply negb_true_iff.
    destruct (existsb (Z.eqb d) dates) eqn:E; [|reflexivity].
    apply existsb_exists in E as (x & Hx & Ex). apply Z.eqb_eq in Ex. now subst.
Qed.

Lemma missing_dates_Sorted (dates : list Timestamp) (first last : Timestamp) :
  Sorted Z.lt (missing_dates dates first last).
Proof. exact (sort_uniq_Sorted (Id := Z) _). Qed.

(** The run of [read_datafile] on a file that parsed and has a row. *)
Lemma read_datafile_ok (path : string) (data : list (DataRow Id)) log :
  data <> [] ->
  exists first last,
    list_min (map d_date data) = Some first
    /\ list_max (map d_date data) = Some last
    /\ read_datafile path (Ok data) log
       = (log
          ++ (if Nat.ltb 1 (List.length (sort_uniq id_compare (map d_id data)))
              then [WarnMultipleIds path (sort_uniq id_compare (map d_id data))]
              else [])
          ++ match missing_dates (map d_date data) first last with
             | [] => []
             | missing => [WarnMissingDates path missing]
             end,
          Ok data).
Proof.
  intros Hne. destruct data as [|r data]; [congruence|].
  exists (fold_left Z.min (map d_date data) (d_date r)),
         (fold_left Z.max (map d_date data) (d_date r)).
  split; [reflexivity|]. split; [reflexivity|].
  unfold read_datafile, bind. cbv zeta.
  change (list_min (map d_date (r :: data)))
    with (Some (fold_left Z.min (map d_date data) (d_date r))).
  change (list_max (map d_date (r :: data)))
    with (Some (fold_left Z.max (map d_date data) (d_date r))).
  cbv iota.
  match goal with
  | |- context [missing_dates ?a ?b ?c] => destruct (missing_dates a b c)
  end;
  match goal with
  | |- context [Nat.ltb 1 ?n] => destruct (Nat.ltb 1 n)
  end;
  unfold emit, ret; cbn [app]; rewrite <- ?app_assoc, ?app_nil_r; reflexivity.
Qed.

Lemma read_datafile_empty (path : string) log :
  read_datafile (Id := Id) path (Ok []) log
  = (log, Raise (ValueError "min() arg is an empty sequence")).
Proof. reflexivity. Qed.

Lemma read_datafile_raise (path : string) (e : Exn) log :
  read_datafile (Id := Id) path (Raise e) log = (log, Raise e).
Proof. reflexivity. Qed.

(** X13.  [read_datafile] accepts a file that parsed and has a row,
    whatever it warns about: it returns the rows as parsed.  It warns about
    missing dates exactly when some stamp of the daily range from the
    earliest to the latest date of the file is no date of the file, and the
    warning lists those stamps, each once, in ascending order. *)
Theorem X13_missing_dates_warning (path : string) (data : list (DataRow Id)) :
  data <> [] ->
  let dates := map d_date data in
  let run := read_datafile path (Ok data) [] in
  snd run = Ok data
  /\ exists first last,
       In first dates /\ In last dates
       /\ (forall d, In d dates -> first <= d <= last)
       /\ (forall p ds, In (WarnMissingDates p ds) (fst run) ->
             p = path /\ ds <> [] /\ Sorted Z.lt ds
             /\ forall d, In d ds <->
                  (exists k, 0 <= k /\ d = first + k * ns_per_day /\ d <= last)
                  /\ ~ In d dates)
       /\ ((exists k, 0 <= k /\ first + k * ns_per_day <= last
                      /\ ~ In (first + k * ns_per_day) dates) ->
           exists ds, In (WarnMissingDates path ds) (fst run)).
Proof.
  intros Hne dates run.
  destruct (read_datafile_ok path [] Hne)
    as (first & last & Hmin & Hmax & Hrun).
  fold dates in Hmin, Hmax, Hrun. unfold run. rewrite Hrun. simpl fst. simpl snd.
  split; [reflexivity|]. exists first, last.
  pose proof (list_min_spec dates) as Smin. rewrite Hmin in Smin.
  pose proof (list_max_spec dates) as Smax. rewrite Hmax in Smax.
  destruct Smin as [Hfirst Hlo], Smax as [Hlast Hhi].
  split; [exact Hfirst|]. split; [exact Hlast|].
  split; [intros d Hd; split; auto|].
  split.
  - intros p ds Hin. apply in_app_or in Hin as [Hin|Hin].
    { destruct (Nat.ltb 1 _); simpl in Hin; intuition discriminate. }
    destruct (missing_dates dates first last) as [|m ms] eqn:Em;
      [destruct Hin|].
    destruct Hin as [[= <- <-]|[]].
    split; [reflexivity|]. split; [discriminate|].
    split; [rewrite <- Em; apply missing_dates_Sorted|].
    intros d. rewrite <- Em, missing_dates_In, date_range_In. reflexivity.
  - intros (k & Hk & Hle & Hno).
    assert (Hin : In (first + k * ns_per_day) (missing_dates dates first last)).
    { apply missing_dates_In. split; [|exact Hno].
      apply date_range_In. exists k. auto. }
    destruct (missing_dates dates first last) as [|m ms]; [destruct Hin|].
    exists (m :: ms). apply in_or_app. right. now left.
Qed.

Lemma length_two_distinct (l : list Id) :
  NoDup l -> ((1 < List.length l)%nat <-> exists x y, In x l /\ In y l /\ x <> y).
Proof.
  intros Hnd. split.
  - destruct l as [|x [|y l]]; simpl; try lia. intros _.
    exists x, y. repeat split; [now left | right; now left|].
    inversion_clear Hnd as [|? ? Hx _]. intros ->. apply Hx. now left.
  - intros (x & y & Hx & Hy & Hne).
    destruct l as [|a [|b l]]; simpl; try lia.
    + destruct Hx.
    + destruct Hx as [<-|[]], Hy as [<-|[]]. congruence.
Qed.

(** X14.  [read_datafile] warns about multiple ids exactly when two rows
    of the file have different ids, and the warning lists the ids of the
    file. *)
Theorem X14_multiple_ids_warning (path : string) (data : list (DataRow Id)) :
  let log := fst (read_datafile path (Ok data) []) in
  ((exists ids, In (WarnMultipleIds path ids) log) <->
   exists r1 r2, In r1 data /\ In r2 data /\ d_id r1 <> d_id r2)
  /\ forall p ids, In (WarnMultipleIds p ids) log ->
       p = path /\ forall i, In i ids <-> exists r, In r data /\ d_id r = i.
Proof.
  intros log.
  set (ids := sort_uniq id_compare (map d_id data)).
  assert (Hids : forall i, In i ids <-> exists r, In r data /\ d_id r = i).
  { intros i. unfold ids. rewrite sort_uniq_In, in_map_iff.
    split; intros (r & H1 & H2); exists r; auto. }
  assert (Htwo : (1 < List.length ids)%nat <->
                 exists r1 r2, In r1 data /\ In r2 data /\ d_id r1 <> d_id r2).
  { etransitivity;
      [exact (length_two_distinct (sort_uniq_NoDup (map d_id data)))|].
    fold ids. split.
    - intros (x & y & Hx & Hy & Hne). apply Hids in Hx as (r1 & H1 & <-).
      apply Hids in Hy as (r2 & H2 & <-). exists r1, r2. auto.
    - intros (r1 & r2 & H1 & H2 & Hne). exists (d_id r1), (d_id r2).
      repeat split; auto; apply Hids; eauto. }
  assert (Hlog : forall p l, In (WarnMultipleIds p l) log <->
                   p = path /\ l = ids /\ (1 < List.length ids)%nat).
  { intros p l. unfold log.
    assert (Hcase : data = [] \/ data <> [])
      by (destruct data; [left | right]; congruence).
    destruct Hcase as [Hnil|Hne].
    - assert (Hlen : List.length ids = 0%nat) by (unfold ids; now rewrite Hnil).
      rewrite Hnil, read_datafile_empty. cbn [fst In]. split; [tauto|].
      intros (_ & _ & H). lia.
    - destruct (read_datafile_ok path [] Hne) as (first & last & _ & _ & Hrun).
      rewrite Hrun. cbn [fst app]. fold ids. rewrite in_app_iff.
      assert (Hmiss : ~ In (WarnMultipleIds p l)
                        match missing_dates (map d_date data) first last with
                        | [] => []
                        | missing => [WarnMissingDates path missing]
                        end).
      { destruct (missing_dates _ _ _); simpl; intuition discriminate. }
      destruct (Nat.ltb 1 (List.length ids)) eqn:E.
      + apply Nat.ltb_lt in E. split.
        * intros [[[= <- <-]|[]]|H]; [auto | contradiction].
        * intros (-> & -> & _). left. now left.
      + apply Nat.ltb_ge in E. split.
        * intros [[]|H]; contradiction.
        * intros (_ & _ & H). lia. }
  split.
  - rewrite <- Htwo. split.
    + intros (l & Hin). now apply Hlog in Hin.
    + intros H. exists ids. now apply Hlog.
  - intros p l Hin. apply Hlog in Hin as (-> & -> & _). auto.
Qed.

End ReadFacts.

Section ReadLoopFacts.

Context {Id : Type} {HId : SubjectId Id}.

Lemma with_source_In (p : string) (data : list (DataRow Id)) (raw : RawRow Id) :
  In raw (with_source p data) <->
  exists d, In d data /\ raw = mkRawRow (d_id d) (d_date d) (d_response d) p.
Proof.
  unfold with_source. rewrite in_map_iff.
  split; intros (d & H1 & H2); exists d; auto.
Qed.

(** The loop of lines 194-205 when every failure is one that it catches. *)
Lemma read_frames_spec (files : list (string * Result (list (DataRow Id)))) :
  (forall p e, In (p, Raise e) files -> caught e = true) ->
  forall log,
  exists entries frames,
    read_frames files log = (log ++ entries, Ok frames)
    /\ (forall raw, In raw (List.concat frames) <->
          exists p data d, In (p, Ok data) files /\ In d data
            /\ raw = mkRawRow (d_id d) (d_date d) (d_response d) p)
    /\ (forall p e, In (ErrorInFile p e) entries <->
          In (p, Raise e) files
          \/ (In (p, Ok []) files
              /\ e = ValueError "min() arg is an empty sequence"))
    /\ (frames = [] <-> forall p data, In (p, Ok data) files -> data = []).
Proof.
  induction files as [|[path csv] files IH]; intros Hcaught log.
  - exists [], []. simpl. rewrite app_nil_r. split; [reflexivity|].
    split; [|split].
    + intros raw. split; [intros [] | intros (p & data & d & [] & _)].
    + intros p e. split; [intros [] | intros [[]|[[] _]]].
    + split; [intros _ p data [] | reflexivity].
  - assert (Hcaught' : forall p e, In (p, Raise e) files -> caught e = true)
      by (intros p e H; apply (Hcaught p e); now right).
    destruct csv as [data|e0].
    + destruct data as [|r data].
      * destruct (IH Hcaught'
                    (log ++ [ErrorInFile path
                               (ValueError "min() arg is an empty sequence")]))
          as (entries & frames & Hrun & Hrows & Herr & Hnil).
        exists (ErrorInFile path (ValueError "min() arg is an empty sequence")
                :: entries), frames.
        split.
        { cbn [read_frames]. rewrite read_datafile_empty. cbn [caught].
          unfold bind, emit. rewrite Hrun. now rewrite <- app_assoc. }
        split; [|split].
        -- intros raw. rewrite Hrows. split; intros (p & dt & d & Hin & Hd & Hraw).
           ++ exists p, dt, d. split; [now right | auto].
           ++ destruct Hin as [[= <- <-]|Hin]; [destruct Hd|].
              exists p, dt, d. auto.
        -- intros p e. simpl. rewrite Herr. split.
           ++ intros [[= <- <-]|[H|[H He]]].
              ** right. split; [now left | reflexivity].
              ** left. now right.
              ** right. split; [now right | exact He].
           ++ intros [[H|H]|[[H|H] He]]; try discriminate.
              ** right. now left.
              ** injection H as <-. left. now rewrite He.
              ** right. right. auto.
        -- rewrite Hnil. split.
           ++ intros H p dt [[= <- <-]|Hin]; [reflexivity | eauto].
           ++ intros H p dt Hin. apply (H p). now right.
      * destruct (read_datafile_ok path (data := r :: data) log
                    ltac:(discriminate)) as (first & last & _ & _ & Hread).
        match type of Hread with
        | _ = (log ++ ?w, _) => set (warns := w) in *
        end.
        assert (Hwarns : forall p e, ~ In (ErrorInFile p e) warns).
        { intros p e Hin. unfold warns in Hin.
          apply in_app_or in Hin as [Hin|Hin].
          - destruct (Nat.ltb 1 _); simpl in Hin; intuition discriminate.
          - destruct (missing_dates _ _ _); simpl in Hin; intuition discriminate. }
        destruct (IH Hcaught' (log ++ warns))
          as (entries & frames & Hrun & Hrows & Herr & Hnil).
        exists (warns ++ entries), (with_source path (r :: data) :: frames).
        split.
        { cbn [read_frames]. rewrite Hread. unfold bind, ret. rewrite Hrun.
          now rewrite <- app_assoc. }
        split; [|split].
        -- intros raw. cbn [List.concat]. rewrite in_app_iff, with_source_In, Hrows.
           split.
           ++ intros [(d & Hd & Hraw)|(p & dt & d & Hin & Hd & Hraw)].
              ** exists path, (r :: data), d. split; [now left | auto].
              ** exists p, dt, d. split; [now right | auto].
           ++ intros (p & dt & d & Hin & Hd & Hraw).
              destruct Hin as [[= <- <-]|Hin].
              ** left. exists d. auto.
              ** right. exists p, dt, d. auto.
        -- intros p e. rewrite in_app_iff, Herr. split.
           ++ intros [H|[H|[H He]]].
              ** now apply Hwarns in H.
              ** left. now right.
              ** right. split; [now right | exact He].
           ++ intros [[H|H]|[[H|H] He]]; try discriminate.
              ** right. now left.
              ** right. right. auto.
        -- split; [discriminate|]. intros H.
           specialize (H path (r :: data) ltac:(now left)). discriminate.
    + assert (Hc : caught e0 = true) by (apply (Hcaught path); now left).
      destruct (IH Hcaught' (log ++ [ErrorInFile path e0]))
        as (entries & frames & Hrun & Hrows & Herr & Hnil).
      exists (ErrorInFile path e0 :: entries), frames.
      split.
      { cbn [read_frames]. rewrite read_datafile_raise, Hc.
        unfold bind, emit. rewrite Hrun. now rewrite <- app_assoc. }
      split; [|split].
      * intros raw. rewrite Hrows. split; intros (p & dt & d & Hin & Hd & Hraw).
        -- exists p, dt, d. split; [now right | auto].
        -- destruct Hin as [Hin|Hin]; [discriminate|]. exists p, dt, d. auto.
      * intros p e. simpl. rewrite Herr. split.
        -- intros [[= <- <-]|[H|[H He]]].
           ++ left. now left.
           ++ left. now right.
           ++ right. split; [now right | exact He].
        -- intros [[H|H]|[[H|H] He]]; try discriminate.
           ++ injection H as <- <-. now left.
           ++ right. now left.
           ++ right. right. auto.
      * rewrite Hnil. split.
        -- intros H p dt [Hin|Hin]; [discriminate | eauto].
        -- intros H p dt Hin. apply (H p). now right.
Qed.

(** The frames and the errors of the loop, file by file. *)
Lemma read_frames_exact (files : list (string * Result (list (DataRow Id)))) :
  (forall p e, In (p, Raise e) files -> caught e = true) ->
  forall log,
  exists entries,
    read_frames files log
    = (log ++ entries,
       Ok (flat_map (fun f => match snd f with
                              | Ok (r :: data) => [with_source (fst f) (r :: data)]
                              | _ => []
                              end) files))
    /\ filter (@is_error_entry Id) entries
       = flat_map (fun f => match snd f with
                            | Raise e => [ErrorInFile (fst f) e]
                            | Ok [] =>
                                [ErrorInFile (fst f)
                                   (ValueError "min() arg is an empty sequence")]
                            | Ok (_ :: _) => []
                            end) files.
Proof.
  induction files as [|[path csv] files IH]; intros Hcaught log.
  - exists []. simpl. now rewrite app_nil_r.
  - assert (Hcaught' : forall p e, In (p, Raise e) files -> caught e = true)
      by (intros p e H; apply (Hcaught p e); now right).
    specialize (IH Hcaught').
    destruct csv as [[|r data]|e0]; cbn [flat_map fst snd].
    + destruct (IH (log ++ [ErrorInFile path
                              (ValueError "min() arg is an empty sequence")]))
        as (entries & Hrun & Herr).
      exists (ErrorInFile path (ValueError "min() arg is an empty sequence")
              :: entries).
      split.
      * cbn [read_frames]. rewrite read_datafile_empty. cbn [caught].
        unfold bind, emit. rewrite Hrun. now rewrite <- app_assoc.
      * cbn [filter is_error_entry app]. now rewrite Herr.
    + destruct (read_datafile_ok path (data := r :: data) log
                  ltac:(discriminate)) as (first & last & _ & _ & Hread).
      match type of Hread with
      | _ = (log ++ ?w, _) => set (warns := w) in *
      end.
      assert (Hwarns : filter (@is_error_entry Id) warns = []).
      { unfold warns. rewrite filter_app.
        destruct (Nat.ltb 1 _); destruct (missing_dates _ _ _); reflexivity. }
      destruct (IH (log ++ warns)) as (entries & Hrun & Herr).
      exists (warns ++ entries). split.
      * cbn [read_frames]. rewrite Hread. unfold bind, ret. rewrite Hrun.
        now rewrite <- app_assoc.
      * rewrite filter_app, Hwarns. exact Herr.
    + assert (Hc : caught e0 = true) by (apply (Hcaught path); now left).
      destruct (IH (log ++ [ErrorInFile path e0])) as (entries & Hrun & Herr).
      exists (ErrorInFile path e0 :: entries). split.
      * cbn [read_frames]. rewrite read_datafile_raise, Hc.
        unfold bind, emit. rewrite Hrun. now rewrite <- app_assoc.
      * cbn [filter is_error_entry app]. now rewrite Herr.
Qed.

(** X15.  When no read fails with anything but a [ValueError] or a
    [KeyError], the reading loop ends normally.  It hands on one frame for
    each file that parsed with at least one row, in the order of the
    files: the rows of the file as parsed, in their order, each with the
    path of the file as source.  The errors it logs are, in the order of
    the files, one for each file whose read failed, with the exception of
    the read, and one for each file without rows, and none for another
    file. *)
Theorem X15_read_frames_skips_bad_files
  (files : list (string * Result (list (DataRow Id)))) :
  (forall p e, In (p, Raise e) files -> caught e = true) ->
  snd (read_frames files [])
  = Ok (flat_map
          (fun f =>
             match snd f with
             | Ok (r :: data) =>
                 [map (fun d => mkRawRow (d_id d) (d_date d) (d_response d) (fst f))
                    (r :: data)]
             | _ => []
             end) files)
  /\ filter (@is_error_entry Id) (fst (read_frames files []))
     = flat_map
         (fun f =>
            match snd f with
            | Raise e => [ErrorInFile (fst f) e]
            | Ok [] =>
                [ErrorInFile (fst f) (ValueError "min() arg is an empty sequence")]
            | Ok (_ :: _) => []
            end) files.
Proof.
  intros Hcaught.
  destruct (read_frames_exact files Hcaught []) as (entries & Hrun & Herr).
  rewrite Hrun. split; [reflexivity | exact Herr].
Qed.

(** X16.  A read that fails with anything but a [ValueError] or a
    [KeyError] is not caught: the loop ends with that exception, and the
    files after it are not read. *)
Theorem X16_read_frames_propagates
  (before after : list (string * Result (list (DataRow Id))))
  (path : string) (e : Exn) :
  (forall p e', In (p, Raise e') before -> caught e' = true) ->
  caught e = false ->
  snd (read_frames (before ++ (path, Raise e) :: after) []) = Raise e
  /\ forall p e', In (ErrorInFile p e')
                    (fst (read_frames (before ++ (path, Raise e) :: after) [])) ->
       In (p, Raise e') before
       \/ (In (p, Ok []) before
           /\ e' = ValueError "min() arg is an empty sequence").
Proof.
  intros Hcaught He.
  assert (Hgen : forall log,
            exists entries,
              read_frames (before ++ (path, Raise e) :: after) log
              = (log ++ entries, Raise e)
              /\ forall p e', In (ErrorInFile p e') entries ->
                   In (p, Raise e') before
                   \/ (In (p, Ok []) before
                       /\ e' = ValueError "min() arg is an empty sequence")).
  { induction before as [|[p0 csv] before IH]; intros log.
    - exists []. cbn [app read_frames]. rewrite read_datafile_raise, He, app_nil_r.
      split; [reflexivity | intros p e' []].
    - assert (Hcaught' : forall p e', In (p, Raise e') before -> caught e' = true)
        by (intros p e' H; apply (Hcaught p e'); now right).
      specialize (IH Hcaught').
      destruct csv as [data|e0].
      + destruct data as [|r data].
        * destruct (IH (log ++ [ErrorInFile p0
                                  (ValueError "min() arg is an empty sequence")]))
            as (entries & Hrun & Herr).
          exists (ErrorInFile p0 (ValueError "min() arg is an empty sequence")
                  :: entries).
          split.
          { cbn [app read_frames]. rewrite read_datafile_empty. cbn [caught].
            unfold bind, emit. rewrite Hrun. now rewrite <- app_assoc. }
          intros p e' [[= <- <-]|Hin].
          -- right. split; [now left | reflexivity].
          -- destruct (Herr p e' Hin) as [H|[H H']];
               [left; now right | right; split; [now right | exact H']].
        * destruct (read_datafile_ok p0 (data := r :: data) log
                      ltac:(discriminate)) as (first & last & _ & _ & Hread).
          match type of Hread with
          | _ = (log ++ ?w, _) => set (warns := w) in *
          end.
          destruct (IH (log ++ warns)) as (entries & Hrun & Herr).
          exists (warns ++ entries). split.
          { cbn [app read_frames]. rewrite Hread. unfold bind. rewrite Hrun.
            now rewrite <- app_assoc. }
          intros p e' Hin. apply in_app_or in Hin as [Hin|Hin].
          -- exfalso. unfold warns in Hin. apply in_app_or in Hin as [Hin|Hin].
             ++ destruct (Nat.ltb 1 _); simpl in Hin; intuition discriminate.
             ++ destruct (missing_dates _ _ _); simpl in Hin;
                  intuition discriminate.
          -- destruct (Herr p e' Hin) as [H|[H H']];
               [left; now right | right; split; [now right | exact H']].
      + assert (Hc : caught e0 = true) by (apply (Hcaught p0); now left).
        destruct (IH (log ++ [ErrorInFile p0 e0])) as (entries & Hrun & Herr).
        exists (ErrorInFile p0 e0 :: entries). split.
        { cbn [app read_frames]. rewrite read_datafile_raise, Hc. unfold bind, emit.
          rewrite Hrun. now rewrite <- app_assoc. }
        intros p e' [[= <- <-]|Hin].
        * left. now left.
        * destruct (Herr p e' Hin) as [H|[H H']];
            [left; now right | right; split; [now right | exact H']]. }
  destruct (Hgen []) as (entries & Hrun & Herr).
  rewrite Hrun. simpl. auto.
Qed.

End ReadLoopFacts.

Section DirectoryFacts.

Context {Id : Type} {HId : SubjectId Id}.

(** X17.  When the configuration passes the assertions and no data file can
    be used (the input directory has no matching file one level down, or
    every matching file fails to parse with a caught error or has no row),
    the run ends with the [ValueError] of [pd.concat] on no frame. *)
Theorem X17_no_usable_file (fnmatch : string -> string -> bool) (cfg : Config)
  (date_map : Series Id Timestamp) (inpath input_filemask : string)
  (listing : list (Entry (Result (list (DataRow Id))))) :
  Dict.mem "b" (Dict.keys (cfg_responses cfg)) = false ->
  Dict.mem "B" (Dict.values (cfg_responses cfg)) = false ->
  (forall d children name c,
     In (Dir d children) listing -> In (File name c) children ->
     fnmatch name input_filemask = true ->
     c = Ok [] \/ exists e, c = Raise e /\ caught e = true) ->
  snd (cli_directory fnmatch cfg date_map inpath listing input_filemask [])
  = Raise (ValueError "No objects to concatenate").
Proof.
  intros Hb HB Hfiles. unfold cli_directory.
  rewrite bind_ok with (a := tt) (log' := []) by (now rewrite Hb).
  rewrite bind_ok with (a := tt) (log' := []) by (now rewrite HB).
  destruct (find_files_spec (Id := Id) fnmatch inpath input_filemask listing [])
    as (subdirs & out & Hfind & Hout & _).
  erewrite bind_ok by (unfold lift_run; rewrite Hfind; reflexivity).
  assert (Hcontent : forall p c, In (p, c) out ->
            c = Ok [] \/ exists e, c = Raise e /\ caught e = true).
  { intros p c Hin. apply Hout in Hin as (d & ch & Hd & Hm).
    apply matching_files_In in Hm as (name & Hname & Hmatch & _).
    exact (Hfiles d ch name c Hd Hname Hmatch). }
  assert (Hcaught : forall p e, In (p, Raise e) out -> caught e = true).
  { intros p e Hin. destruct (Hcontent p _ Hin) as [H|(e' & H & Hc)];
      [discriminate | congruence]. }
  destruct (read_frames_spec out Hcaught [])
    as (entries & frames & Hread & _ & _ & Hnil).
  assert (Hframes : frames = []).
  { apply Hnil. intros p data Hin.
    destruct (Hcontent p _ Hin) as [H|(e' & H & _)]; congruence. }
  subst frames.
  erewrite bind_ok by (unfold lift_run; rewrite Hread; reflexivity).
  unfold lift_run. rewrite cli_no_frames by assumption. reflexivity.
Qed.

End DirectoryFacts.

(* ================================================================== *)
(** * [collate_csv.py] *)

Section SplitFacts.

Variable sep : ascii.

Lemma str_split_nonempty (s : string) : str_split sep s <> [].
Proof.
  induction s as [|c s IH]; simpl; [discriminate|].
  destruct (Ascii.eqb c sep); [discriminate|].
  destruct (str_split sep s); discriminate.
Qed.

Lemma str_join_split (s : string) :
  str_join (String sep "") (str_split sep s) = s.
Proof.
  induction s as [|c s IH]; simpl; [reflexivity|].
  pose proof (str_split_nonempty s) as Hne.
  destruct (Ascii.eqb c sep) eqn:E.
  - apply Ascii.eqb_eq in E. subst c.
    destruct (str_split sep s) as [|piece pieces]; [congruence|].
    simpl in *. now rewrite IH.
  - destruct (str_split sep s) as [|piece pieces]; [congruence|].
    destruct pieces as [|q pieces]; simpl in *; now rewrite <- IH.
Qed.

Lemma str_split_no_sep (s piece : string) :
  In piece (str_split sep s) -> contains_char sep piece = false.
Proof.
  revert piece. induction s as [|c s IH]; simpl; intros piece Hin.
  - destruct Hin as [<-|[]]. reflexivity.
  - destruct (Ascii.eqb c sep) eqn:E.
    + destruct Hin as [<-|Hin]; [reflexivity | auto].
    + pose proof (str_split_nonempty s) as Hne.
      destruct (str_split sep s) as [|p ps]; [congruence|].
      destruct Hin as [<-|Hin].
      * simpl. rewrite E. apply IH. now left.
      * apply IH. now right.
Qed.

Lemma str_split_piece (piece : string) :
  contains_char sep piece = false -> str_split sep piece = [piece].
Proof.
  induction piece as [|c piece IH]; simpl; [reflexivity|].
  intros H. apply orb_false_iff in H as [Hc Hp]. rewrite Hc, (IH Hp). reflexivity.
Qed.

Lemma str_split_app (piece rest : string) :
  contains_char sep piece = false ->
  str_split sep (piece ++ String sep rest) = piece :: str_split sep rest.
Proof.
  induction piece as [|c piece IH]; simpl.
  - intros _. now rewrite Ascii.eqb_refl.
  - intros H. apply orb_false_iff in H as [Hc Hp]. now rewrite Hc, (IH Hp).
Qed.

Lemma str_split_join (pieces : list string) :
  pieces <> [] ->
  (forall piece, In piece pieces -> contains_char sep piece = false) ->
  str_split sep (str_join (String sep "") pieces) = pieces.
Proof.
  induction pieces as [|p pieces IH]; [congruence|]. intros _ Hno.
  destruct pieces as [|q pieces].
  - simpl. apply str_split_piece. apply Hno. now left.
  - change (str_join (String sep "") (p :: q :: pieces))
      with (p ++ String sep "" ++ str_join (String sep "") (q :: pieces))%string.
    simpl String.append at 2.
    rewrite str_split_app by (apply Hno; now left).
    f_equal. apply IH; [discriminate|]. intros x Hx. apply Hno. now right.
Qed.

End SplitFacts.

(** X18.  Splitting the column list at the commas loses nothing: there is
    always at least one piece, no piece holds a comma, the pieces joined
    with commas give the string back (so blanks around a name stay in the
    name), and a list of comma-free names, joined and split, comes back. *)
Theorem X18_split_columns_round_trip (columnlist : string)
  (names : list string) :
  str_split "," columnlist <> []
  /\ str_join "," (str_split "," columnlist) = columnlist
  /\ (forall piece, In piece (str_split "," columnlist) ->
        contains_char "," piece = false)
  /\ (names <> [] ->
      (forall name, In name names -> contains_char "," name = false) ->
      str_split "," (str_join "," names) = names).
Proof.
  split; [apply str_split_nonempty|]. split; [apply str_join_split|].
  split; [apply str_split_no_sep | apply str_split_join].
Qed.

Section WalkFacts.

Variable C : Type.
Variable filemask : string.

Lemma str_endswith_spec (s suffix : string) :
  str_endswith s suffix = true <-> exists pre, s = (pre ++ suffix)%string.
Proof.
  induction s as [|c s IH]; cbn [str_endswith].
  - rewrite orb_false_r, String.eqb_eq. split.
    + intros <-. now exists ""%string.
    + intros ([|c pre] & H); simpl in H; [auto | discriminate].
  - rewrite orb_true_iff, String.eqb_eq, IH. split.
    + intros [<-|(pre & ->)]; [now exists ""%string | now exists (String c pre)].
    + intros ([|c' pre] & H); simpl in H; [now left|].
      injection H as <- ->. right. now exists pre.
Qed.

Lemma Entry_nested_ind (P : Entry C -> Prop) :
  (forall name content, P (File name content)) ->
  (forall name children, Forall P children -> P (Dir name children)) ->
  (forall name content, P (Special name content)) ->
  forall e, P e.
Proof.
  intros HF HD HS.
  fix IH 1. intros [name content|name children|name content].
  - apply HF.
  - apply HD. induction children as [|e children IHc]; constructor.
    + apply IH.
    + exact IHc.
  - apply HS.
Qed.

Lemma files_here_In (root : string) (listing : list (Entry C))
  (p : string) (c : C) :
  In (p, c) (Collate.files_here filemask root listing) <->
  exists name, (In (File name c) listing \/ In (Special name c) listing)
    /\ str_endswith name filemask = true /\ p = path_join root name.
Proof.
  unfold Collate.files_here. rewrite in_flat_map. split.
  - intros (e & He & Hin).
    destruct e as [name content|name children|name content];
      try destruct Hin;
      (destruct (str_endswith name filemask) eqn:E; [|destruct Hin]);
      destruct Hin as [[= <- <-]|[]]; exists name; auto.
  - intros (name & [Hin|Hin] & Hm & ->);
      [exists (File name c) | exists (Special name c)];
      (split; [exact Hin|]); rewrite Hm; now left.
Qed.

Lemma located_here (root : string) (listing : list (Entry C))
  (p name : string) (c : C) :
  located root listing p name c ->
  ((In (File name c) listing \/ In (Special name c) listing)
   /\ p = path_join root name)
  \/ exists d children, In (Dir d children) listing
       /\ located (path_join root d) children p name c.
Proof.
  intros H. destruct H as [root listing name c Hin|root listing name c Hin
                           |root listing d ch p name c Hin Hloc].
  - left. auto.
  - left. auto.
  - right. exists d, ch. auto.
Qed.

Lemma walk_entry_In (e : Entry C) :
  forall root p c,
    In (p, c) (Collate.walk_entry filemask root e) <->
    exists d children name,
      e = Dir d children
      /\ located (path_join root d) children p name c
      /\ str_endswith name filemask = true.
Proof.
  induction e as [name content|d children IH|name content]
    using Entry_nested_ind; intros root p c.
  - simpl. split; [intros [] | intros (? & ? & ? & H & _); discriminate].
  - cbn [Collate.walk_entry]. rewrite in_app_iff, files_here_In, in_flat_map.
    rewrite Forall_forall in IH. split.
    + intros [(name & Hin & Hm & ->)|(e' & He' & Hin)].
      * exists d, children, name. split; [reflexivity|]. split; [|exact Hm].
        destruct Hin as [Hin|Hin]; [now apply located_file
                                   | now apply located_special].
      * apply (IH e' He') in Hin as (d' & ch' & name & -> & Hloc & Hm).
        exists d, children, name. split; [reflexivity|]. split; [|exact Hm].
        eapply located_below; eassumption.
    + intros (d0 & ch0 & name & [= <- <-] & Hloc & Hm).
      apply located_here in Hloc as [[Hin ->]|(d' & ch' & Hin & Hloc)].
      * left. exists name. auto.
      * right. exists (Dir d' ch'). split; [exact Hin|].
        apply (IH _ Hin). exists d', ch', name. auto.
  - simpl. split; [intros [] | intros (? & ? & ? & H & _); discriminate].
Qed.

Lemma walk_In (root : string) (listing : list (Entry C)) (p : string) (c : C) :
  In (p, c) (Collate.walk filemask root listing) <->
  exists name, located root listing p name c
               /\ str_endswith name filemask = true.
Proof.
  unfold Collate.walk. rewrite in_app_iff, files_here_In, in_flat_map. split.
  - intros [(name & Hin & Hm & ->)|(e & He & Hin)].
    + exists name. split; [|exact Hm].
      destruct Hin as [Hin|Hin]; [now apply located_file
                                 | now apply located_special].
    + apply walk_entry_In in Hin as (d & ch & name & -> & Hloc & Hm).
      exists name. split; [|exact Hm]. eapply located_below; eassumption.
  - intros (name & Hloc & Hm).
    apply located_here in Hloc as [[Hin ->]|(d & ch & Hin & Hloc)].
    + left. exists name. auto.
    + right. exists (Dir d ch). split; [exact Hin|].
      apply walk_entry_In. exists d, ch, name. auto.
Qed.

(** X19.  The files that [collate_csv] collects are the entries that are
    no directory, at any depth below the working directory, whose name ends
    with the mask as a plain suffix, each under the path that leads to
    it.  They come in the order of a top-down walk: first the files of the
    directory, one for each entry of its listing whose name ends with the
    mask, in the order of the listing, then, subdirectory after
    subdirectory in that order, what the walk of the subdirectory
    collects. *)
Theorem X19_walk_collects_every_depth (working_dir : string)
  (listing : list (Entry C)) :
  (forall p c,
     In (p, c) (Collate.walk filemask working_dir listing) <->
     exists name pre,
       located working_dir listing p name c /\ name = (pre ++ filemask)%string)
  /\ Collate.walk filemask working_dir listing
     = flat_map (fun e =>
                   match e with
                   | File name c | Special name c =>
                       if str_endswith name filemask
                       then [(path_join working_dir name, c)]
                       else []
                   | Dir _ _ => []
                   end) listing
       ++ flat_map (fun e =>
                      match e with
                      | Dir d children =>
                          Collate.walk filemask (path_join working_dir d) children
                      | _ => []
                      end) listing.
Proof.
  split.
  - intros p c. rewrite walk_In. split.
    + intros (name & Hloc & Hm). apply str_endswith_spec in Hm as [pre Hpre].
      exists name, pre. auto.
    + intros (name & pre & Hloc & Hpre). exists name. split; [exact Hloc|].
      apply str_endswith_spec. now exists pre.
  - unfold Collate.walk at 1. f_equal.
    apply flat_map_ext. intros [name c|d children|name c]; reflexivity.
Qed.

End WalkFacts.

Section CollateFacts.

Variable V : Type.

Lemma read_all_contents (file_list : list (string * Result (Collate.Frame V)))
  (df_list : list (Collate.Frame V)) :
  Collate.read_all file_list = Ok df_list ->
  map snd file_list = map Ok df_list.
Proof.
  revert df_list. induction file_list as [|[p [f|e]] l IH]; simpl; intros fs H.
  - injection H as <-. reflexivity.
  - destruct (Collate.read_all l) as [fs'|]; [|discriminate].
    injection H as <-. simpl. f_equal. now apply IH.
  - discriminate.
Qed.

Lemma index_of_None (c : string) (l : list string) :
  ~ In c l -> Collate.index_of c l = None.
Proof.
  induction l as [|x l IH]; simpl; [reflexivity|]. intros H.
  destruct (String.eqb c x) eqn:E.
  - apply String.eqb_eq in E. subst. exfalso. apply H. now left.
  - rewrite IH; [reflexivity|]. intros Hin. apply H. now right.
Qed.

Lemma select_columns_ok (columnlist : list string)
  (df_list : list (Collate.Frame V)) (out : list (list (option V))) :
  Collate.select_columns columnlist df_list = Ok out ->
  (forall c, In c columnlist -> Collate.has_column df_list c = true)
  /\ out = flat_map (fun f => map (fun row => map (Collate.cell f row) columnlist)
                                (Collate.rows f)) df_list.
Proof.
  unfold Collate.select_columns.
  destruct (find _ columnlist) as [c|] eqn:E; [discriminate|].
  intros [= <-]. split; [|reflexivity].
  intros c Hc. apply (find_none _ _ E) in Hc. now apply negb_false_iff in Hc.
Qed.

Lemma length_flat_map_rows (g : Collate.Frame V -> list (option V) -> list (option V))
  (df_list : list (Collate.Frame V)) :
  List.length (flat_map (fun f => map (g f) (Collate.rows f)) df_list)
  = List.length (flat_map (@Collate.rows V) df_list).
Proof.
  induction df_list as [|f l IH]; simpl; [reflexivity|].
  now rewrite !length_app, length_map, IH.
Qed.

(** X20.  [collate_csv] writes no file, and fails in no way, exactly when
    no entry other than a directory, at any depth, has a name that ends
    with the mask; the column list plays no part then. *)
Theorem X20_nothing_collected (working_dir filemask outputfile columnlist : string)
  (listing : list (Entry (Result (Collate.Frame V)))) :
  Collate.cli working_dir filemask outputfile columnlist listing = Ok None <->
  forall p name c, located working_dir listing p name c ->
                   str_endswith name filemask = false.
Proof.
  unfold Collate.cli. split.
  - intros Hrun p name c Hloc.
    destruct (str_endswith name filemask) eqn:E; [exfalso | reflexivity].
    assert (Hin : In (p, c) (Collate.walk filemask working_dir listing)).
    { apply walk_In. exists name. auto. }
    destruct (Collate.walk filemask working_dir listing) as [|[p0 [f|e]] l];
      [destruct Hin| |]; simpl in Hrun.
    + destruct (Collate.read_all l); [|discriminate].
      destruct (Collate.select_columns _ _); discriminate.
    + discriminate.
  - intros Hnone.
    destruct (Collate.walk filemask working_dir listing) as [|[p c] l] eqn:E;
      [reflexivity | exfalso].
    assert (Hin : In (p, c) (Collate.walk filemask working_dir listing))
      by (rewrite E; now left).
    apply walk_In in Hin as (name & Hloc & Hm).
    rewrite (Hnone p name c Hloc) in Hm. discriminate.
Qed.

Lemma map_flat_map_rows {A B : Type} (h : A -> B)
  (g : Collate.Frame V -> list (option V) -> A)
  (df_list : list (Collate.Frame V)) :
  map h (flat_map (fun f => map (g f) (Collate.rows f)) df_list)
  = flat_map (fun f => map (fun row => h (g f row)) (Collate.rows f)) df_list.
Proof.
  induction df_list as [|f l IH]; simpl; [reflexivity|].
  now rewrite map_app, map_map, IH.
Qed.

(** X21.  When [collate_csv] writes a file, it writes it in the working
    directory under the configured name; every collected file was read; the
    header is the column list as split; every column of the header is a
    column of some file; there is one output row for each row read, file
    after file and row after row in the order read, as long as the header;
    and a cell of an output row is empty exactly when the row read has no
    value in the column of the header, which is so for every column that
    its file lacks. *)
Theorem X21_output_shape (working_dir filemask outputfile columnlist : string)
  (listing : list (Entry (Result (Collate.Frame V))))
  (o : Collate.Output V) :
  Collate.cli working_dir filemask outputfile columnlist listing = Ok (Some o) ->
  exists df_list,
    map snd (Collate.walk filemask working_dir listing) = map Ok df_list
    /\ df_list <> []
    /\ Collate.out_path o = path_join working_dir outputfile
    /\ Collate.out_header o = str_split "," columnlist
    /\ (forall c, In c (Collate.out_header o) ->
          exists f, In f df_list /\ In c (Collate.columns f))
    /\ List.length (Collate.out_rows o)
       = List.length (flat_map (@Collate.rows V) df_list)
    /\ (forall out_row, In out_row (Collate.out_rows o) ->
          List.length out_row = List.length (Collate.out_header o))
    /\ map (map (@is_none V)) (Collate.out_rows o)
       = flat_map
           (fun f =>
              map (fun row =>
                     map (fun c => is_none (Collate.cell f row c))
                       (Collate.out_header o))
                (Collate.rows f)) df_list
    /\ (forall (f : Collate.Frame V) row c, ~ In c (Collate.columns f) ->
          is_none (Collate.cell f row c) = true).
Proof.
  unfold Collate.cli. intros Hrun.
  destruct (Collate.read_all _) as [df_list|] eqn:Eread; [|discriminate].
  destruct df_list as [|f0 fs]; [discriminate|].
  destruct (Collate.select_columns _ _) as [out|] eqn:Esel; [|discriminate].
  injection Hrun as <-. cbn [Collate.out_path Collate.out_header Collate.out_rows].
  apply select_columns_ok in Esel as [Hcols ->].
  exists (f0 :: fs). split; [now apply read_all_contents|].
  split; [discriminate|]. split; [reflexivity|]. split; [reflexivity|].
  split; [|split; [|split; [|split]]].
  - intros c Hc. specialize (Hcols c Hc). unfold Collate.has_column in Hcols.
    apply existsb_exists in Hcols as (f & Hf & Hmem).
    exists f. split; [exact Hf | now apply dict_mem_In].
  - apply (length_flat_map_rows (fun f row => map (Collate.cell f row)
                                                (str_split "," columnlist))).
  - intros out_row Hin. apply in_flat_map in Hin as (f & Hf & Hin).
    apply in_map_iff in Hin as (row & <- & Hrow). apply length_map.
  - rewrite (map_flat_map_rows (map (@is_none V))
               (fun f row => map (Collate.cell f row) (str_split "," columnlist))).
    apply flat_map_ext. intros f. apply map_ext. intros row. apply map_map.
  - intros f row c Hc. unfold Collate.cell. now rewrite index_of_None.
Qed.

(** X22.  When every collected file was read and the column list names a
    column that no file has, [collate_csv] fails with a [KeyError] for such
    a column, and writes nothing. *)
Theorem X22_unknown_column (working_dir filemask outputfile columnlist : string)
  (listing : list (Entry (Result (Collate.Frame V))))
  (df_list : list (Collate.Frame V)) (c : string) :
  Collate.read_all (Collate.walk filemask working_dir listing) = Ok df_list ->
  df_list <> [] ->
  In c (str_split "," columnlist) ->
  (forall f, In f df_list -> ~ In c (Collate.columns f)) ->
  exists c',
    Collate.cli working_dir filemask outputfile columnlist listing
    = Raise (KeyError c')
    /\ In c' (str_split "," columnlist)
    /\ forall f, In f df_list -> ~ In c' (Collate.columns f).
Proof.
  intros Hread Hne Hc Hnone. unfold Collate.cli. rewrite Hread.
  destruct df_list as [|f0 fs]; [congruence|].
  unfold Collate.select_columns.
  destruct (find _ (str_split "," columnlist)) as [c'|] eqn:E.
  - apply find_some in E as [Hin Hno]. exists c'. split; [reflexivity|].
    split; [exact Hin|]. intros f Hf Hcol. apply negb_true_iff in Hno.
    unfold Collate.has_column in Hno.
    rewrite (proj2 (existsb_exists _ _)) in Hno; [discriminate|].
    exists f. split; [exact Hf | now apply dict_mem_In].
  - exfalso. apply (find_none _ _ E) in Hc. apply negb_false_iff in Hc.
    unfold Collate.has_column in Hc. apply existsb_exists in Hc as (f & Hf & Hmem).
    apply dict_mem_In in Hmem. exact (Hnone f Hf Hmem).
Qed.

End CollateFacts.

(* ================================================================== *)
(** * The further properties on the sample runs *)

Lemma X1_first_response_witness :
  In Sample.row_S1 (table_rows Sample.table)
  /\ exists a, In a (survivors Sample.cfg Sample.date_map Sample.frames)
       /\ a_id a = "S1"%string
       /\ Some 1 = Some (a_days a)
       /\ forall b, In b (survivors Sample.cfg Sample.date_map Sample.frames) ->
            a_id b = "S1"%string -> a_days a <= a_days b.
Proof.
  split; [exact sample_row_S1|].
  exact (X1_first_response Sample.cfg Sample.date_map Sample.frames []
           Sample.row_S1 sample_run sample_row_S1).
Defined.

Lemma X2_summary_bounds_witness :
  In Sample.row_S1 (table_rows Sample.table)
  /\ exists f p,
       Some 1 = Some f /\ Some 5 = Some p /\ 1 <= f /\ 1 <= p
       /\ f + p - 1 <= 5
       /\ forall y, Some 1 = Some y -> f <= y <= 5.
Proof.
  split; [exact sample_row_S1|].
  exact (X2_summary_bounds Sample.cfg Sample.date_map Sample.frames []
           Sample.row_S1 sample_run sample_row_S1).
Defined.

Lemma sample_asserts :
  Dict.mem "b" (Dict.keys (cfg_responses Sample.cfg)) = false
  /\ Dict.mem "B" (Dict.values (cfg_responses Sample.cfg)) = false.
Proof. split; reflexivity. Defined.

Lemma X3_returns_table_only_if_witness :
  snd (cli Sample.cfg Sample.date_map Sample.frames []) = Ok Sample.table
  /\ Sample.frames <> []
  /\ has_dup same_cell (survivors Sample.cfg Sample.date_map Sample.frames)
     = false.
Proof.
  assert (Hrun : snd (cli Sample.cfg Sample.date_map Sample.frames [])
                 = Ok Sample.table) by (now rewrite sample_run).
  split; [exact Hrun|].
  destruct (X3_returns_table_only_if Sample.cfg Sample.date_map Sample.frames
              [] Hrun) as (_ & _ & Hne & _ & Hcells).
  split; [exact Hne | exact Hcells].
Defined.

Lemma sample_ascii_responses : ascii_responses Sample.frames_invalid_twin.
Proof.
  intros f r s Hf Hr Hs. simpl in Hf.
  destruct Hf as [<-|[<-|[]]]; simpl in Hr; destruct Hr as [<-|[]];
    injection Hs as <-; reflexivity.
Defined.

Lemma X5_invalid_responses_logged_witness :
  ascii_responses Sample.frames_invalid_twin
  /\ Sample.frames_invalid_twin <> []
  /\ In (ErrorInvalidResponses
           [mkRow "S1"%string (Sample.day 18273) "x"%string "S1/b.csv"%string])
        (fst (cli Sample.cfg Sample.date_map Sample.frames_invalid_twin [])).
Proof.
  assert (Hne : Sample.frames_invalid_twin <> []) by discriminate.
  split; [exact sample_ascii_responses|]. split; [exact Hne|].
  destruct (X5_invalid_responses_logged Sample.cfg Sample.date_map
              sample_ascii_responses
              (proj1 sample_asserts) (proj2 sample_asserts) Hne) as [Hlog _].
  apply Hlog. split; [reflexivity | discriminate].
Defined.

Lemma X6_blank_becomes_B_witness :
  In (mkRow "S1"%string (Sample.day 18274) "B"%string "S1/a.csv"%string)
     (validated Sample.cfg Sample.frames).
Proof.
  apply (X6_blank_becomes_B Sample.cfg Sample.frames
           (nth 0 Sample.frames [])
           (mkRawRow "S1"%string (Sample.day 18274) None "S1/a.csv"%string)).
  - left. reflexivity.
  - right. left. reflexivity.
  - left. reflexivity.
Defined.

Lemma X7_duplicate_rows_logged_witness :
  Sample.frames_twin <> []
  /\ In (ErrorDuplicateRows
           [mkRow "S1"%string (Sample.day 18273) "Y"%string "S1/a.csv"%string;
            mkRow "S1"%string (Sample.day 18273) "N"%string "S1/b.csv"%string])
        (fst (cli Sample.cfg Sample.date_map Sample.frames_twin [])).
Proof.
  assert (Hne : Sample.frames_twin <> []) by discriminate.
  split; [exact Hne|].
  destruct (X7_duplicate_rows_logged Sample.cfg Sample.date_map
              (proj1 sample_asserts) (proj2 sample_asserts) Hne) as [Hlog _].
  apply Hlog. split; [reflexivity | discriminate].
Defined.

Lemma X8_day_cells_witness :
  nth_error (day_columns Sample.table) 1 = Some "Day2"%string
  /\ nth_error (row_days Sample.row_S1) 1 = Some (Some "B"%string)
  /\ nth_error (row_days Sample.row_S2) 1 = Some None.
Proof.
  assert (Hk : nth_error (day_columns Sample.table) 1 = Some "Day2"%string)
    by reflexivity.
  split; [exact Hk|]. split.
  - destruct (X8_day_cells Sample.cfg Sample.date_map Sample.frames []
                Sample.row_S1 1 sample_run sample_row_S1 Hk) as (Hcell & _).
    apply (Hcell Sample.blank_S1); [vm_compute; tauto | reflexivity | reflexivity].
  - destruct (X8_day_cells Sample.cfg Sample.date_map Sample.frames []
                Sample.row_S2 1 sample_run sample_row_S2 Hk) as (_ & Hnone & _).
    reflexivity.
Defined.

Lemma X9_totals_add_up_witness :
  In Sample.row_S1 (table_rows Sample.table)
  /\ totals_sum (row_totals Sample.row_S1) = 3
  /\ filled_cells (row_days Sample.row_S1) = 3%nat.
Proof.
  split; [exact sample_row_S1|].
  destruct (X9_totals_add_up Sample.cfg Sample.date_map Sample.frames []
              Sample.row_S1 sample_run sample_row_S1) as (Hsum & Hfill & _).
  split; [exact Hsum | exact Hfill].
Defined.

Lemma X10_day_columns_ascending_witness :
  exists days,
    day_columns Sample.table = map (day_label 5) days
    /\ Sorted Z.lt days
    /\ forall d, In d days <->
         exists a, In a (survivors Sample.cfg Sample.date_map Sample.frames)
                   /\ a_days a = d.
Proof.
  exact (X10_day_columns_ascending Sample.cfg Sample.date_map Sample.frames []
           sample_run).
Defined.

Lemma X13_missing_dates_warning_witness :
  SampleFiles.s1_rows <> []
  /\ snd (read_datafile "data/S1/a.csv" (Ok SampleFiles.s1_rows) [])
     = Ok SampleFiles.s1_rows
  /\ In (WarnMissingDates "data/S1/a.csv"
           [Sample.day 18275; Sample.day 18276])
        (fst (read_datafile "data/S1/a.csv" (Ok SampleFiles.s1_rows) [])).
Proof.
  assert (Hne : SampleFiles.s1_rows <> []) by discriminate.
  split; [exact Hne|].
  destruct (X13_missing_dates_warning "data/S1/a.csv" Hne) as (Hok & _).
  split; [exact Hok|]. vm_compute. tauto.
Defined.

Lemma X15_read_frames_skips_bad_files_witness :
  let files := [("a.csv"%string, Ok SampleFiles.s1_rows);
                ("bad.csv"%string, Raise (KeyError "Date"));
                ("empty.csv"%string, Ok [])] in
  (forall p e, In (p, Raise e) files -> caught e = true)
  /\ snd (read_frames files [])
     = Ok [ [ mkRawRow "S1"%string (Sample.day 18273) (Some " Y "%string)
                "a.csv"%string;
              mkRawRow "S1"%string (Sample.day 18274) None "a.csv"%string;
              mkRawRow "S1"%string (Sample.day 18277) (Some "y"%string)
                "a.csv"%string ] ]
  /\ filter (@is_error_entry string) (fst (read_frames files []))
     = [ ErrorInFile "bad.csv" (KeyError "Date");
         ErrorInFile "empty.csv" (ValueError "min() arg is an empty sequence") ].
Proof.
  intros files.
  assert (Hcaught : forall p e, In (p, Raise e) files -> caught e = true).
  { intros p e [H|[H|[H|[]]]]; try discriminate. injection H as _ <-. reflexivity. }
  split; [exact Hcaught|].
  exact (X15_read_frames_skips_bad_files files Hcaught).
Defined.

Lemma X16_read_frames_propagates_witness :
  caught AssertionError = false
  /\ snd (read_frames
            ([("a.csv"%string, Ok SampleFiles.s1_rows)]
             ++ ("b.csv"%string, Raise AssertionError)
                :: [("c.csv"%string, Ok SampleFiles.s2_rows)]) [])
     = Raise AssertionError.
Proof.
  split; [reflexivity|].
  refine (proj1 (X16_read_frames_propagates
                   [("a.csv"%string, Ok SampleFiles.s1_rows)]
                   [("c.csv"%string, Ok SampleFiles.s2_rows)]
                   "b.csv" AssertionError _ eq_refl)).
  intros p e' [H|[]]. discriminate.
Defined.

Lemma X17_no_usable_file_witness :
  snd (cli_directory SampleFiles.fnmatch_star Sample.cfg Sample.date_map
         "data" SampleFiles.listing_unreadable "*.csv" [])
  = Raise (ValueError "No objects to concatenate").
Proof.
  apply X17_no_usable_file.
  - reflexivity.
  - reflexivity.
  - intros d children name c Hd Hname _.
    destruct Hd as [Hd|[]]. injection Hd as <- <-.
    destruct Hname as [H|[H|[]]]; injection H as <- <-.
    + right. eexists. split; reflexivity.
    + left. reflexivity.
Defined.

Lemma X18_split_columns_round_trip_witness :
  str_split "," "ID, Date,,Response" = ["ID"; " Date"; ""; "Response"]%string
  /\ str_join "," (str_split "," "ID, Date,,Response")
     = "ID, Date,,Response"%string
  /\ str_split "," (str_join "," ["ID"; "Date"]%string) = ["ID"; "Date"]%string.
Proof.
  destruct (X18_split_columns_round_trip "ID, Date,,Response"
              ["ID"; "Date"]%string) as (_ & Hjoin & _ & Hsplit).
  split; [reflexivity|]. split; [exact Hjoin|].
  apply Hsplit; [discriminate|].
  intros name [<-|[<-|[]]]; reflexivity.
Defined.

Lemma X21_output_shape_witness :
  let o := Collate.mkOutput "work/out.csv"%string ["a"; "c"]%string
             [[Some "1"; None]; [Some "3"; None]; [None; Some "5"]]%string in
  Collate.cli "work" ".csv" "out.csv" "a,c" SampleFiles.tree = Ok (Some o)
  /\ exists df_list,
       map snd (Collate.walk ".csv" "work" SampleFiles.tree) = map Ok df_list
       /\ List.length (Collate.out_rows o)
          = List.length (flat_map (@Collate.rows string) df_list)
       /\ map (map (@is_none string)) (Collate.out_rows o)
          = flat_map
              (fun f =>
                 map (fun row =>
                        map (fun c => is_none (Collate.cell f row c))
                          (Collate.out_header o))
                   (Collate.rows f)) df_list.
Proof.
  intros o.
  assert (Hrun : Collate.cli "work" ".csv" "out.csv" "a,c" SampleFiles.tree
                 = Ok (Some o)) by reflexivity.
  split; [exact Hrun|].
  destruct (X21_output_shape _ _ _ _ _ Hrun)
    as (df_list & Hread & _ & _ & _ & _ & Hlen & _ & Hcells & _).
  exists df_list. split; [exact Hread|]. split; [exact Hlen | exact Hcells].
Defined.

Lemma X22_unknown_column_witness :
  Collate.read_all (Collate.walk ".csv" "work" SampleFiles.tree)
  = Ok [SampleFiles.frame_ab; SampleFiles.frame_bc]
  /\ exists c',
       Collate.cli "work" ".csv" "out.csv" "a,d" SampleFiles.tree
       = Raise (KeyError c').
Proof.
  assert (Hread : Collate.read_all (Collate.walk ".csv" "work" SampleFiles.tree)
                  = Ok [SampleFiles.frame_ab; SampleFiles.frame_bc])
    by reflexivity.
  split; [exact Hread|].
  destruct (X22_unknown_column "work" ".csv" "out.csv" "a,d" SampleFiles.tree
              "d"%string Hread) as (c' & Hrun & _).
  - discriminate.
  - right. now left.
  - intros f [<-|[<-|[]]]; simpl; intros H; intuition discriminate.
  - exists c'. exact Hrun.
Defined.
